(** * Bengali MoreHopQA translation pipeline: a shallow embedding

    The repository holds four iterations of one translation script
    ([translate_to_bn.py], [translate_to_bn_v2.py], [translate_to_bn_v3.py],
    [translate_v4.py]).  The Python code is embedded as state-and-exception
    passing functions over JSON values; the translation backend, the disk and
    the dataset hub are oracles collected in an environment record. *)

From Stdlib Require Import QArith DecimalString DecimalNat PrimFloat.
From stdpp Require Import base list strings gmap.

Close Scope Q_scope.
Open Scope string_scope.
Open Scope nat_scope.
Open Scope list_scope.
Open Scope stdpp_scope.

(** ** JSON values as Python sees them *)

#[warnings="-register-all"] Inductive value :=
| VNone
| VBool (b : bool)
| VInt (z : Z)
| VFloat (f : float)
| VStr (s : string)
| VList (l : list value)
| VDict (d : list (string * value)).

(** A Python [dict] keeps insertion order: an association list whose keys
    are pairwise distinct. *)
Abbreviation pydict := (list (string * value)).

Definition dict_wf (d : pydict) : Prop := NoDup (d.*1).

Fixpoint dict_get (d : pydict) (k : string) : option value :=
  match d with
  | [] => None
  | (k', v) :: d' => if String.eqb k' k then Some v else dict_get d' k
  end.

(** [d[k] = v]: overwrite in place when the key exists, append otherwise. *)
Fixpoint dict_set (d : pydict) (k : string) (v : value) : pydict :=
  match d with
  | [] => [(k, v)]
  | (k', v') :: d' =>
      if String.eqb k' k then (k', v) :: d' else (k', v') :: dict_set d' k v
  end.

Definition is_empty_str (s : string) : bool :=
  match s with EmptyString => true | _ => false end.

(** Python truthiness, as tested by [if not text] and [if not decomp_list]. *)
Definition truthy (v : value) : bool :=
  match v with
  | VNone => false
  | VBool b => b
  | VInt z => negb (Z.eqb z 0)
  | VFloat f => negb (PrimFloat.eqb f 0%float)
  | VStr s => negb (is_empty_str s)
  | VList l => match l with [] => false | _ => true end
  | VDict d => match d with [] => false | _ => true end
  end.

Definition is_str (v : value) : bool :=
  match v with VStr _ => true | _ => false end.

Definition is_list (v : value) : bool :=
  match v with VList _ => true | _ => false end.

Definition type_name (v : value) : string :=
  match v with
  | VNone => "NoneType"
  | VBool _ => "bool"
  | VInt _ => "int"
  | VFloat _ => "float"
  | VStr _ => "str"
  | VList _ => "list"
  | VDict _ => "dict"
  end.

(** ** Exceptions and results *)

Inductive exn :=
| KeyError (key : string)
| TypeError (msg : string)
| AttributeError (msg : string)
| OSError (msg : string)
| RemoteError (msg : string).

(** [str(e)]: a [KeyError] prints the repr of its key. *)
Definition exn_str (e : exn) : string :=
  match e with
  | KeyError k => "'" +:+ k +:+ "'"
  | TypeError m | AttributeError m | OSError m | RemoteError m => m
  end.

Inductive result (A : Type) :=
| Ret (a : A)
| Raise (e : exn).
Arguments Ret {A} a.
Arguments Raise {A} e.

(** ** The outside world *)

(** One call of [self.translator.translate(text, dest='bn')] followed by
    [.text]: the translated text, or an exception with its message. *)
Inductive outcome :=
| Ok (text : string)
| Fail (err : string).

Inductive level := INFO | WARNING | ERROR.

Inductive fs_op :=
| Makedirs (dir : string)
| OpenW (path : string)
| WriteChunk (path : string) (chunk : string)
| CloseF (path : string)
| Rename (src dst : string).

Inductive event :=
| ECall (text : value) (o : outcome)
| ESleep (seconds : Q)
| ELog (lvl : level) (msg : string)
| EPush (repo : string) (data : list value)
| EUpload (path_in_repo : string) (content : string)
| EPrint (v : value).

(** What the program cannot decide for itself.  [svc n text] is the answer
    of the translation backend to its [n]-th call; when that call fails,
    [at_text n text] tells whether [translate] itself had returned and the
    exception comes from reading [.text] of what it returned; [disk num]
    tells whether writing checkpoint [num] fails, at which file-system
    operation and with which message; [arrow_table rows] is what the Arrow
    table behind a [Dataset] makes of the rows it is built from: the rows a
    loop over the dataset sees, or the exception of the conversion;
    [timestamp num] is the formatted clock reading when checkpoint [num] is
    saved. *)
Record env := {
  svc : nat → value → outcome;
  at_text : nat → value → bool;
  arrow_table : list value → result (list value);
  disk : nat → option (nat * string);
  py_repr : value → string;
  json_chunks : value → list string;
  hub_login : option string;
  hub_download : outcome;
  json_load : list value;
  push_to_hub : list value → option string;
  upload_file : string → option string;
  timestamp : nat → string
}.

Record tstate := { ncalls : nat; trace : list event }.

Record filesys := { dirs : gset string; files : gmap string string }.

(** The program state, the disk, and the file-system operations issued so
    far. *)
Record world := { w_ts : tstate; w_fs : filesys; w_ops : list fs_op }.

(** ** A state-and-exception monad *)

Definition SE (S A : Type) : Type := S → result A * S.

Definition ret {S A} (a : A) : SE S A := fun s => (Ret a, s).

Definition raise {S A} (e : exn) : SE S A := fun s => (Raise e, s).

Definition bind {S A B} (c : SE S A) (k : A → SE S B) : SE S B :=
  fun s =>
    match c s with
    | (Ret a, s') => k a s'
    | (Raise e, s') => (Raise e, s')
    end.

(** [try: c  except Exception as e: h e] *)
Definition try_except {S A} (c : SE S A) (h : exn → SE S A) : SE S A :=
  fun s =>
    match c s with
    | (Ret a, s') => (Ret a, s')
    | (Raise e, s') => h e s'
    end.

Definition of_result {S A} (r : result A) : SE S A := fun s => (r, s).

Declare Scope py_scope.
Delimit Scope py_scope with py.
Notation "x <- c ;; k" := (bind c (fun x => k))
  (at level 100, c at next level, k at level 200, right associativity)
  : py_scope.
Notation "c ;; k" := (bind c (fun _ => k))
  (at level 100, k at level 200, right associativity) : py_scope.
Open Scope py_scope.

Abbreviation T := (SE tstate).
Abbreviation M := (SE world).

Definition emit (e : event) : T unit :=
  fun s => (Ret tt, {| ncalls := ncalls s; trace := trace s ++ [e] |}).

Definition log (lvl : level) (msg : string) : T unit := emit (ELog lvl msg).

Definition sleep (seconds : Q) : T unit := emit (ESleep seconds).

Definition call_service (E : env) (text : value) : T outcome :=
  fun s =>
    let o := svc E (ncalls s) text in
    (Ret o, {| ncalls := S (ncalls s); trace := trace s ++ [ECall text o] |}).

(** The call as translate_to_bn_v2.py and translate_to_bn_v3.py make it,
    in two steps: [translate(text, dest='bn')] now, [.text] of its result
    later.  The flag tells, for a call that fails, that the failure is left
    for the second step. *)
Definition call_translate (E : env) (text : value) : T (outcome * bool) :=
  fun s =>
    let o := svc E (ncalls s) text in
    (Ret (o, at_text E (ncalls s) text),
     {| ncalls := S (ncalls s); trace := trace s ++ [ECall text o] |}).

Definition lift {A} (c : T A) : M A :=
  fun w =>
    let (r, s') := c (w_ts w) in
    (r, {| w_ts := s'; w_fs := w_fs w; w_ops := w_ops w |}).

(** A computation that needs no state, run for its result. *)
Definition run_pure {A} (c : SE unit A) : result A := fst (c tt).

(** ** Python primitives used by the scripts *)

(** [v[key]] with a string key.  The texts of [TypeError] are those of
    CPython 3.11. *)
Definition getitem (v : value) (key : string) : result value :=
  match v with
  | VDict d =>
      match dict_get d key with
      | Some x => Ret x
      | None => Raise (KeyError key)
      end
  | VStr _ => Raise (TypeError "string indices must be integers, not 'str'")
  | VList _ =>
      Raise (TypeError "list indices must be integers or slices, not str")
  | _ => Raise (TypeError ("'" +:+ type_name v +:+ "' object is not subscriptable"))
  end.

(** [v[:n]] *)
Definition slice_to (n : nat) (v : value) : result value :=
  match v with
  | VStr s => Ret (VStr (String.substring 0 n s))
  | VList l => Ret (VList (take n l))
  | VDict _ => Raise (TypeError "unhashable type: 'slice'")
  | _ => Raise (TypeError ("'" +:+ type_name v +:+ "' object is not subscriptable"))
  end.

Definition chars (s : string) : list value :=
  (fun a => VStr (String a EmptyString)) <$> String.list_ascii_of_string s.

(** The items a [for] loop sees. *)
Definition iter_value (v : value) : result (list value) :=
  match v with
  | VList l => Ret l
  | VDict d => Ret (VStr <$> d.*1)
  | VStr s => Ret (chars s)
  | _ => Raise (TypeError ("'" +:+ type_name v +:+ "' object is not iterable"))
  end.

(** [v.items()] *)
Definition dict_items (v : value) : result pydict :=
  match v with
  | VDict d => Ret d
  | _ => Raise (AttributeError
                  ("'" +:+ type_name v +:+ "' object has no attribute 'items'"))
  end.

(** A value inside an f-string. *)
Definition fmt (E : env) (v : value) : string :=
  match v with VStr s => s | _ => py_repr E v end.

Definition str_of_nat (n : nat) : string :=
  NilEmpty.string_of_uint (Nat.to_uint n).


(** A list comprehension [[f x for x in l]]. *)
Fixpoint mapM {S A B} (f : A → SE S B) (l : list A) : SE S (list B) :=
  match l with
  | [] => ret []
  | x :: rest =>
      y <- f x ;;
      ys <- mapM f rest ;;
      ret (y :: ys)
  end.

(** [Dataset.from_list(mapping)] of the datasets library, which is
    [from_dict({k: [r.get(k) for r in mapping] for k in mapping[0]})]: the
    columns are the keys of the first record, every record is read through
    [.get], and the columns go to Arrow. *)
Definition row_of (columns : list string) (r : value) : result value :=
  match r with
  | VDict d =>
      Ret (VDict ((fun k => (k, default VNone (dict_get d k))) <$> columns))
  | _ => Raise (AttributeError
                  ("'" +:+ type_name r +:+ "' object has no attribute 'get'"))
  end.

Definition from_list (E : env) (mapping : list value) : result (list value) :=
  match mapping with
  | [] => arrow_table E []
  | first :: _ =>
      match iter_value first with
      | Raise e => Raise e
      | Ret [] => arrow_table E []
      | Ret _ =>
          let columns := match first with VDict d => d.*1 | _ => [] end in
          match run_pure (mapM (fun r => of_result (row_of columns r)) mapping)
          with
          | Ret rows => arrow_table E rows
          | Raise e => Raise e
          end
      end
  end.

(** ** The file system under [checkpoints/] *)

Definition apply_op (op : fs_op) (f : filesys) : filesys :=
  match op with
  | Makedirs d => {| dirs := {[d]} ∪ dirs f; files := files f |}
  | OpenW p => {| dirs := dirs f; files := <[p := ""]> (files f) |}
  | WriteChunk p c =>
      {| dirs := dirs f; files := alter (fun s => s +:+ c) p (files f) |}
  | CloseF _ => f
  | Rename src dst =>
      match files f !! src with
      | Some c => {| dirs := dirs f; files := <[dst := c]> (delete src (files f)) |}
      | None => f
      end
  end.

Definition do_fs (op : fs_op) : M unit :=
  fun w =>
    (Ret tt,
     {| w_ts := w_ts w;
        w_fs := apply_op op (w_fs w);
        w_ops := w_ops w ++ [op] |}).

(** Run file-system operations in order; with [fail = Some (j, msg)] the
    operation number [j] raises [OSError msg] instead of taking effect. *)
Fixpoint exec_ops (fail : option (nat * string)) (i : nat) (ops : list fs_op)
  : M unit :=
  match ops with
  | [] => ret tt
  | op :: rest =>
      match fail with
      | Some (j, msg) =>
          if Nat.eqb i j then raise (OSError msg)
          else do_fs op ;; exec_ops fail (S i) rest
      | None => do_fs op ;; exec_ops fail (S i) rest
      end
  end.

(** What is on disk when the process dies after [j] operations. *)
Definition crash_after (j : nat) (ops : list fs_op) (f : filesys) : filesys :=
  foldl (fun acc op => apply_op op acc) f (take j ops).

(** [os.path.join] of a relative directory and a file name. *)
Definition path_join (dir name : string) : string := dir +:+ "/" +:+ name.

(** The exit status of the interpreter: an uncaught exception gives 1. *)
Definition exit_status {A} (r : result A) : Z :=
  match r with Ret _ => 0%Z | Raise _ => 1%Z end.

(** ** translate_to_bn_v3.py *)

Module V3.

Definition CHECKPOINT_INTERVAL : nat := 100.
Definition MAX_RETRIES : nat := 3.
Definition RATE_LIMIT_DELAY : Q := (1 # 2)%Q.
Definition RETRY_DELAY : Q := (2 # 1)%Q.

(** [create_dataset_description] *)
Definition create_dataset_description : string :=
  "
        # Bengali MoreHopQA Dataset
        
        This is a Bengali translation of the MoreHopQA dataset. The original dataset contains multi-hop questions and answers,
        which have been automatically translated to Bengali using Google Translate.
        
        ## Dataset Structure
        - question: The main question in Bengali
        - answer: The answer in Bengali
        - context: Supporting context in Bengali
        - previous_question: Previous related question in Bengali
        - previous_answer: Previous answer in Bengali
        - question_decomposition: Decomposed sub-questions and answers in Bengali
        - question_on_last_hop: Final hop question in Bengali
        
        ## Fields Maintained from Original Dataset
        - answer_type
        - previous_answer_type
        - no_of_hops
        - reasoning_type
        
        Original dataset: alabnii/morehopqa
        ".

Section WithEnv.
Variable E : env.

(** The body of [for attempt in range(MAX_RETRIES)], over the attempts that
    remain.  Falling out of the loop is Python's implicit [return None].
    The [time.sleep(RATE_LIMIT_DELAY)] stands between [translate] and
    [result.text], inside the [try]: it is slept whenever [translate]
    returned, also when [.text] then raises. *)
Fixpoint translate_attempts (text : value) (attempts : list nat) : T value :=
  match attempts with
  | [] => ret VNone
  | attempt :: rest =>
      result <- call_translate E text ;;
      match result with
      | (Ok translated, _) =>
          sleep RATE_LIMIT_DELAY ;;
          ret (VStr translated)
      | (Fail e, reading_text) =>
          (if reading_text : bool then sleep RATE_LIMIT_DELAY else ret tt) ;;
          if Nat.eqb attempt (MAX_RETRIES - 1) then
            head50 <- of_result (slice_to 50 text) ;;
            log INFO ("Here is the texts: " +:+ fmt E head50) ;;
            head50' <- of_result (slice_to 50 text) ;;
            log WARNING ("Failed to translate: " +:+ fmt E head50'
                         +:+ "... Error: " +:+ e) ;;
            ret text
          else
            sleep RETRY_DELAY ;;
            translate_attempts text rest
      end
  end.

Definition translate_text (text : value) : T value :=
  if negb (truthy text) then ret (VStr "")
  else translate_attempts text (seq 0 MAX_RETRIES).

(** One [translated_item] of [translate_question_decomposition]; the dict
    display evaluates its values top to bottom. *)
Definition translate_decomp_item (item : value) : T value :=
  sub_id <- of_result (getitem item "sub_id") ;;
  q <- of_result (getitem item "question") ;;
  question <- translate_text q ;;
  a <- of_result (getitem item "answer") ;;
  answer <- translate_text a ;;
  p <- of_result (getitem item "paragraph_support_title") ;;
  paragraph_support_title <- translate_text p ;;
  ret (VDict [("sub_id", sub_id);
              ("question", question);
              ("answer", answer);
              ("paragraph_support_title", paragraph_support_title)]).

Fixpoint translate_decomp_loop (items : list value)
    (translated_decomp : list value) : T (list value) :=
  match items with
  | [] => ret translated_decomp
  | item :: rest =>
      translated_item <- translate_decomp_item item ;;
      translate_decomp_loop rest (translated_decomp ++ [translated_item])
  end.

Definition translate_question_decomposition (decomp_list : value) : T value :=
  if negb (truthy decomp_list) then ret (VList [])
  else
    items <- of_result (iter_value decomp_list) ;;
    translated_decomp <- translate_decomp_loop items [] ;;
    ret (VList translated_decomp).

(** The [{k: str(v) if isinstance(v, (list, dict)) else v ...}] of
    [download_dataset]. *)
Definition stringify_nested (v : value) : value :=
  match v with
  | VList _ | VDict _ => VStr (py_repr E v)
  | _ => v
  end.

Definition process_entry (d : value) : SE unit value :=
  kvs <- of_result (dict_items d) ;;
  ret (VDict (prod_map id stringify_nested <$> kvs)).

Definition process_field (key : string) (v : value) : SE unit value :=
  if is_list v then
    if String.eqb key "question_decomposition" then
      ds <- of_result (iter_value v) ;;
      entries <- mapM process_entry ds ;;
      ret (VList entries)
    else ret (VStr (py_repr E v))
  else ret v.

Fixpoint process_fields (kvs : pydict) (processed_item : pydict)
  : SE unit pydict :=
  match kvs with
  | [] => ret processed_item
  | (key, v) :: rest =>
      v' <- process_field key v ;;
      process_fields rest (dict_set processed_item key v')
  end.

Definition process_item (item : value) : SE unit value :=
  kvs <- of_result (dict_items item) ;;
  processed_item <- process_fields kvs [] ;;
  ret (VDict processed_item).

(** The loop that builds [processed_data]; it touches nothing but its
    argument. *)
Definition preprocess : result (list value) :=
  run_pure (mapM process_item (json_load E)).

(** [download_dataset]: the rows of the [Dataset] it returns. *)
Definition download_dataset : T (list value) :=
  try_except
    (match hub_download E with
     | Fail e => raise (RemoteError e)
     | Ok file_path =>
         log INFO ("Dataset downloaded to: " +:+ file_path) ;;
         processed_data <- of_result preprocess ;;
         of_result (from_list E processed_data)
     end)
    (fun e =>
       log ERROR ("Error downloading dataset: " +:+ exn_str e) ;;
       raise e).

Definition checkpoint_path (checkpoint_num : nat) : string :=
  path_join "checkpoints" ("checkpoint_" +:+ str_of_nat checkpoint_num +:+ ".json").

(** The file-system operations of [save_checkpoint]: [os.makedirs], [open]
    in mode ['w'], the writes of [json.dump], and the close that ends the
    [with] block. *)
Definition save_checkpoint_ops (translated_data : list value)
    (checkpoint_num : nat) : list fs_op :=
  let checkpoint_dir := "checkpoints" in
  let checkpoint_path := checkpoint_path checkpoint_num in
  Makedirs checkpoint_dir
  :: OpenW checkpoint_path
  :: (WriteChunk checkpoint_path <$> json_chunks E (VList translated_data))
  ++ [CloseF checkpoint_path].

Definition save_checkpoint (translated_data : list value) (checkpoint_num : nat)
  : M unit :=
  exec_ops (disk E checkpoint_num) 0
    (save_checkpoint_ops translated_data checkpoint_num) ;;
  lift (log INFO ("Checkpoint saved: " +:+ checkpoint_path checkpoint_num)).

(** The dict display at the head of the translation loop. *)
Definition translate_record (item : value) : T value :=
  q <- of_result (getitem item "question") ;;
  question <- translate_text q ;;
  a <- of_result (getitem item "answer") ;;
  answer <- translate_text a ;;
  c <- of_result (getitem item "context") ;;
  context <- translate_text c ;;
  pq <- of_result (getitem item "previous_question") ;;
  previous_question <- translate_text pq ;;
  pa <- of_result (getitem item "previous_answer") ;;
  previous_answer <- translate_text pa ;;
  qd <- of_result (getitem item "question_decomposition") ;;
  question_decomposition <- translate_question_decomposition qd ;;
  ql <- of_result (getitem item "question_on_last_hop") ;;
  question_on_last_hop <- translate_text ql ;;
  answer_type <- of_result (getitem item "answer_type") ;;
  previous_answer_type <- of_result (getitem item "previous_answer_type") ;;
  no_of_hops <- of_result (getitem item "no_of_hops") ;;
  reasoning_type <- of_result (getitem item "reasoning_type") ;;
  ret (VDict [("question", question);
              ("answer", answer);
              ("context", context);
              ("previous_question", previous_question);
              ("previous_answer", previous_answer);
              ("question_decomposition", question_decomposition);
              ("question_on_last_hop", question_on_last_hop);
              ("answer_type", answer_type);
              ("previous_answer_type", previous_answer_type);
              ("no_of_hops", no_of_hops);
              ("reasoning_type", reasoning_type)]).

(** [for idx, item in enumerate(dataset)], over the records that remain. *)
Fixpoint translation_loop (items : list value) (idx : nat)
    (translated_data : list value) : M (list value) :=
  match items with
  | [] => ret translated_data
  | item :: rest =>
      translated_item <- lift (translate_record item) ;;
      let translated_data := translated_data ++ [translated_item] in
      (if Nat.eqb ((idx + 1) mod CHECKPOINT_INTERVAL) 0 then
         lift (log INFO ("Progress: " +:+ str_of_nat (idx + 1)
                         +:+ " items processed")) ;;
         save_checkpoint translated_data (idx + 1)
       else ret tt) ;;
      translation_loop rest (idx + 1) translated_data
  end.

Definition hub_call {S} (r : option string) : SE S unit :=
  match r with
  | Some e => raise (RemoteError e)
  | None => ret tt
  end.

(** [create_translator] only builds the client object: it leaves no trace
    here. *)
Definition translate_and_push_dataset : M unit :=
  try_except
    (lift (log INFO "Starting dataset translation process...") ;;
     dataset <- lift download_dataset ;;
     translated_data <- translation_loop dataset 0 [] ;;
     lift (log INFO "Creating Hugging Face dataset...") ;;
     bn_dataset <- lift (of_result (from_list E translated_data)) ;;
     lift (log INFO "Pushing to Hugging Face Hub...") ;;
     lift (emit (EPush "bengali-morehopqa" bn_dataset)) ;;
     hub_call (push_to_hub E bn_dataset) ;;
     lift (emit (EUpload "README.md" create_dataset_description)) ;;
     hub_call (upload_file E "README.md") ;;
     lift (log INFO "Dataset successfully pushed to Hugging Face!"))
    (fun e =>
       lift (log ERROR ("An error occurred: " +:+ exn_str e)) ;;
       raise e).

Definition setup_authentication : M unit :=
  try_except
    (hub_call (hub_login E) ;;
     lift (log INFO "Successfully authenticated with Hugging Face"))
    (fun e =>
       lift (log ERROR ("Authentication error: " +:+ exn_str e)) ;;
       raise e).

Definition main : M unit :=
  try_except
    (setup_authentication ;;
     translate_and_push_dataset)
    (fun e =>
       lift (log ERROR ("Process failed: " +:+ exn_str e)) ;;
       raise e).

End WithEnv.
End V3.

(** ** translate_to_bn_v2.py: what differs in its checkpointing *)

Module V2.

Definition CHECKPOINT_INTERVAL : nat := 50.
Definition TRANSLATION_DELAY : Q := (1 # 2)%Q.
Definition MAX_RETRIES : nat := 3.
Definition RETRY_DELAY : Q := (2 # 1)%Q.

Section WithEnv.
Variable E : env.

Definition checkpoint_path (checkpoint_num : nat) : string :=
  path_join "checkpoints"
    ("checkpoint_" +:+ str_of_nat checkpoint_num +:+ "_"
     +:+ timestamp E checkpoint_num +:+ ".json").

Definition save_checkpoint_ops (translated_data : list value)
    (checkpoint_num : nat) : list fs_op :=
  let checkpoint_dir := "checkpoints" in
  let checkpoint_path := checkpoint_path checkpoint_num in
  Makedirs checkpoint_dir
  :: OpenW checkpoint_path
  :: (WriteChunk checkpoint_path <$> json_chunks E (VList translated_data))
  ++ [CloseF checkpoint_path].

Definition save_checkpoint (translated_data : list value) (checkpoint_num : nat)
  : M unit :=
  exec_ops (disk E checkpoint_num) 0
    (save_checkpoint_ops translated_data checkpoint_num) ;;
  lift (log INFO ("Checkpoint saved: " +:+ checkpoint_path checkpoint_num)).

(** The test [(idx + 1) % CHECKPOINT_INTERVAL == 0] of its loop. *)
Definition checkpoint_due (idx : nat) : bool :=
  Nat.eqb ((idx + 1) mod CHECKPOINT_INTERVAL) 0.

(** Its [translate_text]: the retry loop of the later version, with a single
    WARNING entry on exhaustion.  Here too the [time.sleep] stands between
    [translate] and [result.text]. *)
Fixpoint translate_attempts (text : value) (attempts : list nat) : T value :=
  match attempts with
  | [] => ret VNone
  | attempt :: rest =>
      result <- call_translate E text ;;
      match result with
      | (Ok translated, _) =>
          sleep TRANSLATION_DELAY ;;
          ret (VStr translated)
      | (Fail e, reading_text) =>
          (if reading_text : bool then sleep TRANSLATION_DELAY else ret tt) ;;
          if Nat.eqb attempt (MAX_RETRIES - 1) then
            head50 <- of_result (slice_to 50 text) ;;
            log WARNING ("Translation failed after " +:+ str_of_nat MAX_RETRIES
                         +:+ " attempts for: " +:+ fmt E head50 +:+ "...") ;;
            ret text
          else
            sleep RETRY_DELAY ;;
            translate_attempts text rest
      end
  end.

Definition translate_text (text : value) : T value :=
  if negb (truthy text) then ret (VStr "")
  else translate_attempts text (seq 0 MAX_RETRIES).

End WithEnv.
End V2.

(** ** translate_v4.py *)

Module V4.
Section WithEnv.
Variable E : env.

Definition translate_text (text : value) : T value :=
  o <- call_service E text ;;
  match o with
  | Ok translated => ret (VStr translated)
  | Fail e =>
      log ERROR ("Translation error: " +:+ e) ;;
      ret text
  end.

Definition translate_list (items : value) : T (list value) :=
  xs <- of_result (iter_value items) ;;
  mapM translate_text xs.

Definition translate_decomp_item (item : value) : T value :=
  sub_id <- of_result (getitem item "sub_id") ;;
  q <- of_result (getitem item "question") ;;
  question <- translate_text q ;;
  a <- of_result (getitem item "answer") ;;
  answer <- translate_text a ;;
  p <- of_result (getitem item "paragraph_support_title") ;;
  paragraph_support_title <- translate_text p ;;
  ret (VDict [("sub_id", sub_id);
              ("question", question);
              ("answer", answer);
              ("paragraph_support_title", paragraph_support_title)]).

Fixpoint translate_decomp_loop (items : list value)
    (translated_decomp : list value) : T (list value) :=
  match items with
  | [] => ret translated_decomp
  | item :: rest =>
      translated_item <- translate_decomp_item item ;;
      translate_decomp_loop rest (translated_decomp ++ [translated_item])
  end.

Definition translate_question_decomposition (decomp_list : value) : T value :=
  items <- of_result (iter_value decomp_list) ;;
  translated_decomp <- translate_decomp_loop items [] ;;
  ret (VList translated_decomp).

Definition translate_context (context : value) : T value :=
  t <- of_result (getitem context "title") ;;
  title <- translate_text t ;;
  ps <- of_result (getitem context "paragraphs") ;;
  paragraphs <- translate_list ps ;;
  ret (VDict [("title", title); ("paragraphs", VList paragraphs)]).

(** The branch taken for one [key, value] of [item.items()]. *)
Definition translate_field (key : string) (v : value) : T value :=
  if String.eqb key "question_decomposition" then
    translate_question_decomposition v
  else if String.eqb key "context" then
    translate_context v
  else if is_str v then
    translate_text v
  else
    ret v.

Fixpoint translate_fields (kvs : pydict) (translated_item : pydict)
  : T pydict :=
  match kvs with
  | [] => ret translated_item
  | (key, v) :: rest =>
      v' <- translate_field key v ;;
      translate_fields rest (dict_set translated_item key v')
  end.

Definition translate_item (item : value) : T value :=
  kvs <- of_result (dict_items item) ;;
  translated_item <- translate_fields kvs [] ;;
  ret (VDict translated_item).

Definition download_dataset : T (list value) :=
  try_except
    (match hub_download E with
     | Fail e => raise (RemoteError e)
     | Ok file_path =>
         log INFO ("Dataset downloaded to: " +:+ file_path) ;;
         translated_data <- mapM translate_item (json_load E) ;;
         of_result (from_list E translated_data)
     end)
    (fun e =>
       log ERROR ("Error downloading dataset: " +:+ exn_str e) ;;
       raise e).

Definition push (dataset : list value) (repo_name : string) : T unit :=
  try_except
    (emit (EPush repo_name dataset) ;;
     match push_to_hub E dataset with
     | Some e => raise (RemoteError e)
     | None => ret tt
     end ;;
     log INFO ("Dataset successfully pushed to " +:+ repo_name))
    (fun e =>
       log ERROR ("Error pushing to hub: " +:+ exn_str e) ;;
       raise e).

Definition main : T unit :=
  dataset <- download_dataset ;;
  push dataset "your-username/bengali-morehopqa".

End WithEnv.
End V4.

(** ** translate_to_bn.py *)

Module V1.
Section WithEnv.
Variable E : env.

Definition translate_to_bengali (text : value) : T value :=
  o <- call_service E text ;;
  match o with
  | Ok translated => ret (VStr translated)
  | Fail _ => ret text
  end.

Definition translate_decomp_item (item : value) : T value :=
  sub_id <- of_result (getitem item "sub_id") ;;
  q <- of_result (getitem item "question") ;;
  question <- translate_to_bengali q ;;
  a <- of_result (getitem item "answer") ;;
  answer <- translate_to_bengali a ;;
  p <- of_result (getitem item "paragraph_support_title") ;;
  paragraph_support_title <- translate_to_bengali p ;;
  ret (VDict [("sub_id", sub_id);
              ("question", question);
              ("answer", answer);
              ("paragraph_support_title", paragraph_support_title)]).

Fixpoint translate_decomp_loop (items : list value) (translated : list value)
  : T (list value) :=
  match items with
  | [] => ret translated
  | item :: rest =>
      translated_item <- translate_decomp_item item ;;
      translate_decomp_loop rest (translated ++ [translated_item])
  end.

Definition translate_decomposition (decomp_list : value) : T value :=
  items <- of_result (iter_value decomp_list) ;;
  translated <- translate_decomp_loop items [] ;;
  ret (VList translated).

(** The dict display of [translate_dataset]; the [question_on_last_hop]
    entry is commented out in the source. *)
Definition translate_record (item : value) : T value :=
  q <- of_result (getitem item "question") ;;
  question <- translate_to_bengali q ;;
  a <- of_result (getitem item "answer") ;;
  answer <- translate_to_bengali a ;;
  c <- of_result (getitem item "context") ;;
  context <- translate_to_bengali c ;;
  pq <- of_result (getitem item "previous_question") ;;
  previous_question <- translate_to_bengali pq ;;
  pa <- of_result (getitem item "previous_answer") ;;
  previous_answer <- translate_to_bengali pa ;;
  qd <- of_result (getitem item "question_decomposition") ;;
  question_decomposition <- translate_decomposition qd ;;
  answer_type <- of_result (getitem item "answer_type") ;;
  previous_answer_type <- of_result (getitem item "previous_answer_type") ;;
  no_of_hops <- of_result (getitem item "no_of_hops") ;;
  reasoning_type <- of_result (getitem item "reasoning_type") ;;
  ret (VDict [("question", question);
              ("answer", answer);
              ("context", context);
              ("previous_question", previous_question);
              ("previous_answer", previous_answer);
              ("question_decomposition", question_decomposition);
              ("answer_type", answer_type);
              ("previous_answer_type", previous_answer_type);
              ("no_of_hops", no_of_hops);
              ("reasoning_type", reasoning_type)]).

Fixpoint translate_dataset_loop (items : list value)
    (translated_data : list value) : T (list value) :=
  match items with
  | [] => ret translated_data
  | item :: rest =>
      translated_item <- translate_record item ;;
      emit (EPrint translated_item) ;;
      translate_dataset_loop rest (translated_data ++ [translated_item])
  end.

Definition translate_dataset (dataset : list value) : T (list value) :=
  translated_data <- translate_dataset_loop dataset [] ;;
  of_result (from_list E translated_data).

End WithEnv.
End V1.

(** ** downlaod_dataset.py *)

Module Downloader.
Section WithEnv.
Variable E : env.

(** [DatasetDownloader] defines no [__init__]: [self_token] is the [token]
    attribute of the instance when somebody has set one.  The keyword
    arguments of [hf_hub_download] are evaluated before the call, so a
    missing attribute raises inside the [try]. *)
Definition download_dataset (self_token : option string) : T (list value) :=
  try_except
    (match self_token with
     | None =>
         raise (AttributeError
                  "'DatasetDownloader' object has no attribute 'token'")
     | Some _ =>
         match hub_download E with
         | Fail e => raise (RemoteError e)
         | Ok file_path =>
             log INFO ("Dataset downloaded to: " +:+ file_path) ;;
             processed_data <- of_result (V3.preprocess E) ;;
             of_result (from_list E processed_data)
         end
     end)
    (fun e =>
       log ERROR ("Error downloading dataset: " +:+ exn_str e) ;;
       raise e).

End WithEnv.
End Downloader.

(** ** Vocabulary of the statements *)

Definition is_fail (o : outcome) : bool :=
  match o with Fail _ => true | Ok _ => false end.

(** The backend fails the [k] calls numbered [n], [n + 1], ... on [text]. *)
Definition fails_first (E : env) (n : nat) (text : value) (k : nat) : bool :=
  forallb (fun j => is_fail (svc E j text)) (seq n k).

(** The rate-limit sleep of an attempt that fails: slept when the failure
    comes from reading [.text], after [translate] returned. *)
Definition late_sleep (E : env) (j : nat) (text : value) : list event :=
  if at_text E j text then [ESleep V3.RATE_LIMIT_DELAY] else [].

(** What [k] failed attempts that are not the last leave in the trace. *)
Definition failed_attempts (E : env) (n : nat) (text : value) (k : nat)
  : list event :=
  flat_map (fun j => ECall text (svc E j text)
                     :: late_sleep E j text ++ [ESleep V3.RETRY_DELAY])
           (seq n k).

(** The value a single attempt settles on: the translation, or the input
    itself when the call failed. *)
Definition resolve (o : outcome) (text : value) : value :=
  match o with Ok translated => VStr translated | Fail _ => text end.

(** The texts handed to the backend, in order. *)
Definition called_texts (tr : list event) : list value :=
  omap (fun e => match e with ECall text _ => Some text | _ => None end) tr.

(** Those of them that are strings. *)
Definition called_strings (tr : list event) : list string :=
  omap (fun v => match v with VStr x => Some x | _ => None end)
       (called_texts tr).

Definition log_entries (tr : list event) : list (level * string) :=
  omap (fun e => match e with ELog lvl msg => Some (lvl, msg) | _ => None end) tr.

Definition field (item : value) (key : string) : value :=
  match getitem item key with Ret v => v | Raise _ => VNone end.

Definition has_key (item : value) (key : string) : bool :=
  match getitem item key with Ret _ => true | Raise _ => false end.

Definition field_ok (P : value → bool) (item : value) (key : string) : bool :=
  match getitem item key with Ret v => P v | Raise _ => false end.

(** Inputs on which the handler's [text[:50]] cannot raise. *)
Definition safe_text (v : value) : bool :=
  negb (truthy v) || is_str v || is_list v.

(** *** Schema predicates *)

Definition text_fields : list string :=
  ["question"; "answer"; "context"; "previous_question"; "previous_answer";
   "question_on_last_hop"].

Definition metadata_fields : list string :=
  ["answer_type"; "previous_answer_type"; "no_of_hops"; "reasoning_type"].

(** Every field of the record schema. *)
Definition schema_fields : list string :=
  text_fields ++ ["question_decomposition"] ++ metadata_fields.

(** A sub-item that carries the four keys the decomposition loops read. *)
Definition is_decomp_item (item : value) : bool :=
  has_key item "sub_id" && has_key item "question" && has_key item "answer"
  && has_key item "paragraph_support_title".

(** What translate_v4.py needs of a record to map it without raising. *)
Definition v4_decomp_ok (v : value) : bool :=
  match v with VList items => forallb is_decomp_item items | _ => false end.

Definition v4_context_ok (v : value) : bool :=
  has_key v "title" && field_ok is_list v "paragraphs".

Definition v4_field_ok (kv : string * value) : bool :=
  if String.eqb kv.1 "question_decomposition" then v4_decomp_ok kv.2
  else if String.eqb kv.1 "context" then v4_context_ok kv.2
  else true.

Definition v4_wf (d : pydict) : bool := forallb v4_field_ok d.

(** What translate_to_bn_v3.py needs of a record. *)
Definition v3_decomp_item_ok (item : value) : bool :=
  has_key item "sub_id" && field_ok safe_text item "question"
  && field_ok safe_text item "answer"
  && field_ok safe_text item "paragraph_support_title".

Definition v3_decomp_ok (v : value) : bool :=
  negb (truthy v)
  || match v with VList items => forallb v3_decomp_item_ok items | _ => false end.

Definition wf_record (item : value) : bool :=
  forallb (field_ok safe_text item) text_fields
  && field_ok v3_decomp_ok item "question_decomposition"
  && forallb (has_key item) metadata_fields.

(** The sub-item translate_v4.py builds when the backend is at call [n]. *)
Definition v4_decomp_out (E : env) (n : nat) (item : value) : value :=
  VDict [("sub_id", field item "sub_id");
         ("question",
          resolve (svc E n (field item "question")) (field item "question"));
         ("answer",
          resolve (svc E (n + 1) (field item "answer")) (field item "answer"));
         ("paragraph_support_title",
          resolve (svc E (n + 2) (field item "paragraph_support_title"))
                  (field item "paragraph_support_title"))].

Definition decomp_leaves (item : value) : list value :=
  [field item "question"; field item "answer";
   field item "paragraph_support_title"].

(** [r] is what [translate_text] of translate_to_bn_v3.py returned for [v]
    at some point of a run. *)
Definition translated_by (E : env) (v r : value) : Prop :=
  ∃ s s', V3.translate_text E v s = (Ret r, s').

Definition v3_item_rel (E : env) (item out : value) : Prop :=
  ∃ q a p,
    out = VDict [("sub_id", field item "sub_id"); ("question", q);
                 ("answer", a); ("paragraph_support_title", p)]
    ∧ translated_by E (field item "question") q
    ∧ translated_by E (field item "answer") a
    ∧ translated_by E (field item "paragraph_support_title") p.

(** A key that translate_v4.py maps by the type of its value. *)
Definition plain_key (k : string) : Prop :=
  k ≠ "question_decomposition" ∧ k ≠ "context".

(** How translate_v4.py maps one entry: same key; under a plain key a
    value that is not a string is kept, a string is replaced by what one
    backend call settles on. *)
Definition v4_field_rel (E : env) (kv kv' : string * value) : Prop :=
  kv'.1 = kv.1
  ∧ (plain_key kv.1 → is_str kv.2 = false → kv'.2 = kv.2)
  ∧ (plain_key kv.1 → is_str kv.2 = true →
     ∃ n, kv'.2 = resolve (svc E n kv.2) kv.2).

Definition v3_decomp_rel (E : env) (v out : value) : Prop :=
  (truthy v = false ∧ out = VList [])
  ∨ ∃ items outs, v = VList items ∧ out = VList outs
                  ∧ Forall2 (v3_item_rel E) items outs.

(** The record the loop of translate_to_bn_v3.py builds from [item]. *)
Definition v3_record_rel (E : env) (item out : value) : Prop :=
  ∃ q a c pq pa qd ql,
    out = VDict [("question", q); ("answer", a); ("context", c);
                 ("previous_question", pq); ("previous_answer", pa);
                 ("question_decomposition", qd);
                 ("question_on_last_hop", ql);
                 ("answer_type", field item "answer_type");
                 ("previous_answer_type", field item "previous_answer_type");
                 ("no_of_hops", field item "no_of_hops");
                 ("reasoning_type", field item "reasoning_type")]
    ∧ translated_by E (field item "question") q
    ∧ translated_by E (field item "answer") a
    ∧ translated_by E (field item "context") c
    ∧ translated_by E (field item "previous_question") pq
    ∧ translated_by E (field item "previous_answer") pa
    ∧ v3_decomp_rel E (field item "question_decomposition") qd
    ∧ translated_by E (field item "question_on_last_hop") ql.

(** What translate_to_bn.py needs of a record. *)
Definition v1_wf (item : value) : bool :=
  forallb (has_key item)
    ["question"; "answer"; "context"; "previous_question"; "previous_answer"]
  && field_ok v4_decomp_ok item "question_decomposition"
  && forallb (has_key item) metadata_fields.

Definition v1_keys : list string :=
  ["question"; "answer"; "context"; "previous_question"; "previous_answer";
   "question_decomposition"; "answer_type"; "previous_answer_type";
   "no_of_hops"; "reasoning_type"].

(** *** Checkpoint files *)

Definition joined (chunks : list string) : string :=
  foldr String.append "" chunks.

(** Writing a file where it is to stay: create the directory, open the
    final path for writing, write the chunks, close. *)
Definition direct_write (dir path : string) (chunks : list string)
  : list fs_op :=
  Makedirs dir :: OpenW path :: (WriteChunk path <$> chunks) ++ [CloseF path].

Definition is_rename (op : fs_op) : bool :=
  match op with Rename _ _ => true | _ => false end.

(** A save is atomic when, wherever the process stops, the file at [path]
    is either what it was before or the complete content. *)
Definition atomic_save (ops : list fs_op) (f : filesys) (path full : string)
  : Prop :=
  ∀ j, files (crash_after j ops f) !! path = files f !! path
       ∨ files (crash_after j ops f) !! path = Some full.

(** *** Runs *)

(** The record counts at which the loop saves a checkpoint, when [idx]
    records are done and [n] more follow: the multiples of
    [CHECKPOINT_INTERVAL] among [idx + 1 .. idx + n]. *)
Definition checkpoint_points (idx n : nat) : list nat :=
  filter (fun m => m mod V3.CHECKPOINT_INTERVAL = 0) (seq (idx + 1) n).

Definition add_events (evs : list event) (w : world) : world :=
  {| w_ts := {| ncalls := ncalls (w_ts w); trace := trace (w_ts w) ++ evs |};
     w_fs := w_fs w;
     w_ops := w_ops w |}.

(** The log entries that precede the translation loop in a run of
    [translate_and_push_dataset], and in a run of [main]. *)
Definition run_preamble (file_path : string) : list event :=
  [ELog INFO "Starting dataset translation process...";
   ELog INFO ("Dataset downloaded to: " +:+ file_path)].


(** The collections handed to the hub. *)
Definition pushed (tr : list event) : list (list value) :=
  omap (fun e => match e with EPush _ data => Some data | _ => None end) tr.

(** The fields the record literal of translate_to_bn_v3.py reads, in the
    order it reads them. *)
Definition required_fields : list string :=
  ["question"; "answer"; "context"; "previous_question"; "previous_answer";
   "question_decomposition"; "question_on_last_hop"; "answer_type";
   "previous_answer_type"; "no_of_hops"; "reasoning_type"].



(** A computation whose result and program state do not depend on what is
    on disk. *)
Definition fs_blind {A} (c : M A) : Prop :=
  ∀ w1 w2, w_ts w1 = w_ts w2 → w_ops w1 = w_ops w2 →
    fst (c w1) = fst (c w2)
    ∧ w_ts (snd (c w1)) = w_ts (snd (c w2))
    ∧ w_ops (snd (c w1)) = w_ops (snd (c w2)).

(** ** Example environments and inputs *)

Definition quote : string := String (Ascii.ascii_of_nat 34) EmptyString.

(** A compact JSON rendering, enough to run the examples; the statements
    below hold for every [json_chunks]. *)
Fixpoint demo_encode (v : value) : string :=
  match v with
  | VNone => "null"
  | VBool true => "true"
  | VBool false => "false"
  | VInt z => NilEmpty.string_of_int (Z.to_int z)
  | VFloat _ => "<float>"
  | VStr s => quote +:+ s +:+ quote
  | VList l =>
      "[" +:+ foldr (fun x acc => demo_encode x +:+ "," +:+ acc) "" l +:+ "]"
  | VDict d =>
      "{" +:+ foldr (fun kv acc =>
                       quote +:+ kv.1 +:+ quote +:+ ":" +:+ demo_encode kv.2
                       +:+ "," +:+ acc) "" d +:+ "}"
  end.

Definition demo_chunks (v : value) : list string :=
  match v with
  | VList l => "[" :: (demo_encode <$> l) ++ ["]"]
  | _ => [demo_encode v]
  end.

Definition mk_env (service : nat → value → outcome)
    (d : nat → option (nat * string)) (data : list value) : env :=
  {| svc := service;
     at_text := fun _ text => is_list text;
     arrow_table := Ret;
     disk := d;
     py_repr := demo_encode;
     json_chunks := demo_chunks;
     hub_login := None;
     hub_download := Ok "/cache/with_human_verification.json";
     json_load := data;
     push_to_hub := fun _ => None;
     upload_file := fun _ => None;
     timestamp := fun _ => "20240101_000000" |}.

(** A backend that always answers, one that never does, and one that fails
    its first two calls. *)
Definition bn (n : nat) (text : value) : outcome :=
  match text with
  | VStr s => Ok ("bn:" +:+ s)
  | _ => Fail "expected a string"
  end.

Definition down (n : nat) (text : value) : outcome := Fail "timed out".

Definition flaky (n : nat) (text : value) : outcome :=
  if n <? 2 then Fail "timed out" else bn n text.

Definition no_disk_failure (num : nat) : option (nat * string) := None.

Definition s0 : tstate := {| ncalls := 0; trace := [] |}.

Definition fs0 : filesys := {| dirs := ∅; files := ∅ |}.

Definition w0 : world := {| w_ts := s0; w_fs := fs0; w_ops := [] |}.

Definition demo_env : env := mk_env bn no_disk_failure [].

Definition demo_context : pydict :=
  [("title", VStr "T"); ("paragraphs", VList [VStr "P1"; VStr "P2"])].

Definition demo_sub_item : value :=
  VDict [("sub_id", VStr "q1"); ("question", VStr "X"); ("answer", VStr "Y");
         ("paragraph_support_title", VStr "Z")].

(** A record with every field of the schema; [n] tells records apart. *)
Definition demo_record (n : nat) : value :=
  VDict [("question", VStr ("question " +:+ str_of_nat n));
         ("answer", VStr "Bob");
         ("context", VStr "[['T', ['P1', 'P2']]]");
         ("previous_question", VStr "Who is queen?");
         ("previous_answer", VStr "Ann");
         ("question_decomposition", VList [demo_sub_item]);
         ("question_on_last_hop", VStr "Who rules?");
         ("answer_type", VStr "person");
         ("previous_answer_type", VStr "person");
         ("no_of_hops", VInt 2);
         ("reasoning_type", VStr "Commonsense")].

Definition demo_dataset (n : nat) : list value := demo_record <$> seq 0 n.

(** A run over 101 records, on a healthy disk and on one that is full when
    checkpoint 100 is written. *)
Definition env101 : env := mk_env bn no_disk_failure (demo_dataset 101).

Definition full_disk (num : nat) : option (nat * string) :=
  if num =? 100 then Some (2, "[Errno 28] No space left on device") else None.

Definition env101_full : env := mk_env bn full_disk (demo_dataset 101).


(** A record as the file has it, with a structured context: a list of
    [title, paragraphs] pairs. *)
Definition structured_record : value :=
  VDict [("question", VStr "Who is king?");
         ("answer", VStr "Bob");
         ("context", VList [VList [VStr "T"; VList [VStr "P1"; VStr "P2"]]]);
         ("previous_question", VStr "Who is queen?");
         ("previous_answer", VStr "Ann");
         ("question_decomposition", VList [demo_sub_item]);
         ("question_on_last_hop", VStr "Who rules?");
         ("answer_type", VStr "person");
         ("previous_answer_type", VStr "person");
         ("no_of_hops", VInt 2);
         ("reasoning_type", VStr "Commonsense")].

(** The disk a first run over the 101 records leaves behind, and the world
    a second process starts in. *)
Definition disk_after_first_run : filesys := w_fs (snd (V3.main env101 w0)).

Definition w_restart : world :=
  {| w_ts := s0; w_fs := disk_after_first_run; w_ops := [] |}.

(** ** Further vocabulary *)

(** The events a translator may leave: calls, sleeps and log entries. *)
Definition is_translation_event (e : event) : bool :=
  match e with
  | ECall _ _ | ESleep _ | ELog _ _ => true
  | _ => false
  end.

Definition is_call (e : event) : bool :=
  match e with ECall _ _ => true | _ => false end.

(** A computation that appends to the trace only events satisfying [P]. *)
Definition emits_only {A} (P : event → bool) (c : T A) : Prop :=
  ∀ s, ∃ evs, trace (snd (c s)) = trace s ++ evs ∧ forallb P evs = true.

Definition run_emits_only {A} (P : event → bool) (c : M A) : Prop :=
  ∀ w, ∃ evs, trace (w_ts (snd (c w))) = trace (w_ts w) ++ evs
              ∧ forallb P evs = true.

(** Seconds slept. *)
Definition slept (tr : list event) : Q :=
  foldr (fun e acc => match e with ESleep d => (d + acc)%Q | _ => acc end)
        0%Q tr.

(** The trace without its log entries. *)
Definition non_log (tr : list event) : list event :=
  List.filter (fun e => match e with ELog _ _ => false | _ => true end) tr.

Definition uploads (tr : list event) : list (string * string) :=
  omap (fun e => match e with EUpload p c => Some (p, c) | _ => None end) tr.

Definition printed (tr : list event) : list value :=
  omap (fun e => match e with EPrint v => Some v | _ => None end) tr.

Definition is_remote_error (e : exn) : bool :=
  match e with RemoteError _ => true | _ => false end.

Definition is_dict (v : value) : bool :=
  match v with VDict _ => true | _ => false end.

(** Whether a [for] loop can run over the value. *)
Definition iterable (v : value) : bool :=
  match v with VList _ | VDict _ | VStr _ => true | _ => false end.

(** The backend calls translate_v4.py makes for one entry of a record. *)
Definition v4_field_calls (kv : string * value) : nat :=
  if String.eqb kv.1 "question_decomposition" then
    match kv.2 with VList items => 3 * length items | _ => 0 end
  else if String.eqb kv.1 "context" then
    match field kv.2 "paragraphs" with VList ps => 1 + length ps | _ => 1 end
  else if is_str kv.2 then 1
  else 0.

Definition v4_record_calls (d : pydict) : nat :=
  sum_list (v4_field_calls <$> d).

Definition v4_item_ok (item : value) : bool :=
  match item with
  | VDict d => bool_decide (NoDup (d.*1)) && v4_wf d
  | _ => false
  end.

Definition keys_of (v : value) : list string :=
  match v with VDict d => d.*1 | _ => [] end.

(** What the preprocessing of [download_dataset] makes of one value of a
    sub-item, and of one field of a record. *)
Definition entry_ok (entry : value) : bool := is_dict entry.

Definition decomp_entries_ok (d : pydict) : bool :=
  forallb (fun kv =>
             if String.eqb kv.1 "question_decomposition" then
               match kv.2 with
               | VList entries => forallb entry_ok entries
               | _ => true
               end
             else true) d.

Definition raw_item_ok (item : value) : bool :=
  match item with
  | VDict d => bool_decide (NoDup (d.*1)) && decomp_entries_ok d
  | _ => false
  end.

Definition v4_item_calls (item : value) : nat :=
  match item with VDict d => v4_record_calls d | _ => 0 end.

(** What the preprocessing loop of [download_dataset] makes of a sub-item,
    of an entry of a record, and of a record, written as maps. *)
Definition processed_entry (E : env) (entry : value) : value :=
  match entry with
  | VDict kvs => VDict (prod_map id (V3.stringify_nested E) <$> kvs)
  | v => v
  end.

Definition processed_field (E : env) (kv : string * value) : string * value :=
  (kv.1,
   match kv.2 with
   | VList l =>
       if String.eqb kv.1 "question_decomposition"
       then VList (processed_entry E <$> l)
       else VStr (py_repr E kv.2)
   | v => v
   end).

Definition processed_item (E : env) (item : value) : value :=
  match item with
  | VDict d => VDict (processed_field E <$> d)
  | v => v
  end.

(** The same environment with another file content. *)
Definition with_data (E : env) (data : list value) : env :=
  {| svc := svc E;
     at_text := at_text E;
     arrow_table := arrow_table E;
     disk := disk E;
     py_repr := py_repr E;
     json_chunks := json_chunks E;
     hub_login := hub_login E;
     hub_download := hub_download E;
     json_load := data;
     push_to_hub := push_to_hub E;
     upload_file := upload_file E;
     timestamp := timestamp E |}.

(** Environments in which the hub refuses the login, and the download. *)
Definition env_login_fails : env :=
  {| svc := bn; at_text := fun _ text => is_list text; arrow_table := Ret;
     disk := no_disk_failure; py_repr := demo_encode;
     json_chunks := demo_chunks;
     hub_login := Some "401 Unauthorized";
     hub_download := Ok "/cache/with_human_verification.json";
     json_load := [];
     push_to_hub := fun _ => None; upload_file := fun _ => None;
     timestamp := fun _ => "20240101_000000" |}.

Definition env_download_fails : env :=
  {| svc := bn; at_text := fun _ text => is_list text; arrow_table := Ret;
     disk := no_disk_failure; py_repr := demo_encode;
     json_chunks := demo_chunks;
     hub_login := None;
     hub_download := Fail "404 Not Found";
     json_load := [];
     push_to_hub := fun _ => None; upload_file := fun _ => None;
     timestamp := fun _ => "20240101_000000" |}.

(** The strings [str] gives for non-negative integers: decimal digits. *)
Definition is_digit (c : Ascii.ascii) : bool :=
  (48 <=? Ascii.nat_of_ascii c) && (Ascii.nat_of_ascii c <=? 57).

Fixpoint all_digits (x : string) : bool :=
  match x with
  | EmptyString => true
  | String c rest => is_digit c && all_digits rest
  end.

(** *** Datasets *)

(** The rows of the dataset that [download_dataset] of
    translate_to_bn_v3.py returns once the file is there: the preprocessed
    records, through [Dataset.from_list]. *)
Definition dataset_rows (E : env) : result (list value) :=
  match V3.preprocess E with
  | Ret processed_data => from_list E processed_data
  | Raise e => Raise e
  end.

Definition dict_of (v : value) : pydict :=
  match v with VDict d => d | _ => [] end.

(** A record rebuilt on given columns, a missing key giving [None]. *)
Definition rebuilt (columns : list string) (r : value) : value :=
  VDict ((fun k => (k, default VNone (dict_get (dict_of r) k))) <$> columns).

(** What [Dataset.from_list] hands to Arrow when the records are dicts:
    every record rebuilt on the keys of the first one. *)
Definition conformed (mapping : list value) : list value :=
  match mapping with
  | [] => []
  | first :: _ =>
      match keys_of first with
      | [] => []
      | columns => rebuilt columns <$> mapping
      end
  end.


(** *** What translate_to_bn_v3.py returns, read off the backend *)

(** The retry loop with [left] attempts to go, the backend being at call
    [n]: the value it returns and the number of calls it makes. *)
Fixpoint settle (E : env) (text : value) (n left : nat) : value * nat :=
  match left with
  | 0 => (VNone, 0)
  | S left' =>
      match svc E n text with
      | Ok translated => (VStr translated, 1)
      | Fail _ =>
          match left' with
          | 0 => (text, 1)
          | S _ => let r := settle E text (S n) left' in (r.1, S r.2)
          end
      end
  end.

(** What [translate_text] returns for [text] and the texts it sends to the
    backend, one entry per call. *)
Definition v3_text (E : env) (n : nat) (text : value) : value * list value :=
  if truthy text then
    let r := settle E text n V3.MAX_RETRIES in (r.1, replicate r.2 text)
  else (VStr "", []).

Definition v3_sub_item (E : env) (n : nat) (item : value)
  : value * list value :=
  let q := v3_text E n (field item "question") in
  let a := v3_text E (n + length q.2) (field item "answer") in
  let p := v3_text E (n + length q.2 + length a.2)
             (field item "paragraph_support_title") in
  (VDict [("sub_id", field item "sub_id"); ("question", q.1);
          ("answer", a.1); ("paragraph_support_title", p.1)],
   q.2 ++ a.2 ++ p.2).

Fixpoint v3_sub_items (E : env) (n : nat) (items : list value)
  : list value * list value :=
  match items with
  | [] => ([], [])
  | item :: rest =>
      let o := v3_sub_item E n item in
      let r := v3_sub_items E (n + length o.2) rest in
      (o.1 :: r.1, o.2 ++ r.2)
  end.

Definition v3_decomp (E : env) (n : nat) (v : value) : value * list value :=
  match v with
  | VList (item :: rest) =>
      let r := v3_sub_items E n (item :: rest) in (VList r.1, r.2)
  | _ => (VList [], [])
  end.

(** The record the loop builds from a row, and the texts it sends to the
    backend on the way, in order. *)
Definition v3_record (E : env) (n : nat) (item : value) : value * list value :=
  let q := v3_text E n (field item "question") in
  let n := n + length q.2 in
  let a := v3_text E n (field item "answer") in
  let n := n + length a.2 in
  let c := v3_text E n (field item "context") in
  let n := n + length c.2 in
  let pq := v3_text E n (field item "previous_question") in
  let n := n + length pq.2 in
  let pa := v3_text E n (field item "previous_answer") in
  let n := n + length pa.2 in
  let qd := v3_decomp E n (field item "question_decomposition") in
  let n := n + length qd.2 in
  let ql := v3_text E n (field item "question_on_last_hop") in
  (VDict [("question", q.1); ("answer", a.1); ("context", c.1);
          ("previous_question", pq.1); ("previous_answer", pa.1);
          ("question_decomposition", qd.1);
          ("question_on_last_hop", ql.1);
          ("answer_type", field item "answer_type");
          ("previous_answer_type", field item "previous_answer_type");
          ("no_of_hops", field item "no_of_hops");
          ("reasoning_type", field item "reasoning_type")],
   q.2 ++ a.2 ++ c.2 ++ pq.2 ++ pa.2 ++ qd.2 ++ ql.2).

(** [c], started in [s], returns [x.1] after sending exactly the texts
    [x.2] to the backend. *)
Definition runs_as {A} (c : T A) (s : tstate) (x : A * list value) : Prop :=
  ∃ s', c s = (Ret x.1, s')
        ∧ ncalls s' = ncalls s + length x.2
        ∧ called_texts (trace s') = called_texts (trace s) ++ x.2.

(** ** Facts about the monad *)

Lemma bind_ret_l {S A B} (a : A) (k : A → SE S B) (s : S) :
  bind (ret a) k s = k a s.
Proof. reflexivity. Qed.

Lemma bind_of_ret {S A B} (a : A) (k : A → SE S B) (s : S) :
  bind (of_result (Ret a)) k s = k a s.
Proof. reflexivity. Qed.

Lemma bind_of_raise {S A B} (e : exn) (k : A → SE S B) (s : S) :
  bind (of_result (Raise e)) k s = (Raise e, s).
Proof. reflexivity. Qed.

Lemma bind_run {S A B} (c : SE S A) (k : A → SE S B) (s s' : S) (a : A) :
  c s = (Ret a, s') → bind c k s = k a s'.
Proof. intros H. unfold bind. now rewrite H. Qed.

Lemma bind_raise {S A B} (c : SE S A) (k : A → SE S B) (s s' : S) (e : exn) :
  c s = (Raise e, s') → bind c k s = (Raise e, s').
Proof. intros H. unfold bind. now rewrite H. Qed.

(** ** The field translator of translate_to_bn_v3.py *)

Lemma fails_first_S E n text k :
  fails_first E n text (S k) = true →
  is_fail (svc E n text) = true ∧ fails_first E (S n) text k = true.
Proof. unfold fails_first. cbn [seq forallb]. apply andb_prop. Qed.

Lemma failed_attempts_S E n text k :
  failed_attempts E n text (S k)
  = (ECall text (svc E n text)
     :: late_sleep E n text ++ [ESleep V3.RETRY_DELAY])
    ++ failed_attempts E (S n) text k.
Proof. reflexivity. Qed.

(** One attempt that fails and is not the last: the late sleep if any, the
    retry delay, and the next attempt. *)
Lemma translate_attempts_retry E text a rest s e :
  svc E (ncalls s) text = Fail e → a ≠ V3.MAX_RETRIES - 1 →
  V3.translate_attempts E text (a :: rest) s
  = V3.translate_attempts E text rest
      {| ncalls := S (ncalls s);
         trace := trace s ++ ECall text (Fail e)
                  :: late_sleep E (ncalls s) text ++ [ESleep V3.RETRY_DELAY] |}.
Proof.
  intros Hsvc Ha. cbn [V3.translate_attempts].
  unfold bind at 1. unfold call_translate at 1. rewrite Hsvc.
  replace (a =? V3.MAX_RETRIES - 1) with false
    by (symmetry; by apply Nat.eqb_neq).
  unfold late_sleep.
  destruct (at_text E (ncalls s) text); unfold bind, sleep, emit, ret;
    cbn [ncalls trace]; do 2 f_equal; by rewrite <- !app_assoc.
Qed.

(** The last attempt fails: what the handler does after the late sleep. *)
Lemma translate_attempts_last E text a rest s e :
  svc E (ncalls s) text = Fail e → a = V3.MAX_RETRIES - 1 →
  V3.translate_attempts E text (a :: rest) s
  = (head50 <- of_result (slice_to 50 text) ;;
     log INFO ("Here is the texts: " +:+ fmt E head50) ;;
     head50' <- of_result (slice_to 50 text) ;;
     log WARNING ("Failed to translate: " +:+ fmt E head50'
                  +:+ "... Error: " +:+ e) ;;
     ret text)
      {| ncalls := S (ncalls s);
         trace := trace s ++ ECall text (Fail e)
                  :: late_sleep E (ncalls s) text |}.
Proof.
  intros Hsvc Ha. cbn [V3.translate_attempts].
  unfold bind at 1. unfold call_translate at 1. rewrite Hsvc.
  replace (a =? V3.MAX_RETRIES - 1) with true
    by (symmetry; by apply Nat.eqb_eq).
  unfold late_sleep.
  destruct (at_text E (ncalls s) text).
  - unfold bind at 1. unfold sleep, emit. cbn [ncalls trace].
    by rewrite <- app_assoc.
  - by rewrite bind_ret_l.
Qed.

Lemma translate_attempts_answer E text a rest s r :
  svc E (ncalls s) text = Ok r →
  V3.translate_attempts E text (a :: rest) s
  = (Ret (VStr r),
     {| ncalls := S (ncalls s);
        trace := trace s ++ [ECall text (Ok r); ESleep V3.RATE_LIMIT_DELAY] |}).
Proof.
  intros Hsvc. cbn [V3.translate_attempts].
  unfold bind at 1. unfold call_translate at 1. rewrite Hsvc.
  unfold bind, sleep, emit, ret. cbn [ncalls trace].
  by rewrite <- app_assoc.
Qed.

(** [k] failures followed by a success, with attempts to spare. *)
Lemma translate_attempts_success E text k : ∀ a len s r,
  a + len = V3.MAX_RETRIES → k < len →
  fails_first E (ncalls s) text k = true →
  svc E (ncalls s + k) text = Ok r →
  V3.translate_attempts E text (seq a len) s
  = (Ret (VStr r),
     {| ncalls := ncalls s + k + 1;
        trace := trace s ++ failed_attempts E (ncalls s) text k
                 ++ [ECall text (Ok r); ESleep V3.RATE_LIMIT_DELAY] |}).
Proof.
  induction k as [|k IH]; intros a len s r Ha Hk Hf Hok.
  - destruct len as [|len]; [lia|]. cbn [seq].
    rewrite Nat.add_0_r in Hok.
    rewrite (translate_attempts_answer _ _ _ _ _ _ Hok). cbn.
    do 2 f_equal. lia.
  - destruct len as [|len]; [lia|]. cbn [seq].
    apply fails_first_S in Hf as [Hf1 Hf2].
    destruct (svc E (ncalls s) text) as [?|e] eqn:Hsvc; [discriminate|].
    rewrite (translate_attempts_retry _ _ _ _ _ e Hsvc) by lia.
    rewrite (IH (S a) len _ r); cbn [ncalls trace]; try lia; try assumption.
    + rewrite failed_attempts_S, Hsvc. rewrite <- !app_assoc. cbn.
      do 2 f_equal. lia.
    + now rewrite <- Nat.add_succ_comm in Hok.
Qed.

(** All attempts fail: the handler of the last one logs and returns the
    input. *)
Lemma translate_attempts_exhausted E text h len : ∀ a s,
  a + len = V3.MAX_RETRIES → 0 < len →
  slice_to 50 text = Ret h →
  fails_first E (ncalls s) text len = true →
  ∃ e, svc E (ncalls s + len - 1) text = Fail e ∧
    V3.translate_attempts E text (seq a len) s
    = (Ret text,
       {| ncalls := ncalls s + len;
          trace := trace s ++ failed_attempts E (ncalls s) text (len - 1)
                   ++ ECall text (Fail e)
                   :: late_sleep E (ncalls s + len - 1) text
                   ++ [ELog INFO ("Here is the texts: " +:+ fmt E h);
                       ELog WARNING ("Failed to translate: " +:+ fmt E h
                                     +:+ "... Error: " +:+ e)] |}).
Proof.
  induction len as [|len IH]; intros a s Ha Hlen Hh Hf; [lia|].
  apply fails_first_S in Hf as [Hf1 Hf2].
  destruct (svc E (ncalls s) text) as [?|e] eqn:Hsvc; [discriminate|].
  cbn [seq].
  destruct len as [|len].
  - exists e. replace (ncalls s + 1 - 1) with (ncalls s) by lia.
    split; [exact Hsvc|].
    rewrite (translate_attempts_last _ _ _ _ _ e Hsvc) by lia.
    unfold bind, of_result, log, emit, ret. rewrite Hh. cbn.
    rewrite <- !app_assoc. cbn. do 3 f_equal. lia.
  - rewrite (translate_attempts_retry _ _ _ _ _ e Hsvc) by lia.
    match goal with
    | |- context [V3.translate_attempts E text _ ?s1] =>
        destruct (IH (S a) s1 ltac:(lia) ltac:(lia) Hh Hf2)
          as (e' & He' & Hrun)
    end.
    cbn [ncalls trace] in He', Hrun.
    replace (S (ncalls s) + S len - 1) with (ncalls s + S (S len) - 1)
      in He', Hrun by lia.
    exists e'. split; [exact He'|].
    rewrite Hrun. replace (S len - 1) with len by lia.
    replace (S (S len) - 1) with (S len) by lia.
    rewrite failed_attempts_S, Hsvc. rewrite <- !app_assoc. cbn.
    do 2 f_equal. lia.
Qed.

(** With a sliceable input the retry loop always returns. *)
Lemma translate_attempts_returns E text h : ∀ atts s,
  slice_to 50 text = Ret h →
  ∃ r s', V3.translate_attempts E text atts s = (Ret r, s').
Proof.
  induction atts as [|a atts IH]; intros s Hh; [by eexists _, _|].
  destruct (svc E (ncalls s) text) as [t|e] eqn:Hsvc.
  - rewrite (translate_attempts_answer _ _ _ _ _ _ Hsvc). by eexists _, _.
  - destruct (Nat.eq_dec a (V3.MAX_RETRIES - 1)) as [Ha|Ha].
    + rewrite (translate_attempts_last _ _ _ _ _ e Hsvc Ha).
      unfold bind, of_result, log, emit. rewrite Hh. by eexists _, _.
    + rewrite (translate_attempts_retry _ _ _ _ _ e Hsvc Ha). by apply IH.
Qed.

Lemma safe_text_sliceable v :
  safe_text v = true → truthy v = true → ∃ h, slice_to 50 v = Ret h.
Proof.
  unfold safe_text. intros H Ht. rewrite Ht in H. cbn in H.
  destruct v; try discriminate; by eexists.
Qed.

Lemma translate_text_returns E v s :
  safe_text v = true → ∃ r s', V3.translate_text E v s = (Ret r, s').
Proof.
  intros Hs. unfold V3.translate_text.
  destruct (truthy v) eqn:Ht; cbn [negb].
  - destruct (safe_text_sliceable v Hs Ht) as [h Hh].
    by eapply translate_attempts_returns.
  - by eexists _, _.
Qed.

(** C2.  For a non-empty text, [translate_text] of translate_to_bn_v3.py
    does not raise when the backend fails all [MAX_RETRIES] attempts: it
    returns the input unchanged and the trace ends with a WARNING entry;
    and when the backend fails [k < MAX_RETRIES] attempts and then answers
    [r], it returns [r].  The trace is given in full: every failed attempt
    but the last is followed by the retry delay, and an attempt that fails
    only when [.text] is read has slept the rate-limit delay before. *)
Theorem C2_translate_text_retry (E : env) (x : string) (s : tstate) :
  x ≠ "" →
  (fails_first E (ncalls s) (VStr x) V3.MAX_RETRIES = true →
   ∃ e, svc E (ncalls s + V3.MAX_RETRIES - 1) (VStr x) = Fail e ∧
     V3.translate_text E (VStr x) s
     = (Ret (VStr x),
        {| ncalls := ncalls s + V3.MAX_RETRIES;
           trace := trace s
             ++ failed_attempts E (ncalls s) (VStr x) (V3.MAX_RETRIES - 1)
             ++ ECall (VStr x) (Fail e)
             :: late_sleep E (ncalls s + V3.MAX_RETRIES - 1) (VStr x)
             ++ [ELog INFO ("Here is the texts: " +:+ String.substring 0 50 x);
                 ELog WARNING ("Failed to translate: "
                               +:+ String.substring 0 50 x
                               +:+ "... Error: " +:+ e)] |}))
  ∧ (∀ k r, k < V3.MAX_RETRIES →
       fails_first E (ncalls s) (VStr x) k = true →
       svc E (ncalls s + k) (VStr x) = Ok r →
       V3.translate_text E (VStr x) s
       = (Ret (VStr r),
          {| ncalls := ncalls s + k + 1;
             trace := trace s ++ failed_attempts E (ncalls s) (VStr x) k
                      ++ [ECall (VStr x) (Ok r);
                          ESleep V3.RATE_LIMIT_DELAY] |})).
Proof.
  intros Hx.
  assert (Ht : V3.translate_text E (VStr x) s
               = V3.translate_attempts E (VStr x) (seq 0 V3.MAX_RETRIES) s).
  { unfold V3.translate_text. destruct x; [done|reflexivity]. }
  rewrite Ht. split.
  - intros Hf.
    apply (translate_attempts_exhausted E (VStr x) (VStr (String.substring 0 50 x)));
      [reflexivity | unfold V3.MAX_RETRIES; lia | reflexivity | exact Hf].
  - intros k r Hk Hf Hok. by apply translate_attempts_success.
Qed.

Lemma C2_witness :
  fst (V3.translate_text (mk_env down no_disk_failure []) (VStr "Who is king?") s0)
  = Ret (VStr "Who is king?")
  ∧ fst (V3.translate_text (mk_env flaky no_disk_failure []) (VStr "Who is king?") s0)
    = Ret (VStr "bn:Who is king?").
Proof.
  split.
  - destruct (C2_translate_text_retry (mk_env down no_disk_failure [])
                "Who is king?" s0 ltac:(discriminate)) as [H _].
    destruct (H eq_refl) as (e & _ & ->). reflexivity.
  - destruct (C2_translate_text_retry (mk_env flaky no_disk_failure [])
                "Who is king?" s0 ltac:(discriminate)) as [_ H].
    rewrite (H 2 "bn:Who is king?"); [reflexivity | unfold V3.MAX_RETRIES; lia
                                      | reflexivity | reflexivity].
Defined.

(** C6, as amended.  For every falsy input (None, False, 0, 0.0, the empty
    string, list or dict) [translate_text] of translate_to_bn_v3.py and of
    translate_to_bn_v2.py returns the empty string and leaves the state as
    it was: no call, no sleep, no log entry.  [translate_text] of
    translate_v4.py has no such guard: it calls the backend once for the
    falsy input too, and returns what the backend answers, or the input
    when the call fails. *)
Theorem C6_translate_text_falsy (E : env) (text : value) (s : tstate) :
  truthy text = false →
  V3.translate_text E text s = (Ret (VStr ""), s)
  ∧ V2.translate_text E text s = (Ret (VStr ""), s)
  ∧ ∃ s', V4.translate_text E text s
          = (Ret (resolve (svc E (ncalls s) text) text), s')
          ∧ ncalls s' = S (ncalls s)
          ∧ called_texts (trace s') = called_texts (trace s) ++ [text].
Proof.
  intros H. split; [|split].
  - unfold V3.translate_text. now rewrite H.
  - unfold V2.translate_text. now rewrite H.
  - unfold V4.translate_text, bind, call_service.
    destruct (svc E (ncalls s) text) as [t|e]; cbn.
    + eexists. split; [reflexivity|]. split; [reflexivity|].
      cbn. unfold called_texts. by rewrite omap_app.
    + eexists. split; [reflexivity|]. split; [reflexivity|].
      cbn. unfold called_texts. rewrite !omap_app. cbn. by rewrite app_nil_r.
Qed.

Lemma C6_witness :
  truthy (VStr "") = false
  ∧ V3.translate_text (mk_env bn no_disk_failure []) (VStr "") s0
    = (Ret (VStr ""), s0)
  ∧ V2.translate_text (mk_env bn no_disk_failure []) (VStr "") s0
    = (Ret (VStr ""), s0).
Proof.
  split; [reflexivity|].
  destruct (C6_translate_text_falsy (mk_env bn no_disk_failure []) (VStr "")
              s0 eq_refl) as (H3 & H2 & _).
  split; [exact H3 | exact H2].
Defined.

(** C6 as stated fails for translate_v4.py: its [translate_text] sends the
    empty string to the backend, one call, and returns the backend's answer
    rather than the empty text. *)
Lemma C6_counterexample :
  truthy (VStr "") = false
  ∧ V4.translate_text demo_env (VStr "") s0
    = (Ret (VStr "bn:"),
       {| ncalls := 1; trace := [ECall (VStr "") (Ok "bn:")] |}).
Proof. split; reflexivity. Qed.

(** ** The recursive mapper of translate_v4.py *)

Lemma called_texts_app tr1 tr2 :
  called_texts (tr1 ++ tr2) = called_texts tr1 ++ called_texts tr2.
Proof. apply omap_app. Qed.

Lemma getitem_field item key :
  has_key item key = true → getitem item key = Ret (field item key).
Proof. unfold has_key, field. by destruct (getitem item key). Qed.

(** One attempt, whatever the input: the backend is called exactly once. *)
Lemma V4_translate_text_spec E v s :
  ∃ s', V4.translate_text E v s = (Ret (resolve (svc E (ncalls s) v) v), s')
        ∧ ncalls s' = S (ncalls s)
        ∧ called_texts (trace s') = called_texts (trace s) ++ [v].
Proof.
  unfold V4.translate_text, bind, call_service.
  destruct (svc E (ncalls s) v) as [t|e]; cbn.
  - eexists. split; [reflexivity|]. split; [reflexivity|].
    cbn. by rewrite called_texts_app.
  - eexists. split; [reflexivity|]. split; [reflexivity|].
    cbn. rewrite !called_texts_app. cbn. by rewrite app_nil_r.
Qed.

Lemma V4_mapM_translate_text E ps : ∀ s,
  ∃ s', mapM (V4.translate_text E) ps s
        = (Ret (imap (fun i p => resolve (svc E (ncalls s + i) p) p) ps), s')
        ∧ ncalls s' = ncalls s + length ps
        ∧ called_texts (trace s') = called_texts (trace s) ++ ps.
Proof.
  induction ps as [|p ps IH]; intros s.
  - exists s. cbn. rewrite Nat.add_0_r, app_nil_r. done.
  - cbn [mapM].
    destruct (V4_translate_text_spec E p s) as (s1 & H1 & Hn1 & Hc1).
    rewrite (bind_run _ _ _ _ _ H1).
    destruct (IH s1) as (s2 & H2 & Hn2 & Hc2).
    rewrite (bind_run _ _ _ _ _ H2). unfold ret.
    exists s2. split; [|split].
    + rewrite imap_cons, Nat.add_0_r.
      rewrite (imap_ext _ ((fun i p => resolve (svc E (ncalls s + i) p) p) ∘ S));
        [done|].
      intros i x _. cbn. rewrite Hn1. do 2 f_equal. lia.
    + rewrite Hn2, Hn1. cbn. lia.
    + rewrite Hc2, Hc1, <- app_assoc. done.
Qed.

Lemma V4_translate_list_spec E ps s :
  ∃ s', V4.translate_list E (VList ps) s
        = (Ret (imap (fun i p => resolve (svc E (ncalls s + i) p) p) ps), s')
        ∧ ncalls s' = ncalls s + length ps
        ∧ called_texts (trace s') = called_texts (trace s) ++ ps.
Proof.
  unfold V4.translate_list. cbn [iter_value]. rewrite bind_of_ret.
  apply V4_mapM_translate_text.
Qed.

Lemma V4_translate_context_spec E ctx t ps s :
  dict_get ctx "title" = Some t →
  dict_get ctx "paragraphs" = Some (VList ps) →
  ∃ s', V4.translate_context E (VDict ctx) s
        = (Ret (VDict [("title", resolve (svc E (ncalls s) t) t);
                       ("paragraphs",
                        VList (imap (fun i p =>
                                       resolve (svc E (ncalls s + 1 + i) p) p)
                                    ps))]), s')
        ∧ ncalls s' = ncalls s + 1 + length ps
        ∧ called_texts (trace s') = called_texts (trace s) ++ t :: ps.
Proof.
  intros Ht Hps. unfold V4.translate_context, getitem. rewrite Ht, Hps.
  rewrite bind_of_ret.
  destruct (V4_translate_text_spec E t s) as (s1 & H1 & Hn1 & Hc1).
  rewrite (bind_run _ _ _ _ _ H1), bind_of_ret.
  destruct (V4_translate_list_spec E ps s1) as (s2 & H2 & Hn2 & Hc2).
  rewrite (bind_run _ _ _ _ _ H2). unfold ret.
  exists s2. split; [|split].
  - rewrite (imap_ext _ (fun i p => resolve (svc E (ncalls s + 1 + i) p) p));
      [done|].
    intros i x _. cbn. rewrite Hn1. do 2 f_equal. lia.
  - rewrite Hn2, Hn1. lia.
  - rewrite Hc2, Hc1, <- app_assoc. done.
Qed.

Lemma is_decomp_item_keys item :
  is_decomp_item item = true →
  has_key item "sub_id" = true ∧ has_key item "question" = true
  ∧ has_key item "answer" = true
  ∧ has_key item "paragraph_support_title" = true.
Proof.
  unfold is_decomp_item. intros H.
  apply andb_prop in H as [H H4]. apply andb_prop in H as [H H3].
  apply andb_prop in H as [H1 H2]. done.
Qed.

Lemma V4_translate_decomp_item_spec E item s :
  is_decomp_item item = true →
  ∃ s', V4.translate_decomp_item E item s
        = (Ret (v4_decomp_out E (ncalls s) item), s')
        ∧ ncalls s' = ncalls s + 3
        ∧ called_texts (trace s')
          = called_texts (trace s) ++ decomp_leaves item.
Proof.
  intros (Hid & Hq & Ha & Hp)%is_decomp_item_keys.
  unfold V4.translate_decomp_item.
  rewrite (getitem_field _ _ Hid), (getitem_field _ _ Hq),
    (getitem_field _ _ Ha), (getitem_field _ _ Hp).
  rewrite !bind_of_ret.
  destruct (V4_translate_text_spec E (field item "question") s)
    as (s1 & H1 & Hn1 & Hc1).
  rewrite (bind_run _ _ _ _ _ H1), bind_of_ret.
  destruct (V4_translate_text_spec E (field item "answer") s1)
    as (s2 & H2 & Hn2 & Hc2).
  rewrite (bind_run _ _ _ _ _ H2), bind_of_ret.
  destruct (V4_translate_text_spec E (field item "paragraph_support_title") s2)
    as (s3 & H3 & Hn3 & Hc3).
  rewrite (bind_run _ _ _ _ _ H3). unfold ret.
  exists s3. split; [|split].
  - unfold v4_decomp_out. rewrite Hn2, Hn1.
    replace (ncalls s + 1) with (S (ncalls s)) by lia.
    replace (ncalls s + 2) with (S (S (ncalls s))) by lia. done.
  - lia.
  - rewrite Hc3, Hc2, Hc1, <- !app_assoc. done.
Qed.

Lemma V4_translate_decomp_loop_spec E items : ∀ acc s,
  forallb is_decomp_item items = true →
  ∃ s', V4.translate_decomp_loop E items acc s
        = (Ret (acc ++ imap (fun i item =>
                               v4_decomp_out E (ncalls s + 3 * i) item) items),
           s')
        ∧ ncalls s' = ncalls s + 3 * length items
        ∧ called_texts (trace s')
          = called_texts (trace s) ++ flat_map decomp_leaves items.
Proof.
  induction items as [|item items IH]; intros acc s Hall.
  - exists s. cbn. rewrite !app_nil_r, Nat.add_0_r. done.
  - cbn [forallb] in Hall. apply andb_prop in Hall as [Hitem Hall].
    cbn [V4.translate_decomp_loop].
    destruct (V4_translate_decomp_item_spec E item s Hitem)
      as (s1 & H1 & Hn1 & Hc1).
    rewrite (bind_run _ _ _ _ _ H1).
    destruct (IH (acc ++ [v4_decomp_out E (ncalls s) item]) s1 Hall)
      as (s2 & H2 & Hn2 & Hc2).
    exists s2. split; [|split].
    + rewrite H2, imap_cons, <- app_assoc. cbn [app].
      replace (ncalls s + 3 * 0) with (ncalls s) by lia.
      rewrite (imap_ext _ ((fun i item0 =>
                              v4_decomp_out E (ncalls s + 3 * i) item0) ∘ S));
        [done|].
      intros i x _. cbn [compose]. rewrite Hn1. f_equal. lia.
    + rewrite Hn2, Hn1. cbn [length]. lia.
    + rewrite Hc2, Hc1, <- app_assoc. done.
Qed.

Lemma V4_translate_question_decomposition_spec E items s :
  forallb is_decomp_item items = true →
  ∃ s', V4.translate_question_decomposition E (VList items) s
        = (Ret (VList (imap (fun i item =>
                               v4_decomp_out E (ncalls s + 3 * i) item) items)),
           s')
        ∧ ncalls s' = ncalls s + 3 * length items
        ∧ called_texts (trace s')
          = called_texts (trace s) ++ flat_map decomp_leaves items.
Proof.
  intros Hall. unfold V4.translate_question_decomposition.
  cbn [iter_value]. rewrite bind_of_ret.
  destruct (V4_translate_decomp_loop_spec E items [] s Hall)
    as (s' & H & Hn & Hc).
  rewrite (bind_run _ _ _ _ _ H). unfold ret. cbn [app]. by exists s'.
Qed.

(** ** The decomposition loop of translate_to_bn_v3.py *)

Lemma v3_decomp_item_ok_fields item :
  v3_decomp_item_ok item = true →
  has_key item "sub_id" = true
  ∧ (has_key item "question" = true ∧ safe_text (field item "question") = true)
  ∧ (has_key item "answer" = true ∧ safe_text (field item "answer") = true)
  ∧ (has_key item "paragraph_support_title" = true
     ∧ safe_text (field item "paragraph_support_title") = true).
Proof.
  unfold v3_decomp_item_ok, field_ok, has_key, field. intros H.
  apply andb_prop in H as [H H4]. apply andb_prop in H as [H H3].
  apply andb_prop in H as [H1 H2].
  destruct (getitem item "sub_id"); [|discriminate].
  destruct (getitem item "question"); [|discriminate].
  destruct (getitem item "answer"); [|discriminate].
  destruct (getitem item "paragraph_support_title"); [|discriminate].
  done.
Qed.

Lemma V3_translate_decomp_item_spec E item s :
  v3_decomp_item_ok item = true →
  ∃ out s', V3.translate_decomp_item E item s = (Ret out, s')
            ∧ v3_item_rel E item out.
Proof.
  intros (Hid & [Hq Hsq] & [Ha Hsa] & [Hp Hsp])%v3_decomp_item_ok_fields.
  unfold V3.translate_decomp_item.
  rewrite (getitem_field _ _ Hid), (getitem_field _ _ Hq),
    (getitem_field _ _ Ha), (getitem_field _ _ Hp).
  rewrite !bind_of_ret.
  destruct (translate_text_returns E _ s Hsq) as (q & s1 & H1).
  rewrite (bind_run _ _ _ _ _ H1), bind_of_ret.
  destruct (translate_text_returns E _ s1 Hsa) as (a & s2 & H2).
  rewrite (bind_run _ _ _ _ _ H2), bind_of_ret.
  destruct (translate_text_returns E _ s2 Hsp) as (p & s3 & H3).
  rewrite (bind_run _ _ _ _ _ H3). unfold ret.
  eexists _, s3. split; [reflexivity|].
  exists q, a, p. repeat split; by eexists _, _.
Qed.

Lemma V3_translate_decomp_loop_spec E items : ∀ acc s,
  forallb v3_decomp_item_ok items = true →
  ∃ out s', V3.translate_decomp_loop E items acc s = (Ret (acc ++ out), s')
            ∧ Forall2 (v3_item_rel E) items out.
Proof.
  induction items as [|item items IH]; intros acc s Hall.
  - exists [], s. cbn. rewrite app_nil_r. done.
  - cbn [forallb] in Hall. apply andb_prop in Hall as [Hitem Hall].
    cbn [V3.translate_decomp_loop].
    destruct (V3_translate_decomp_item_spec E item s Hitem)
      as (o & s1 & H1 & Hrel).
    rewrite (bind_run _ _ _ _ _ H1).
    destruct (IH (acc ++ [o]) s1 Hall) as (out & s2 & H2 & Hrels).
    exists (o :: out), s2. rewrite H2, <- app_assoc. split; [done|].
    by constructor.
Qed.

Lemma V3_translate_question_decomposition_spec E items s :
  forallb v3_decomp_item_ok items = true →
  ∃ out s', V3.translate_question_decomposition E (VList items) s
            = (Ret (VList out), s')
            ∧ Forall2 (v3_item_rel E) items out.
Proof.
  intros Hall. unfold V3.translate_question_decomposition.
  destruct items as [|item items].
  - exists [], s. done.
  - cbn [truthy negb iter_value]. rewrite bind_of_ret.
    destruct (V3_translate_decomp_loop_spec E (item :: items) [] s Hall)
      as (out & s' & H & Hrel).
    rewrite (bind_run _ _ _ _ _ H). unfold ret. by exists out, s'.
Qed.

(** ** Records under translate_v4.py *)

Lemma dict_set_fresh (d : pydict) k v :
  k ∉ d.*1 → dict_set d k v = d ++ [(k, v)].
Proof.
  induction d as [|[k' v'] d IH]; intros Hk; [done|].
  cbn in Hk. apply not_elem_of_cons in Hk as [Hne Hk].
  cbn. destruct (String.eqb k' k) eqn:Heq.
  - apply String.eqb_eq in Heq. congruence.
  - by rewrite IH.
Qed.

Lemma field_ok_inv P item key :
  field_ok P item key = true →
  getitem item key = Ret (field item key) ∧ P (field item key) = true.
Proof. unfold field_ok, field. by destruct (getitem item key). Qed.

Lemma V4_translate_field_spec E k v s :
  v4_field_ok (k, v) = true →
  ∃ v' s', V4.translate_field E k v s = (Ret v', s')
           ∧ v4_field_rel E (k, v) (k, v').
Proof.
  unfold v4_field_ok, V4.translate_field, v4_field_rel, plain_key. cbn [fst snd].
  destruct (String.eqb k "question_decomposition") eqn:Hqd.
  { apply String.eqb_eq in Hqd. intros Hok.
    destruct v as [| | | | |items|]; try discriminate.
    destruct (V4_translate_question_decomposition_spec E items s Hok)
      as (s' & H & _).
    eexists _, s'. split; [exact H|]. split; [done|]. split; intros []; done. }
  destruct (String.eqb k "context") eqn:Hctx.
  { apply String.eqb_eq in Hctx. intros Hok.
    unfold v4_context_ok in Hok. apply andb_prop in Hok as [Ht Hps].
    apply field_ok_inv in Hps as [Hps Hl].
    destruct (field v "paragraphs") as [| | | | |ps|] eqn:Hf; try discriminate.
    destruct v as [| | | | | |ctx]; try discriminate.
    unfold has_key, getitem in Ht. unfold getitem in Hps.
    destruct (dict_get ctx "title") as [t|] eqn:Htitle; [|discriminate].
    destruct (dict_get ctx "paragraphs") as [p|] eqn:Hpar; [|discriminate].
    injection Hps as ->.
    destruct (V4_translate_context_spec E ctx t ps s Htitle Hpar)
      as (s' & H & _).
    eexists _, s'. split; [exact H|]. split; [done|]. split; intros []; done. }
  intros _. destruct (is_str v) eqn:Hs.
  - destruct (V4_translate_text_spec E v s) as (s' & H & _).
    eexists _, s'. split; [exact H|]. split; [done|].
    split; [done|]. intros _ _. by eexists.
  - eexists _, s. split; [reflexivity|]. split; [done|]. split; done.
Qed.

Lemma V4_translate_fields_spec E kvs : ∀ acc s,
  forallb v4_field_ok kvs = true →
  NoDup (kvs.*1) →
  (∀ k, k ∈ kvs.*1 → k ∉ acc.*1) →
  ∃ out s', V4.translate_fields E kvs acc s = (Ret (acc ++ out), s')
            ∧ Forall2 (v4_field_rel E) kvs out.
Proof.
  induction kvs as [|[k v] kvs IH]; intros acc s Hok Hnd Hfresh.
  - exists [], s. cbn. rewrite app_nil_r. done.
  - cbn [forallb] in Hok. apply andb_prop in Hok as [Hkv Hok].
    cbn in Hnd. apply NoDup_cons in Hnd as [Hk Hnd].
    cbn [V4.translate_fields].
    destruct (V4_translate_field_spec E k v s Hkv) as (v' & s1 & H1 & Hrel).
    rewrite (bind_run _ _ _ _ _ H1).
    rewrite dict_set_fresh by (apply Hfresh; cbn; left).
    destruct (IH (acc ++ [(k, v')]) s1 Hok Hnd) as (out & s2 & H2 & Hrels).
    { intros k' Hin. rewrite fmap_app. cbn. intros Hin'.
      apply elem_of_app in Hin' as [Hin'|Hin'].
      - apply (Hfresh k'); [cbn; by right | done].
      - apply list_elem_of_singleton in Hin'. congruence. }
    exists ((k, v') :: out), s2. rewrite H2, <- app_assoc. split; [done|].
    by constructor.
Qed.

Lemma v4_field_rel_keys E (d d' : pydict) :
  Forall2 (v4_field_rel E) d d' → d'.*1 = d.*1.
Proof.
  induction 1 as [|kv kv' d d' [Hk _] _ IH]; [done|]. cbn. by f_equal.
Qed.

Lemma V4_translate_item_spec E d s :
  dict_wf d → v4_wf d = true →
  ∃ d' s', V4.translate_item E (VDict d) s = (Ret (VDict d'), s')
           ∧ d'.*1 = d.*1
           ∧ Forall2 (v4_field_rel E) d d'.
Proof.
  intros Hwf Hok. unfold V4.translate_item. cbn [dict_items].
  rewrite bind_of_ret.
  destruct (V4_translate_fields_spec E d [] s Hok Hwf) as (out & s' & H & Hrel).
  { intros k _. cbn. apply not_elem_of_nil. }
  rewrite (bind_run _ _ _ _ _ H). unfold ret. cbn [app].
  exists out, s'. split; [done|]. split; [|done].
  by eapply v4_field_rel_keys.
Qed.

(** Entries correspond position by position, so lookups correspond too. *)
Lemma v4_field_rel_get E (d d' : pydict) k v :
  Forall2 (v4_field_rel E) d d' → dict_get d k = Some v →
  ∃ v', dict_get d' k = Some v' ∧ v4_field_rel E (k, v) (k, v').
Proof.
  induction 1 as [|[k1 v1] [k2 v2] d d' Hrel _ IH]; [done|].
  pose proof Hrel as [Hk _]. cbn in Hk. subst k2. cbn.
  destruct (String.eqb k1 k) eqn:Heq.
  - apply String.eqb_eq in Heq. subst k1. intros [= ->]. by exists v2.
  - exact IH.
Qed.

(** ** Records under translate_to_bn_v3.py and translate_to_bn.py *)

Lemma V3_decomp_spec E v s :
  v3_decomp_ok v = true →
  ∃ out s', V3.translate_question_decomposition E v s = (Ret out, s')
            ∧ v3_decomp_rel E v out.
Proof.
  unfold v3_decomp_ok. destruct (truthy v) eqn:Ht; cbn [negb orb].
  - destruct v as [| | | | |items|]; try discriminate. intros Hok.
    destruct (V3_translate_question_decomposition_spec E items s Hok)
      as (out & s' & H & Hrel).
    exists (VList out), s'. split; [done|]. right. by exists items, out.
  - intros _. exists (VList []), s.
    unfold V3.translate_question_decomposition. rewrite Ht.
    split; [done|]. by left.
Qed.

Lemma translate_text_translated E v s :
  safe_text v = true →
  ∃ r s', V3.translate_text E v s = (Ret r, s') ∧ translated_by E v r.
Proof.
  intros Hs. destruct (translate_text_returns E v s Hs) as (r & s' & H).
  exists r, s'. split; [done|]. by exists s, s'.
Qed.

Lemma V3_translate_record_spec E item s :
  wf_record item = true →
  ∃ out s', V3.translate_record E item s = (Ret out, s')
            ∧ v3_record_rel E item out.
Proof.
  unfold wf_record. cbn [forallb text_fields metadata_fields].
  rewrite !andb_true_r, !andb_true_iff.
  intros [[(Hq & Ha & Hc & Hpq & Hpa & Hql) Hqd] (Hat & Hpat & Hnh & Hrt)].
  apply field_ok_inv in Hq as [Hq Hsq], Ha as [Ha Hsa], Hc as [Hc Hsc],
    Hpq as [Hpq Hspq], Hpa as [Hpa Hspa], Hql as [Hql Hsql], Hqd as [Hqd Hsqd].
  apply getitem_field in Hat, Hpat, Hnh, Hrt.
  unfold V3.translate_record.
  rewrite Hq, bind_of_ret.
  destruct (translate_text_translated E _ s Hsq) as (q & s1 & H1 & T1).
  rewrite (bind_run _ _ _ _ _ H1), Ha, bind_of_ret.
  destruct (translate_text_translated E _ s1 Hsa) as (a & s2 & H2 & T2).
  rewrite (bind_run _ _ _ _ _ H2), Hc, bind_of_ret.
  destruct (translate_text_translated E _ s2 Hsc) as (c & s3 & H3 & T3).
  rewrite (bind_run _ _ _ _ _ H3), Hpq, bind_of_ret.
  destruct (translate_text_translated E _ s3 Hspq) as (pq & s4 & H4 & T4).
  rewrite (bind_run _ _ _ _ _ H4), Hpa, bind_of_ret.
  destruct (translate_text_translated E _ s4 Hspa) as (pa & s5 & H5 & T5).
  rewrite (bind_run _ _ _ _ _ H5), Hqd, bind_of_ret.
  destruct (V3_decomp_spec E _ s5 Hsqd) as (qd & s6 & H6 & T6).
  rewrite (bind_run _ _ _ _ _ H6), Hql, bind_of_ret.
  destruct (translate_text_translated E _ s6 Hsql) as (ql & s7 & H7 & T7).
  rewrite (bind_run _ _ _ _ _ H7), Hat, bind_of_ret, Hpat, bind_of_ret,
    Hnh, bind_of_ret, Hrt, bind_of_ret.
  unfold ret. eexists _, s7. split; [reflexivity|].
  exists q, a, c, pq, pa, qd, ql. done.
Qed.

(** ** The text leaves, exactly *)

Lemma runs_ret {A} (a : A) s : runs_as (ret a) s (a, []).
Proof. exists s. cbn. rewrite app_nil_r. split; [done|]. split; [lia|done]. Qed.

Lemma runs_bind {A B} (c : T A) (k : A → T B) s x r l :
  runs_as c s x →
  (∀ s1, ncalls s1 = ncalls s + length x.2 → runs_as (k x.1) s1 (r, l)) →
  runs_as (bind c k) s (r, x.2 ++ l).
Proof.
  intros (s1 & H1 & Hn1 & Hc1) Hk.
  destruct (Hk s1 Hn1) as (s2 & H2 & Hn2 & Hc2). cbn [fst snd] in *.
  exists s2. rewrite (bind_run _ _ _ _ _ H1). cbn [fst snd].
  split; [exact H2|].
  split; [rewrite Hn2, Hn1, length_app; lia|].
  by rewrite Hc2, Hc1, <- app_assoc.
Qed.

Lemma runs_of_ret {A B} (a : A) (k : A → T B) s y :
  runs_as (k a) s y → runs_as (bind (of_result (Ret a)) k) s y.
Proof. intros H. exact H. Qed.

Lemma called_texts_call text o tr :
  called_texts (ECall text o :: tr) = text :: called_texts tr.
Proof. reflexivity. Qed.

Lemma called_texts_late_sleep E j text : called_texts (late_sleep E j text) = [].
Proof. unfold late_sleep. by destruct (at_text E j text). Qed.

Lemma translate_attempts_settles E text h len : ∀ a s,
  a + len = V3.MAX_RETRIES →
  slice_to 50 text = Ret h →
  runs_as (V3.translate_attempts E text (seq a len)) s
    ((settle E text (ncalls s) len).1,
     replicate (settle E text (ncalls s) len).2 text).
Proof.
  induction len as [|len IH]; intros a s Ha Hh.
  - exists s. cbn. rewrite app_nil_r. split; [done|]. split; [lia|done].
  - cbn [seq settle]. unfold runs_as.
    destruct (svc E (ncalls s) text) as [t|e] eqn:Hsvc.
    + rewrite (translate_attempts_answer _ _ _ _ _ _ Hsvc).
      eexists. split; [reflexivity|]. cbn. split; [lia|].
      rewrite called_texts_app. done.
    + destruct len as [|len].
      * rewrite (translate_attempts_last _ _ _ _ _ e Hsvc) by lia.
        unfold bind, of_result, log, emit, ret. rewrite Hh.
        eexists. split; [reflexivity|]. cbn [fst snd ncalls trace length
                                             replicate].
        split; [lia|].
        rewrite !called_texts_app, called_texts_call.
        rewrite called_texts_late_sleep. cbn. by rewrite !app_nil_r.
      * rewrite (translate_attempts_retry _ _ _ _ _ e Hsvc) by lia.
        match goal with
        | |- context [V3.translate_attempts E text _ ?s1] =>
            destruct (IH (S a) s1 ltac:(lia) Hh) as (s2 & H2 & Hn2 & Hc2)
        end.
        cbn [ncalls trace fst snd] in H2, Hn2, Hc2.
        exists s2. cbn [fst snd]. split; [exact H2|].
        rewrite length_replicate in *. split; [lia|].
        rewrite Hc2, called_texts_app, called_texts_call, called_texts_app.
        rewrite called_texts_late_sleep. cbn. by rewrite <- app_assoc.
Qed.

Lemma V3_translate_text_runs E v s n :
  safe_text v = true → ncalls s = n →
  runs_as (V3.translate_text E v) s (v3_text E n v).
Proof.
  intros Hs <-. unfold V3.translate_text, v3_text.
  destruct (truthy v) eqn:Ht; cbn [negb]; [|apply runs_ret].
  destruct (safe_text_sliceable v Hs Ht) as [h Hh].
  by apply (translate_attempts_settles E v h).
Qed.

Lemma V3_translate_decomp_item_runs E item s n :
  v3_decomp_item_ok item = true → ncalls s = n →
  runs_as (V3.translate_decomp_item E item) s (v3_sub_item E n item).
Proof.
  intros (Hid & [Hq Hsq] & [Ha Hsa] & [Hp Hsp])%v3_decomp_item_ok_fields Hn.
  unfold V3.translate_decomp_item, v3_sub_item. cbn zeta.
  rewrite (getitem_field _ _ Hid), (getitem_field _ _ Hq),
    (getitem_field _ _ Ha), (getitem_field _ _ Hp).
  do 2 apply runs_of_ret.
  apply runs_bind; [by apply V3_translate_text_runs|]. intros s1 Hs1.
  apply runs_of_ret. rewrite Hn in Hs1.
  apply runs_bind; [by apply V3_translate_text_runs|]. intros s2 Hs2.
  apply runs_of_ret. rewrite Hs1 in Hs2.
  rewrite <- (app_nil_r (v3_text E _ (field item "paragraph_support_title")).2).
  apply runs_bind; [by apply V3_translate_text_runs|]. intros s3 _.
  apply runs_ret.
Qed.

Lemma V3_translate_decomp_loop_runs E items : ∀ acc s n,
  forallb v3_decomp_item_ok items = true → ncalls s = n →
  runs_as (V3.translate_decomp_loop E items acc) s
    (acc ++ (v3_sub_items E n items).1, (v3_sub_items E n items).2).
Proof.
  induction items as [|item items IH]; intros acc s n Hall Hn.
  - cbn. rewrite app_nil_r. apply runs_ret.
  - cbn [forallb] in Hall. apply andb_prop in Hall as [Hitem Hall].
    cbn [V3.translate_decomp_loop v3_sub_items]. cbn zeta. cbn [fst snd].
    apply runs_bind; [by apply V3_translate_decomp_item_runs|].
    intros s1 Hs1. rewrite Hn in Hs1.
    replace (acc ++ (v3_sub_item E n item).1
                 :: (v3_sub_items E (n + length (v3_sub_item E n item).2)
                       items).1)
      with ((acc ++ [(v3_sub_item E n item).1])
            ++ (v3_sub_items E (n + length (v3_sub_item E n item).2) items).1)
      by (by rewrite <- app_assoc).
    by apply IH.
Qed.

Lemma V3_translate_question_decomposition_runs E v s n :
  v3_decomp_ok v = true → ncalls s = n →
  runs_as (V3.translate_question_decomposition E v) s (v3_decomp E n v).
Proof.
  unfold v3_decomp_ok, V3.translate_question_decomposition.
  destruct (truthy v) eqn:Ht; cbn [negb orb].
  - destruct v as [| | | | |items|]; try discriminate. intros Hok Hn.
    destruct items as [|item items]; [discriminate|].
    cbn [iter_value v3_decomp]. cbn zeta. apply runs_of_ret.
    rewrite <- (app_nil_r (v3_sub_items E n (item :: items)).2).
    apply runs_bind.
    + apply (V3_translate_decomp_loop_runs E (item :: items) [] s n Hok Hn).
    + intros s1 _. apply runs_ret.
  - intros _ _.
    assert (Hv : v3_decomp E n v = (VList [], [])).
    { destruct v as [| | | | |[|? ?]|]; try done. }
    rewrite Hv. apply runs_ret.
Qed.

(** The record the loop builds and the calls it makes, for a row that has
    what the literal reads. *)
Lemma V3_translate_record_runs E item s n :
  wf_record item = true → ncalls s = n →
  runs_as (V3.translate_record E item) s (v3_record E n item).
Proof.
  unfold wf_record. cbn [forallb text_fields metadata_fields].
  rewrite !andb_true_r, !andb_true_iff.
  intros [[(Hq & Ha & Hc & Hpq & Hpa & Hql) Hqd] (Hat & Hpat & Hnh & Hrt)] Hn.
  apply field_ok_inv in Hq as [Hq Hsq], Ha as [Ha Hsa], Hc as [Hc Hsc],
    Hpq as [Hpq Hspq], Hpa as [Hpa Hspa], Hql as [Hql Hsql], Hqd as [Hqd Hsqd].
  apply getitem_field in Hat, Hpat, Hnh, Hrt.
  unfold V3.translate_record, v3_record. cbn zeta.
  rewrite Hq. apply runs_of_ret.
  apply runs_bind; [by apply V3_translate_text_runs|]. intros s1 Hs1.
  rewrite Hn in Hs1. rewrite Ha. apply runs_of_ret.
  apply runs_bind; [by apply V3_translate_text_runs|]. intros s2 Hs2.
  rewrite Hs1 in Hs2. rewrite Hc. apply runs_of_ret.
  apply runs_bind; [by apply V3_translate_text_runs|]. intros s3 Hs3.
  rewrite Hs2 in Hs3. rewrite Hpq. apply runs_of_ret.
  apply runs_bind; [by apply V3_translate_text_runs|]. intros s4 Hs4.
  rewrite Hs3 in Hs4. rewrite Hpa. apply runs_of_ret.
  apply runs_bind; [by apply V3_translate_text_runs|]. intros s5 Hs5.
  rewrite Hs4 in Hs5. rewrite Hqd. apply runs_of_ret.
  apply runs_bind; [by apply V3_translate_question_decomposition_runs|].
  intros s6 Hs6. rewrite Hs5 in Hs6. rewrite Hql. apply runs_of_ret.
  rewrite <- (app_nil_r (v3_text E _ (field item "question_on_last_hop")).2).
  apply runs_bind; [by apply V3_translate_text_runs|]. intros s7 _.
  rewrite Hat, Hpat, Hnh, Hrt. do 4 apply runs_of_ret. apply runs_ret.
Qed.

Lemma v3_sub_items_length E items : ∀ n,
  length (v3_sub_items E n items).1 = length items.
Proof.
  induction items as [|item items IH]; intros n; [done|].
  cbn [v3_sub_items]. cbn zeta. cbn [fst length]. by rewrite IH.
Qed.

(** C5, as amended.  translate_v4.py sends a [context] entry to
    [translate_context], which translates the title and then every
    paragraph, one backend call each, keeping their order and number; it
    sends [question_decomposition] to the decomposition loop, which for
    every sub-item copies [sub_id] and translates [question], [answer] and
    [paragraph_support_title], keeping the order and number of sub-items.
    The decomposition loop of translate_to_bn_v3.py does the same through
    its retrying [translate_text]: its result and the texts it sends to the
    backend are those read off the backend's answers by [v3_sub_items].
    The record literal of translate_to_bn_v3.py, however, hands the whole
    [context] value to [translate_text] as one text ([v3_record]): it
    translates neither a title nor paragraphs. *)
Theorem C5_structural_leaves (E : env) (ctx : pydict) (t : value)
    (ps items items3 : list value) (item : value) (s : tstate) :
  dict_get ctx "title" = Some t →
  dict_get ctx "paragraphs" = Some (VList ps) →
  forallb is_decomp_item items = true →
  forallb v3_decomp_item_ok items3 = true →
  wf_record item = true →
  (∃ s', V4.translate_field E "context" (VDict ctx) s
         = (Ret (VDict [("title", resolve (svc E (ncalls s) t) t);
                        ("paragraphs",
                         VList (imap (fun i p =>
                                        resolve (svc E (ncalls s + 1 + i) p) p)
                                     ps))]), s')
         ∧ called_texts (trace s') = called_texts (trace s) ++ t :: ps)
  ∧ (∃ s', V4.translate_field E "question_decomposition" (VList items) s
           = (Ret (VList (imap (fun i item =>
                                  v4_decomp_out E (ncalls s + 3 * i) item)
                               items)), s')
           ∧ called_texts (trace s')
             = called_texts (trace s) ++ flat_map decomp_leaves items)
  ∧ (∃ s', V3.translate_question_decomposition E (VList items3) s
           = (Ret (VList (v3_sub_items E (ncalls s) items3).1), s')
           ∧ ncalls s'
             = ncalls s + length (v3_sub_items E (ncalls s) items3).2
           ∧ called_texts (trace s')
             = called_texts (trace s) ++ (v3_sub_items E (ncalls s) items3).2
           ∧ length (v3_sub_items E (ncalls s) items3).1 = length items3
           ∧ Forall2 (v3_item_rel E) items3
               (v3_sub_items E (ncalls s) items3).1)
  ∧ (∃ s', V3.translate_record E item s
           = (Ret (v3_record E (ncalls s) item).1, s')
           ∧ ncalls s' = ncalls s + length (v3_record E (ncalls s) item).2
           ∧ called_texts (trace s')
             = called_texts (trace s) ++ (v3_record E (ncalls s) item).2).
Proof.
  intros Ht Hps Hitems Hitems3 Hwf. split; [|split; [|split]].
  - destruct (V4_translate_context_spec E ctx t ps s Ht Hps)
      as (s' & H & _ & Hc).
    exists s'. split; [exact H | exact Hc].
  - destruct (V4_translate_question_decomposition_spec E items s Hitems)
      as (s' & H & _ & Hc).
    exists s'. split; [exact H | exact Hc].
  - destruct (V3_translate_question_decomposition_runs E (VList items3) s
                (ncalls s)) as (s' & H & Hn & Hc); [|done|].
    { unfold v3_decomp_ok. by rewrite Hitems3, orb_true_r. }
    assert (Hd : v3_decomp E (ncalls s) (VList items3)
                 = (VList (v3_sub_items E (ncalls s) items3).1,
                    (v3_sub_items E (ncalls s) items3).2))
      by (by destruct items3).
    rewrite Hd in H, Hn, Hc. cbn [fst snd] in H, Hn, Hc.
    exists s'. split; [exact H|]. split; [exact Hn|]. split; [exact Hc|].
    split; [apply v3_sub_items_length|].
    destruct (V3_translate_question_decomposition_spec E items3 s Hitems3)
      as (out & s'' & H' & Hrel).
    rewrite H in H'. by injection H' as -> _.
  - exact (V3_translate_record_runs E item s (ncalls s) Hwf eq_refl).
Qed.

Lemma C5_witness :
  fst (V4.translate_field demo_env "context" (VDict demo_context) s0)
  = Ret (VDict [("title", VStr "bn:T");
                ("paragraphs", VList [VStr "bn:P1"; VStr "bn:P2"])])
  ∧ fst (V4.translate_field demo_env "question_decomposition"
           (VList [demo_sub_item]) s0)
    = Ret (VList [VDict [("sub_id", VStr "q1"); ("question", VStr "bn:X");
                         ("answer", VStr "bn:Y");
                         ("paragraph_support_title", VStr "bn:Z")]])
  ∧ fst (V3.translate_question_decomposition demo_env
           (VList [demo_sub_item]) s0)
    = Ret (VList [VDict [("sub_id", VStr "q1"); ("question", VStr "bn:X");
                         ("answer", VStr "bn:Y");
                         ("paragraph_support_title", VStr "bn:Z")]])
  ∧ called_texts (trace (snd (V3.translate_question_decomposition demo_env
                                (VList [demo_sub_item]) s0)))
    = [VStr "X"; VStr "Y"; VStr "Z"].
Proof.
  assert (Hwf : wf_record (demo_record 0) = true) by (vm_compute; reflexivity).
  destruct (C5_structural_leaves demo_env demo_context (VStr "T")
              [VStr "P1"; VStr "P2"] [demo_sub_item] [demo_sub_item]
              (demo_record 0) s0 eq_refl eq_refl eq_refl eq_refl Hwf)
    as ((s1 & H1 & _) & (s2 & H2 & _) & (s3 & H3 & _ & Hc3 & _) & _).
  rewrite H1, H2, H3. cbn [fst snd]. rewrite Hc3.
  split; [reflexivity|]. split; [reflexivity|]. split; reflexivity.
Defined.

(** C5 as stated fails for the record literal of translate_to_bn_v3.py:
    the context of a record of the file, a list of titles and paragraphs,
    reaches the loop as one string (its [str], made by
    [download_dataset]) and is sent to the backend in a single call; no
    title and no paragraph is translated on its own, and what comes back is
    one string. *)
Lemma C5_counterexample :
  let E := mk_env bn no_disk_failure [structured_record] in
  ∃ row c,
    dataset_rows E = Ret [row]
    ∧ getitem row "context" = Ret (VStr c)
    ∧ getitem (fst (v3_record E 0 row)) "context" = Ret (VStr ("bn:" +:+ c))
    ∧ fst (V3.translate_record E row s0) = Ret (fst (v3_record E 0 row))
    ∧ filter (fun x => bool_decide (x ∈ [c; "T"; "P1"; "P2"]))
             (called_strings (trace (snd (V3.translate_record E row s0))))
      = [c].
Proof.
  cbn zeta. eexists _, _.
  split; [vm_compute; reflexivity|].
  split; [vm_compute; reflexivity|].
  split; [vm_compute; reflexivity|].
  split; vm_compute; reflexivity.
Qed.

Lemma V1_translate_to_bengali_returns E v s :
  ∃ r s', V1.translate_to_bengali E v s = (Ret r, s').
Proof.
  unfold V1.translate_to_bengali, bind, call_service.
  destruct (svc E (ncalls s) v); by eexists _, _.
Qed.

Lemma V1_translate_decomp_item_returns E item s :
  is_decomp_item item = true →
  ∃ r s', V1.translate_decomp_item E item s = (Ret r, s').
Proof.
  intros (Hid & Hq & Ha & Hp)%is_decomp_item_keys.
  unfold V1.translate_decomp_item.
  rewrite (getitem_field _ _ Hid), (getitem_field _ _ Hq),
    (getitem_field _ _ Ha), (getitem_field _ _ Hp).
  rewrite !bind_of_ret.
  destruct (V1_translate_to_bengali_returns E (field item "question") s)
    as (q & s1 & H1).
  rewrite (bind_run _ _ _ _ _ H1), bind_of_ret.
  destruct (V1_translate_to_bengali_returns E (field item "answer") s1)
    as (a & s2 & H2).
  rewrite (bind_run _ _ _ _ _ H2), bind_of_ret.
  destruct (V1_translate_to_bengali_returns E
              (field item "paragraph_support_title") s2) as (p & s3 & H3).
  rewrite (bind_run _ _ _ _ _ H3). by eexists _, _.
Qed.

Lemma V1_translate_decomp_loop_returns E items : ∀ acc s,
  forallb is_decomp_item items = true →
  ∃ r s', V1.translate_decomp_loop E items acc s = (Ret r, s').
Proof.
  induction items as [|item items IH]; intros acc s Hall; [by eexists _, _|].
  cbn [forallb] in Hall. apply andb_prop in Hall as [Hitem Hall].
  cbn [V1.translate_decomp_loop].
  destruct (V1_translate_decomp_item_returns E item s Hitem) as (o & s1 & H1).
  rewrite (bind_run _ _ _ _ _ H1). by apply IH.
Qed.

Lemma V1_translate_decomposition_returns E v s :
  v4_decomp_ok v = true →
  ∃ r s', V1.translate_decomposition E v s = (Ret r, s').
Proof.
  destruct v as [| | | | |items|]; try discriminate. cbn [v4_decomp_ok].
  intros Hall. unfold V1.translate_decomposition. cbn [iter_value].
  rewrite bind_of_ret.
  destruct (V1_translate_decomp_loop_returns E items [] s Hall)
    as (r & s' & H).
  rewrite (bind_run _ _ _ _ _ H). by eexists _, _.
Qed.

(** translate_to_bn.py builds a record with a fixed list of ten keys. *)
Lemma V1_translate_record_spec E item s :
  v1_wf item = true →
  ∃ d' s', V1.translate_record E item s = (Ret (VDict d'), s')
           ∧ d'.*1 = v1_keys.
Proof.
  unfold v1_wf. cbn [forallb metadata_fields].
  rewrite !andb_true_r, !andb_true_iff.
  intros [[(Hq & Ha & Hc & Hpq & Hpa) Hqd] (Hat & Hpat & Hnh & Hrt)].
  apply field_ok_inv in Hqd as [Hqd Hsqd].
  apply getitem_field in Hq, Ha, Hc, Hpq, Hpa, Hat, Hpat, Hnh, Hrt.
  unfold V1.translate_record.
  rewrite Hq, bind_of_ret.
  destruct (V1_translate_to_bengali_returns E (field item "question") s)
    as (q & s1 & H1).
  rewrite (bind_run _ _ _ _ _ H1), Ha, bind_of_ret.
  destruct (V1_translate_to_bengali_returns E (field item "answer") s1)
    as (a & s2 & H2).
  rewrite (bind_run _ _ _ _ _ H2), Hc, bind_of_ret.
  destruct (V1_translate_to_bengali_returns E (field item "context") s2)
    as (c & s3 & H3).
  rewrite (bind_run _ _ _ _ _ H3), Hpq, bind_of_ret.
  destruct (V1_translate_to_bengali_returns E
              (field item "previous_question") s3) as (pq & s4 & H4).
  rewrite (bind_run _ _ _ _ _ H4), Hpa, bind_of_ret.
  destruct (V1_translate_to_bengali_returns E
              (field item "previous_answer") s4) as (pa & s5 & H5).
  rewrite (bind_run _ _ _ _ _ H5), Hqd, bind_of_ret.
  destruct (V1_translate_decomposition_returns E _ s5 Hsqd) as (qd & s6 & H6).
  rewrite (bind_run _ _ _ _ _ H6), Hat, bind_of_ret, Hpat, bind_of_ret,
    Hnh, bind_of_ret, Hrt, bind_of_ret.
  unfold ret. by eexists _, s6.
Qed.

Lemma metadata_plain k : k ∈ metadata_fields → plain_key k.
Proof.
  unfold metadata_fields, plain_key. rewrite !elem_of_cons, elem_of_nil.
  intros [->|[->|[->|[->|[]]]]]; done.
Qed.

Lemma V4_translate_item_lookup E d s :
  dict_wf d → v4_wf d = true →
  ∃ d' s', V4.translate_item E (VDict d) s = (Ret (VDict d'), s')
    ∧ d'.*1 = d.*1
    ∧ ∀ k v, plain_key k → dict_get d k = Some v →
        (is_str v = false → dict_get d' k = Some v)
        ∧ (is_str v = true →
           ∃ n, dict_get d' k = Some (resolve (svc E n v) v)).
Proof.
  intros Hwf Hok.
  destruct (V4_translate_item_spec E d s Hwf Hok) as (d' & s' & H & Hk & Hrel).
  exists d', s'. split; [done|]. split; [done|].
  intros k v Hplain Hget.
  destruct (v4_field_rel_get E d d' k v Hrel Hget)
    as (v' & Hget' & _ & Hkeep & Htr).
  cbn [fst snd] in Hkeep, Htr. split.
  - intros Hs. by rewrite Hget', (Hkeep Hplain Hs).
  - intros Hs. destruct (Htr Hplain Hs) as [n ->]. by exists n.
Qed.

(** C3, as amended.  [translate_item] of translate_v4.py returns a record
    with the keys of its input, in the same order; an entry other than
    [context] and [question_decomposition] is copied unchanged when its
    value is not a string and is replaced by the outcome of one backend call
    when it is a string, known field or not.  [translate_dataset] of
    translate_to_bn.py builds every record with a fixed list of ten keys. *)
Theorem C3_keys_and_unlisted_fields (E : env) (d : pydict) (item1 : value)
    (s : tstate) :
  dict_wf d → v4_wf d = true → v1_wf item1 = true →
  (∃ d' s', V4.translate_item E (VDict d) s = (Ret (VDict d'), s')
     ∧ d'.*1 = d.*1
     ∧ ∀ k v, plain_key k → dict_get d k = Some v →
         (is_str v = false → dict_get d' k = Some v)
         ∧ (is_str v = true →
            ∃ n, dict_get d' k = Some (resolve (svc E n v) v)))
  ∧ (∃ d1 s', V1.translate_record E item1 s = (Ret (VDict d1), s')
       ∧ d1.*1 = v1_keys).
Proof.
  intros Hwf Hok Hok1. split.
  - by apply V4_translate_item_lookup.
  - by apply V1_translate_record_spec.
Qed.

Lemma C3_witness :
  (∃ d', fst (V4.translate_item demo_env
                (VDict [("question", VStr "Who is king?");
                        ("answer", VStr "Bob"); ("no_of_hops", VInt 2)]) s0)
         = Ret (VDict d')
         ∧ d'.*1 = ["question"; "answer"; "no_of_hops"]
         ∧ dict_get d' "no_of_hops" = Some (VInt 2))
  ∧ (∃ d1, fst (V1.translate_record demo_env (demo_record 0) s0)
           = Ret (VDict d1) ∧ d1.*1 = v1_keys).
Proof.
  destruct (C3_keys_and_unlisted_fields demo_env
              [("question", VStr "Who is king?"); ("answer", VStr "Bob");
               ("no_of_hops", VInt 2)] (demo_record 0) s0)
    as ((d' & s' & H & Hk & Hv) & (d1 & s1 & H1 & Hk1)).
  - apply (bool_decide_unpack _). vm_compute. exact I.
  - reflexivity.
  - reflexivity.
  - split.
    + exists d'. rewrite H. split; [reflexivity|]. split; [exact Hk|].
      by apply (Hv "no_of_hops" (VInt 2)).
    + exists d1. rewrite H1. done.
Defined.

(** C3 as stated fails: under translate_v4.py a string-valued field outside
    the schema is translated rather than copied, and translate_to_bn.py
    drops [question_on_last_hop]. *)
Lemma C3_counterexample :
  ("note" ∉ schema_fields)
  ∧ fst (V4.translate_item demo_env
           (VDict [("question", VStr "Who is king?"); ("note", VStr "hello")])
           s0)
    = Ret (VDict [("question", VStr "bn:Who is king?");
                  ("note", VStr "bn:hello")])
  ∧ VStr "bn:hello" ≠ VStr "hello"
  ∧ has_key (demo_record 0) "question_on_last_hop" = true
  ∧ ∃ out, fst (V1.translate_record demo_env (demo_record 0) s0) = Ret out
           ∧ has_key out "question_on_last_hop" = false.
Proof.
  split; [apply (bool_decide_unpack _); vm_compute; exact I|].
  split; [reflexivity|]. split; [discriminate|]. split; [reflexivity|].
  eexists. split; reflexivity.
Qed.

(** C4, as amended.  The record literal of translate_to_bn_v3.py carries
    [answer_type], [previous_answer_type], [no_of_hops] and [reasoning_type]
    over unchanged whatever their type; [translate_item] of translate_v4.py
    carries them over unchanged whenever their value is not a string. *)
Theorem C4_metadata_carried_over (E : env) (item : value) (d : pydict)
    (s : tstate) :
  wf_record item = true → dict_wf d → v4_wf d = true →
  (∃ out s', V3.translate_record E item s = (Ret out, s')
     ∧ Forall (fun k => getitem out k = getitem item k) metadata_fields)
  ∧ (∃ d' s', V4.translate_item E (VDict d) s = (Ret (VDict d'), s')
       ∧ ∀ k v, k ∈ metadata_fields → dict_get d k = Some v →
           is_str v = false → dict_get d' k = Some v).
Proof.
  intros Hrec Hwf Hok. split.
  - destruct (V3_translate_record_spec E item s Hrec)
      as (out & s' & H & (q & a & c & pq & pa & qd & ql & -> & _)).
    eexists _, s'. split; [exact H|].
    unfold wf_record in Hrec. apply andb_prop in Hrec as [_ Hmeta].
    cbn [forallb metadata_fields] in Hmeta.
    rewrite !andb_true_r, !andb_true_iff in Hmeta.
    destruct Hmeta as (Hat & Hpat & Hnh & Hrt).
    apply getitem_field in Hat, Hpat, Hnh, Hrt.
    unfold metadata_fields.
    repeat constructor; [rewrite Hat|rewrite Hpat|rewrite Hnh|rewrite Hrt];
      reflexivity.
  - destruct (V4_translate_item_lookup E d s Hwf Hok) as (d' & s' & H & _ & Hv).
    exists d', s'. split; [exact H|].
    intros k v Hk Hget Hs.
    by apply (Hv k v (metadata_plain k Hk) Hget).
Qed.

Lemma C4_witness :
  (∃ out, fst (V3.translate_record demo_env (demo_record 0) s0) = Ret out
          ∧ getitem out "answer_type" = Ret (VStr "person")
          ∧ getitem out "no_of_hops" = Ret (VInt 2))
  ∧ (∃ d', fst (V4.translate_item demo_env
                  (VDict [("answer", VStr "Bob"); ("no_of_hops", VInt 2)]) s0)
           = Ret (VDict d')
           ∧ dict_get d' "no_of_hops" = Some (VInt 2)).
Proof.
  destruct (C4_metadata_carried_over demo_env (demo_record 0)
              [("answer", VStr "Bob"); ("no_of_hops", VInt 2)] s0)
    as ((out & s' & H & Hmeta) & (d' & s1 & H1 & Hv)).
  - reflexivity.
  - apply (bool_decide_unpack _). vm_compute. exact I.
  - reflexivity.
  - split.
    + exists out. rewrite H. split; [reflexivity|].
      unfold metadata_fields in Hmeta.
      apply Forall_cons in Hmeta as [Hat Hmeta].
      apply Forall_cons in Hmeta as [_ Hmeta].
      apply Forall_cons in Hmeta as [Hnh _].
      split; [exact Hat | exact Hnh].
    + exists d'. rewrite H1. split; [reflexivity|].
      apply (Hv "no_of_hops" (VInt 2)); [|reflexivity|reflexivity].
      unfold metadata_fields. rewrite !elem_of_cons. auto.
Defined.

(** C4 as stated fails: under translate_v4.py a string-valued
    [answer_type] goes through the translator. *)
Lemma C4_counterexample :
  fst (V4.translate_item demo_env
         (VDict [("answer_type", VStr "person"); ("no_of_hops", VInt 2)]) s0)
  = Ret (VDict [("answer_type", VStr "bn:person"); ("no_of_hops", VInt 2)])
  ∧ VStr "bn:person" ≠ VStr "person".
Proof. split; [reflexivity | discriminate]. Qed.

(** ** Checkpoint files *)

Lemma str_app_nil_r (x : string) : x +:+ "" = x.
Proof.
  induction x as [|a x IH]; [done|].
  change (String a (x +:+ "") = String a x). by f_equal.
Qed.

Lemma str_app_assoc (x y z : string) : x +:+ (y +:+ z) = (x +:+ y) +:+ z.
Proof.
  induction x as [|a x IH]; [done|].
  change (String a (x +:+ (y +:+ z)) = String a ((x +:+ y) +:+ z)).
  by f_equal.
Qed.

Lemma apply_writes p cs : ∀ f x,
  files f !! p = Some x →
  files (foldl (fun acc op => apply_op op acc) f (WriteChunk p <$> cs)) !! p
  = Some (x +:+ joined cs).
Proof.
  induction cs as [|c cs IH]; intros f x Hx.
  - change (joined []) with "". rewrite str_app_nil_r. exact Hx.
  - change (joined (c :: cs)) with (c +:+ joined cs).
    rewrite str_app_assoc. apply IH.
    cbn. by rewrite lookup_alter_eq, Hx.
Qed.

Lemma direct_write_crash dir p chunks f j :
  2 ≤ j →
  files (crash_after j (direct_write dir p chunks) f) !! p
  = Some (joined (take (j - 2) chunks)).
Proof.
  intros Hj. destruct j as [|[|j]]; try lia.
  unfold crash_after, direct_write. cbn [take foldl].
  replace (S (S j) - 2) with j by lia.
  destruct (decide (j ≤ length chunks)) as [Hle|Hgt].
  - rewrite take_app_le by (by rewrite length_fmap).
    rewrite <- fmap_take.
    rewrite (apply_writes p (take j chunks) _ ""); [done|].
    cbn. by rewrite lookup_insert_eq.
  - rewrite (take_ge chunks) by lia.
    rewrite take_app_ge by (rewrite length_fmap; lia).
    rewrite foldl_app.
    assert (Hw : files (foldl (fun acc op => apply_op op acc)
                          (apply_op (OpenW p) (apply_op (Makedirs dir) f))
                          (WriteChunk p <$> chunks)) !! p
                 = Some (joined chunks)).
    { rewrite (apply_writes p chunks _ ""); [done|].
      cbn. by rewrite lookup_insert_eq. }
    destruct (j - length (WriteChunk p <$> chunks)) as [|[|n]]; exact Hw.
Qed.

Lemma direct_write_no_rename dir p chunks :
  forallb is_rename (direct_write dir p chunks) = false
  ∧ Forall (fun op => is_rename op = false) (direct_write dir p chunks).
Proof.
  split; [reflexivity|].
  unfold direct_write. repeat constructor.
  apply Forall_app. split; [|by repeat constructor].
  apply Forall_fmap, Forall_forall. done.
Qed.

(** C7, as amended.  [save_checkpoint] of translate_to_bn_v3.py and of
    translate_to_bn_v2.py creates the directory, opens the final checkpoint
    path for writing and writes the JSON there; no operation is a rename.
    When the process stops after [j >= 2] operations the file at the final
    path holds the first [j - 2] chunks of the JSON; after all operations
    it holds the whole JSON. *)
Theorem C7_checkpoint_written_in_place (E : env) (data : list value)
    (num j : nat) (f : filesys) :
  2 ≤ j →
  let chunks := json_chunks E (VList data) in
  (V3.save_checkpoint_ops E data num
   = direct_write "checkpoints" (V3.checkpoint_path num) chunks
   ∧ Forall (fun op => is_rename op = false) (V3.save_checkpoint_ops E data num)
   ∧ files (crash_after j (V3.save_checkpoint_ops E data num) f)
       !! V3.checkpoint_path num
     = Some (joined (take (j - 2) chunks))
   ∧ files (crash_after (length (V3.save_checkpoint_ops E data num))
              (V3.save_checkpoint_ops E data num) f)
       !! V3.checkpoint_path num
     = Some (joined chunks))
  ∧ (V2.save_checkpoint_ops E data num
     = direct_write "checkpoints" (V2.checkpoint_path E num) chunks
     ∧ Forall (fun op => is_rename op = false)
              (V2.save_checkpoint_ops E data num)
     ∧ files (crash_after j (V2.save_checkpoint_ops E data num) f)
         !! V2.checkpoint_path E num
       = Some (joined (take (j - 2) chunks))).
Proof.
  intros Hj chunks. split; [split; [reflexivity|split; [|split]] |
                            split; [reflexivity|split]].
  - apply direct_write_no_rename.
  - by apply direct_write_crash.
  - change (V3.save_checkpoint_ops E data num)
      with (direct_write "checkpoints" (V3.checkpoint_path num) chunks).
    rewrite direct_write_crash.
    + rewrite take_ge; [done|].
      unfold direct_write. cbn [length]. rewrite length_app, length_fmap.
      cbn. lia.
    + unfold direct_write. cbn [length]. lia.
  - apply direct_write_no_rename.
  - by apply direct_write_crash.
Qed.

Lemma C7_witness :
  files (crash_after 3 (V3.save_checkpoint_ops demo_env [VStr "a"; VStr "b"] 100)
           fs0) !! V3.checkpoint_path 100
  = Some "[".
Proof.
  destruct (C7_checkpoint_written_in_place demo_env [VStr "a"; VStr "b"]
              100 3 fs0 ltac:(lia)) as [(_ & _ & H & _) _].
  rewrite H. reflexivity.
Defined.

(** C7 as stated fails: when the process stops right after [open], an
    empty file sits at the final checkpoint path; it is neither absent, as
    before the save, nor the complete JSON. *)
Lemma C7_counterexample :
  ¬ atomic_save (V3.save_checkpoint_ops demo_env [VStr "a"; VStr "b"] 100) fs0
      (V3.checkpoint_path 100)
      (joined (json_chunks demo_env (VList [VStr "a"; VStr "b"]))).
Proof.
  intros H. specialize (H 2).
  change (V3.save_checkpoint_ops demo_env [VStr "a"; VStr "b"] 100)
    with (direct_write "checkpoints" (V3.checkpoint_path 100)
            (json_chunks demo_env (VList [VStr "a"; VStr "b"]))) in H.
  rewrite direct_write_crash in H by lia. destruct H as [H|H].
  - cbn in H. rewrite lookup_empty in H. discriminate.
  - vm_compute in H. discriminate.
Qed.

(** ** The translation loop of translate_to_bn_v3.py *)

Lemma lift_run {A} (c : T A) (w : world) r s' :
  c (w_ts w) = (r, s') →
  lift c w = (r, {| w_ts := s'; w_fs := w_fs w; w_ops := w_ops w |}).
Proof. intros H. unfold lift. by rewrite H. Qed.

Lemma exec_ops_none ops : ∀ i w,
  exec_ops None i ops w
  = (Ret tt,
     {| w_ts := w_ts w;
        w_fs := foldl (fun acc op => apply_op op acc) (w_fs w) ops;
        w_ops := w_ops w ++ ops |}).
Proof.
  induction ops as [|op ops IH]; intros i w.
  - cbn. rewrite app_nil_r. by destruct w.
  - cbn [exec_ops]. unfold bind at 1. cbn [do_fs].
    rewrite IH. cbn. by rewrite <- app_assoc.
Qed.


Lemma save_checkpoint_ok E data num w :
  disk E num = None →
  V3.save_checkpoint E data num w
  = (Ret tt,
     {| w_ts := {| ncalls := ncalls (w_ts w);
                   trace := trace (w_ts w)
                            ++ [ELog INFO ("Checkpoint saved: "
                                           +:+ V3.checkpoint_path num)] |};
        w_fs := foldl (fun acc op => apply_op op acc) (w_fs w)
                  (V3.save_checkpoint_ops E data num);
        w_ops := w_ops w ++ V3.save_checkpoint_ops E data num |}).
Proof.
  intros Hd. unfold V3.save_checkpoint. rewrite Hd.
  unfold bind. rewrite exec_ops_none. reflexivity.
Qed.

Lemma checkpoint_points_S idx n :
  checkpoint_points idx (S n)
  = (if decide ((idx + 1) mod V3.CHECKPOINT_INTERVAL = 0)
     then [idx + 1] else [])
    ++ checkpoint_points (idx + 1) n.
Proof.
  unfold checkpoint_points. cbn [seq].
  replace (S (idx + 1)) with (idx + 1 + 1) by lia.
  destruct (decide ((idx + 1) mod V3.CHECKPOINT_INTERVAL = 0)) as [H|H].
  - by rewrite filter_cons_True.
  - by rewrite filter_cons_False.
Qed.

Lemma checkpoint_points_bounds idx n m :
  m ∈ checkpoint_points idx n
  ↔ idx < m ≤ idx + n ∧ m mod V3.CHECKPOINT_INTERVAL = 0.
Proof.
  unfold checkpoint_points. rewrite list_elem_of_filter, elem_of_seq. lia.
Qed.

(** On well-formed records and a disk that does not fail the loop returns;
    it appends one record per input record and issues exactly the
    operations of one save per checkpoint point, each over the records
    translated so far. *)
Lemma translation_loop_spec E ds : ∀ idx acc w,
  length acc = idx →
  forallb wf_record ds = true →
  (∀ m, m ∈ checkpoint_points idx (length ds) → disk E m = None) →
  ∃ out w', V3.translation_loop E ds idx acc w = (Ret (acc ++ out), w')
    ∧ Forall2 (v3_record_rel E) ds out
    ∧ w_ops w'
      = w_ops w ++ flat_map (fun m =>
                               V3.save_checkpoint_ops E (take m (acc ++ out)) m)
                            (checkpoint_points idx (length ds))
    ∧ w_fs w' = foldl (fun f op => apply_op op f) (w_fs w)
                  (flat_map (fun m =>
                               V3.save_checkpoint_ops E (take m (acc ++ out)) m)
                            (checkpoint_points idx (length ds))).
Proof.
  induction ds as [|item ds IH]; intros idx acc w Hlen Hwf Hdisk.
  - exists [], w. cbn. rewrite !app_nil_r. done.
  - cbn [forallb] in Hwf. apply andb_prop in Hwf as [Hitem Hwf].
    cbn [V3.translation_loop length].
    destruct (V3_translate_record_spec E item (w_ts w) Hitem)
      as (t & s1 & H1 & Hrel).
    rewrite (bind_run _ _ _ _ _ (lift_run _ _ _ _ H1)).
    rewrite checkpoint_points_S. cbn [length] in Hdisk.
    rewrite checkpoint_points_S in Hdisk.
    destruct (Nat.eqb_spec ((idx + 1) mod V3.CHECKPOINT_INTERVAL) 0)
      as [Hdue|Hnot].
    + rewrite decide_True by done. rewrite decide_True in Hdisk by done.
      unfold bind at 1. unfold bind at 1. unfold lift at 1, log, emit.
      cbn [w_ts w_fs w_ops ncalls trace].
      rewrite save_checkpoint_ok by (apply Hdisk; cbn; left).
      cbn [w_ts w_fs w_ops ncalls trace].
      match goal with
      | |- context [V3.translation_loop E ds (idx + 1) (acc ++ [t]) ?w1] =>
          destruct (IH (idx + 1) (acc ++ [t]) w1)
            as (out & w' & H & Hrels & Hops & Hfs)
      end; [rewrite length_app; cbn; lia | done
            | intros m Hm; apply Hdisk; cbn; by right |].
      exists (t :: out), w'.
      rewrite <- (app_assoc acc [t] out) in H, Hops, Hfs.
      cbn [app] in H, Hops, Hfs.
      split; [exact H|]. split; [by constructor|].
      cbn [w_ops w_fs] in Hops, Hfs.
      assert (Htake : take (idx + 1) (acc ++ t :: out) = acc ++ [t]).
      { rewrite take_app_ge by lia.
        replace (idx + 1 - length acc) with 1 by lia.
        cbn. by rewrite take_0. }
      split.
      * rewrite Hops. cbn [flat_map app]. rewrite Htake, <- !app_assoc. done.
      * rewrite Hfs. cbn [flat_map app]. rewrite Htake, foldl_app. done.
    + rewrite decide_False by done. rewrite decide_False in Hdisk by done.
      rewrite bind_ret_l.
      match goal with
      | |- context [V3.translation_loop E ds (idx + 1) (acc ++ [t]) ?w1] =>
          destruct (IH (idx + 1) (acc ++ [t]) w1)
            as (out & w' & H & Hrels & Hops & Hfs)
      end; [rewrite length_app; cbn; lia | done | exact Hdisk |].
      exists (t :: out), w'.
      rewrite <- (app_assoc acc [t] out) in H, Hops, Hfs.
      cbn [app] in H, Hops, Hfs.
      split; [exact H|]. split; [by constructor|].
      cbn [w_ops w_fs] in Hops, Hfs.
      split; [exact Hops | exact Hfs].
Qed.

(** *** Checkpoint paths are pairwise distinct *)

Lemma str_of_nat_inj n m : str_of_nat n = str_of_nat m → n = m.
Proof.
  unfold str_of_nat. intros H.
  apply (f_equal NilEmpty.uint_of_string) in H.
  rewrite !NilEmpty.usu in H. injection H as H.
  apply (f_equal Nat.of_uint) in H.
  by rewrite !DecimalNat.Unsigned.of_to in H.
Qed.

Lemma str_length_app (x y : string) :
  String.length (x +:+ y) = String.length x + String.length y.
Proof.
  induction x as [|a x IH]; [done|].
  change (S (String.length (x +:+ y)) = S (String.length x + String.length y)).
  by f_equal.
Qed.

Lemma str_app_inv_r (x y t : string) : x +:+ t = y +:+ t → x = y.
Proof.
  revert y. induction x as [|a x IH]; intros [|b y] H.
  - done.
  - apply (f_equal String.length) in H.
    change (String.length t = S (String.length (y +:+ t))) in H.
    rewrite str_length_app in H. lia.
  - apply (f_equal String.length) in H.
    change (S (String.length (x +:+ t)) = String.length t) in H.
    rewrite str_length_app in H. lia.
  - change (String a (x +:+ t) = String b (y +:+ t)) in H.
    injection H as -> H. f_equal. by apply IH.
Qed.

Lemma checkpoint_path_inj n m :
  V3.checkpoint_path n = V3.checkpoint_path m → n = m.
Proof.
  unfold V3.checkpoint_path, path_join. intros H.
  do 3 apply String.app_inj in H.
  apply str_app_inv_r in H. by apply str_of_nat_inj.
Qed.

(** Writing one file leaves every other file alone. *)
Lemma apply_writes_other p q cs : ∀ f,
  p ≠ q →
  files (foldl (fun acc op => apply_op op acc) f (WriteChunk p <$> cs)) !! q
  = files f !! q.
Proof.
  induction cs as [|c cs IH]; intros f Hne; [done|].
  cbn [fmap list_fmap foldl]. rewrite IH by done.
  cbn. by rewrite lookup_alter_ne.
Qed.

Lemma direct_write_done dir p chunks f :
  files (foldl (fun acc op => apply_op op acc) f (direct_write dir p chunks)) !! p
  = Some (joined chunks).
Proof.
  unfold direct_write. cbn [foldl]. rewrite foldl_app. cbn [foldl apply_op].
  rewrite (apply_writes p chunks _ ""); [done|].
  cbn. by rewrite lookup_insert_eq.
Qed.

Lemma direct_write_other dir p q chunks f :
  p ≠ q →
  files (foldl (fun acc op => apply_op op acc) f (direct_write dir p chunks)) !! q
  = files f !! q.
Proof.
  intros Hne. unfold direct_write. cbn [foldl]. rewrite foldl_app.
  cbn [foldl apply_op]. rewrite apply_writes_other by done.
  cbn. by rewrite lookup_insert_ne.
Qed.

(** A series of saves leaves the checkpoint files of other record counts
    alone. *)
Lemma saves_other E (g : nat → list value) ms : ∀ f m,
  m ∉ ms →
  files (foldl (fun acc op => apply_op op acc) f
           (flat_map (fun m => V3.save_checkpoint_ops E (g m) m) ms))
    !! V3.checkpoint_path m
  = files f !! V3.checkpoint_path m.
Proof.
  induction ms as [|m0 ms IH]; intros f m Hm; [done|].
  apply not_elem_of_cons in Hm as [Hne Hm].
  cbn [flat_map]. rewrite foldl_app, IH by done.
  apply direct_write_other. intros Heq%checkpoint_path_inj. congruence.
Qed.

(** After a series of saves at distinct record counts, each checkpoint file
    holds the JSON of its own save. *)
Lemma saves_files E (g : nat → list value) ms : ∀ f m,
  NoDup ms → m ∈ ms →
  files (foldl (fun acc op => apply_op op acc) f
           (flat_map (fun m => V3.save_checkpoint_ops E (g m) m) ms))
    !! V3.checkpoint_path m
  = Some (joined (json_chunks E (VList (g m)))).
Proof.
  induction ms as [|m0 ms IH]; intros f m Hnd Hm; [by apply elem_of_nil in Hm|].
  apply NoDup_cons in Hnd as [Hm0 Hnd]. cbn [flat_map]. rewrite foldl_app.
  apply elem_of_cons in Hm as [->|Hm].
  - rewrite saves_other by done. apply direct_write_done.
  - by apply IH.
Qed.

Lemma flat_map_ext_elem {A B} (f g : A → list B) (l : list A) :
  (∀ x, x ∈ l → f x = g x) → flat_map f l = flat_map g l.
Proof.
  induction l as [|x l IH]; intros H; [done|]. cbn [flat_map].
  rewrite (H x) by (apply elem_of_cons; by left).
  rewrite IH; [done|]. intros y Hy. apply H, elem_of_cons. by right.
Qed.

Lemma checkpoint_points_NoDup idx n : NoDup (checkpoint_points idx n).
Proof. apply NoDup_filter, NoDup_seq. Qed.

(** *** From the loop to the whole run *)

Lemma download_ok E file_path ds s :
  hub_download E = Ok file_path → dataset_rows E = Ret ds →
  V3.download_dataset E s
  = (Ret ds,
     {| ncalls := ncalls s;
        trace := trace s ++ [ELog INFO ("Dataset downloaded to: "
                                        +:+ file_path)] |}).
Proof.
  intros Hd Hp. unfold V3.download_dataset, try_except. rewrite Hd.
  unfold dataset_rows in Hp. unfold bind, log, emit, of_result.
  destruct (V3.preprocess E) as [p|e]; [|discriminate]. by rewrite Hp.
Qed.

Lemma run_reaches_loop E file_path ds w :
  hub_download E = Ok file_path → dataset_rows E = Ret ds →
  V3.translate_and_push_dataset E w
  = try_except
      (translated_data <- V3.translation_loop E ds 0 [] ;;
       lift (log INFO "Creating Hugging Face dataset...") ;;
       bn_dataset <- lift (of_result (from_list E translated_data)) ;;
       lift (log INFO "Pushing to Hugging Face Hub...") ;;
       lift (emit (EPush "bengali-morehopqa" bn_dataset)) ;;
       V3.hub_call (push_to_hub E bn_dataset) ;;
       lift (emit (EUpload "README.md" V3.create_dataset_description)) ;;
       V3.hub_call (upload_file E "README.md") ;;
       lift (log INFO "Dataset successfully pushed to Hugging Face!"))
      (fun e =>
         lift (log ERROR ("An error occurred: " +:+ exn_str e)) ;;
         raise e)
      (add_events (run_preamble file_path) w).
Proof.
  intros Hd Hp. unfold V3.translate_and_push_dataset, try_except.
  unfold bind at 1. unfold lift at 1, log at 1, emit at 1.
  cbn [w_ts w_fs w_ops ncalls trace].
  unfold bind at 1. unfold lift at 1. cbn [w_ts w_fs w_ops].
  rewrite (download_ok E file_path ds _ Hd Hp).
  cbn [ncalls trace]. unfold add_events, run_preamble.
  rewrite <- app_assoc. reflexivity.
Qed.

(** After the loop: nothing more is written, and the collection goes to the
    hub as the dataset [Dataset.from_list] makes of it, if it makes one. *)
Lemma run_after_loop E file_path ds w out w2 :
  hub_download E = Ok file_path → dataset_rows E = Ret ds →
  V3.translation_loop E ds 0 [] (add_events (run_preamble file_path) w)
  = (Ret out, w2) →
  w_ops (snd (V3.translate_and_push_dataset E w)) = w_ops w2
  ∧ w_fs (snd (V3.translate_and_push_dataset E w)) = w_fs w2
  ∧ ∀ bn, from_list E out = Ret bn →
      EPush "bengali-morehopqa" bn
      ∈ trace (w_ts (snd (V3.translate_and_push_dataset E w))).
Proof.
  intros Hd Hp Hloop. rewrite (run_reaches_loop E file_path ds w Hd Hp).
  unfold try_except. rewrite (bind_run _ _ _ _ _ Hloop).
  unfold bind, lift, log, emit, V3.hub_call, raise, ret, of_result.
  cbn [w_ts w_fs w_ops ncalls trace].
  destruct (from_list E out) as [bn|e0];
    cbn [w_ts w_fs w_ops ncalls trace snd];
    [destruct (push_to_hub E bn); cbn [w_ts w_fs w_ops ncalls trace snd];
     [|destruct (upload_file E "README.md");
       cbn [w_ts w_fs w_ops ncalls trace snd]]|];
    (split; [done|]; split; [done|]); intros bn' [= <-];
    rewrite !elem_of_app, !list_elem_of_singleton; tauto.
Qed.


(** The loop of translate_to_bn_v2.py tests the same condition with its own
    interval of 50. *)
Lemma V2_checkpoint_due idx :
  V2.checkpoint_due idx = true ↔ (idx + 1) mod 50 = 0.
Proof. unfold V2.checkpoint_due, V2.CHECKPOINT_INTERVAL. apply Nat.eqb_eq. Qed.

(** *** Errors inside the loop *)

Lemma bind_assoc {S A B C} (c : SE S A) (k : A → SE S B) (k' : B → SE S C) s :
  bind (bind c k) k' s = bind c (fun a => bind (k a) k') s.
Proof. unfold bind. destruct (c s) as [[a|e] s']; reflexivity. Qed.

Lemma bind_ext {S A B} (c : SE S A) (k k' : A → SE S B) s :
  (∀ a s', k a s' = k' a s') → bind c k s = bind c k' s.
Proof. intros H. unfold bind. destruct (c s) as [[a|e] s']; [apply H|done]. Qed.

(** The loop over [l1 ++ l2] is the loop over [l1] followed by the loop
    over [l2]; when the first raises, the second never starts. *)
Lemma translation_loop_app E l1 l2 : ∀ idx acc w,
  V3.translation_loop E (l1 ++ l2) idx acc w
  = (acc' <- V3.translation_loop E l1 idx acc ;;
     V3.translation_loop E l2 (idx + length l1) acc') w.
Proof.
  induction l1 as [|item l1 IH]; intros idx acc w.
  - cbn. by rewrite Nat.add_0_r.
  - cbn [app V3.translation_loop length].
    rewrite bind_assoc. apply bind_ext. intros t w1.
    rewrite bind_assoc. apply bind_ext. intros _ w2.
    rewrite IH. replace (idx + 1 + length l1) with (idx + S (length l1)) by lia.
    reflexivity.
Qed.

(** C10.  In a run of translate_to_bn_v3.py over [n] well-formed rows on
    a disk that does not fail, the file-system operations are exactly
    those of one save per positive multiple [m <= n] of
    [CHECKPOINT_INTERVAL], in increasing order, the save at [m] writing the
    first [m] translated records; afterwards the file of checkpoint [m]
    holds their JSON.  Nothing is written at the end of the run, so no
    checkpoint covers more than [n - n mod CHECKPOINT_INTERVAL] records.
    The saves happen as the loop goes: for every [k <= n], the run passes
    through the state [wk] that the loop reaches after [k] rows (it goes
    on from [wk] with row [k], index [k] and the [k] records translated so
    far), and in [wk] the operations issued are those of the saves at the
    multiples [m <= k], their files hold the first [m] records, and no
    checkpoint file of a later count has been touched. *)
Theorem C10_checkpoint_cadence (E : env) (file_path : string)
    (ds : list value) (w : world) :
  hub_download E = Ok file_path →
  dataset_rows E = Ret ds →
  forallb wf_record ds = true →
  (∀ num, disk E num = None) →
  ∃ out,
    let w' := snd (V3.translate_and_push_dataset E w) in
    let start := add_events (run_preamble file_path) w in
    let points := checkpoint_points 0 (length ds) in
    let saves := fun ms =>
      flat_map (fun m => V3.save_checkpoint_ops E (take m out) m) ms in
    Forall2 (v3_record_rel E) ds out
    ∧ (∀ bn, from_list E out = Ret bn →
         EPush "bengali-morehopqa" bn ∈ trace (w_ts w'))
    ∧ (∀ m, m ∈ points
            ↔ 0 < m ≤ length ds ∧ m mod V3.CHECKPOINT_INTERVAL = 0)
    ∧ w_ops w' = w_ops w ++ saves points
    ∧ (∀ m, m ∈ points →
         files (w_fs w') !! V3.checkpoint_path m
         = Some (joined (json_chunks E (VList (take m out)))))
    ∧ (∀ m, m ∈ points →
         m ≤ length ds - length ds mod V3.CHECKPOINT_INTERVAL)
    ∧ (∀ k, k ≤ length ds →
         ∃ wk,
           V3.translation_loop E (take k ds) 0 [] start
           = (Ret (take k out), wk)
           ∧ V3.translation_loop E ds 0 [] start
             = V3.translation_loop E (drop k ds) k (take k out) wk
           ∧ w_ops wk = w_ops w ++ saves (checkpoint_points 0 k)
           ∧ (∀ m, m ∈ checkpoint_points 0 k →
                files (w_fs wk) !! V3.checkpoint_path m
                = Some (joined (json_chunks E (VList (take m out)))))
           ∧ (∀ m, k < m →
                files (w_fs wk) !! V3.checkpoint_path m
                = files (w_fs w) !! V3.checkpoint_path m)).
Proof.
  intros Hd Hp Hwf Hdisk.
  destruct (translation_loop_spec E ds 0 []
              (add_events (run_preamble file_path) w) eq_refl Hwf
              (fun m _ => Hdisk m))
    as (out & w2 & Hloop & Hrel & Hops & Hfs).
  cbn [app] in Hloop, Hops, Hfs.
  destruct (run_after_loop E file_path ds w out w2 Hd Hp Hloop)
    as (Hops' & Hfs' & Hpush).
  exists out. cbn zeta.
  split; [exact Hrel|]. split; [exact Hpush|].
  split; [intros m; rewrite checkpoint_points_bounds; lia|].
  split; [by rewrite Hops', Hops|].
  split; [|split].
  - intros m Hm. rewrite Hfs', Hfs. cbn [add_events w_fs].
    apply (saves_files E (fun m => take m out));
      [apply checkpoint_points_NoDup | exact Hm].
  - intros m [Hm Hmod]%checkpoint_points_bounds.
    unfold V3.CHECKPOINT_INTERVAL in *.
    pose proof (Nat.div_mod_eq (length ds) 100).
    pose proof (Nat.div_mod_eq m 100).
    pose proof (Nat.mod_upper_bound (length ds) 100 ltac:(lia)).
    lia.
  - intros k Hk.
    assert (Hwfk : forallb wf_record (take k ds) = true
                   ∧ forallb wf_record (drop k ds) = true).
    { rewrite <- (take_drop k ds), forallb_app in Hwf.
      by apply andb_prop in Hwf. }
    destruct Hwfk as [Hwfk Hwfd].
    destruct (translation_loop_spec E (take k ds) 0 []
                (add_events (run_preamble file_path) w) eq_refl Hwfk
                (fun m _ => Hdisk m))
      as (outk & wk & Hloopk & Hrelk & Hopsk & Hfsk).
    cbn [app] in Hloopk, Hopsk, Hfsk.
    assert (Hlen : length outk = k).
    { apply Forall2_length in Hrelk. rewrite <- Hrelk, length_take. lia. }
    assert (Hgo : V3.translation_loop E ds 0 []
                    (add_events (run_preamble file_path) w)
                  = V3.translation_loop E (drop k ds) k outk wk).
    { rewrite <- (take_drop k ds) at 1. rewrite translation_loop_app.
      rewrite (bind_run _ _ _ _ _ Hloopk). rewrite length_take.
      by replace (0 + k `min` length ds) with k by lia. }
    destruct (translation_loop_spec E (drop k ds) k outk wk Hlen Hwfd
                (fun m _ => Hdisk m)) as (out2 & w3 & Hloop2 & _).
    assert (Hout : take k out = outk).
    { rewrite Hgo, Hloop2 in Hloop. injection Hloop as <- _.
      rewrite take_app_length'; done. }
    rewrite length_take in Hopsk, Hfsk.
    replace (k `min` length ds) with k in Hopsk, Hfsk by lia.
    assert (Hsaves :
      flat_map (fun m => V3.save_checkpoint_ops E (take m outk) m)
        (checkpoint_points 0 k)
      = flat_map (fun m => V3.save_checkpoint_ops E (take m out) m)
          (checkpoint_points 0 k)).
    { apply flat_map_ext_elem.
      intros m [Hm _]%checkpoint_points_bounds.
      rewrite <- Hout, take_take. by replace (m `min` k) with m by lia. }
    rewrite Hsaves in Hopsk, Hfsk. cbn [add_events w_ops w_fs] in Hopsk, Hfsk.
    exists wk. rewrite Hout.
    split; [exact Hloopk|]. split; [exact Hgo|]. split; [exact Hopsk|].
    split.
    + intros m Hm. rewrite Hfsk.
      apply (saves_files E (fun m => take m out));
        [apply checkpoint_points_NoDup | exact Hm].
    + intros m Hm. rewrite Hfsk.
      apply (saves_other E (fun m => take m out)).
      intros [Hin _]%checkpoint_points_bounds. lia.
Qed.

Lemma C10_witness :
  ∃ out,
    length out = 101
    ∧ files (w_fs (snd (V3.translate_and_push_dataset env101 w0)))
        !! V3.checkpoint_path 100
      = Some (joined (json_chunks env101 (VList (take 100 out))))
    ∧ w_ops (snd (V3.translate_and_push_dataset env101 w0))
      = V3.save_checkpoint_ops env101 (take 100 out) 100
    ∧ ∃ w99,
        V3.translation_loop env101 (take 99 (demo_dataset 101)) 0 []
          (add_events (run_preamble "/cache/with_human_verification.json") w0)
        = (Ret (take 99 out), w99)
        ∧ w_ops w99 = [].
Proof.
  destruct (C10_checkpoint_cadence env101
              "/cache/with_human_verification.json" (demo_dataset 101) w0)
    as (out & Hrel & _ & Hpts & Hops & Hfiles & _ & Hwhen).
  - reflexivity.
  - vm_compute. reflexivity.
  - vm_compute. reflexivity.
  - intros num. reflexivity.
  - exists out. split; [|split; [|split]].
    + apply Forall2_length in Hrel. rewrite <- Hrel. reflexivity.
    + apply Hfiles. apply Hpts. vm_compute. lia.
    + rewrite Hops. vm_compute checkpoint_points. cbn [flat_map w_ops w0 app].
      by rewrite app_nil_r.
    + destruct (Hwhen 99) as (w99 & Hrun & _ & Hops99 & _).
      { vm_compute. lia. }
      exists w99. split; [exact Hrun|]. rewrite Hops99.
      vm_compute checkpoint_points. reflexivity.
Defined.





(** *** The rows of a [Dataset] *)

Lemma mapM_row_of columns rows :
  forallb is_dict rows = true →
  run_pure (mapM (fun r => of_result (row_of columns r)) rows)
  = Ret (rebuilt columns <$> rows).
Proof.
  unfold run_pure. induction rows as [|r rows IH]; [done|].
  cbn [forallb]. intros [Hr Hall]%andb_prop.
  destruct r as [| | | | | |d]; try discriminate.
  cbn [mapM row_of]. rewrite bind_of_ret.
  specialize (IH Hall). unfold bind.
  destruct (mapM (fun r => of_result (row_of columns r)) rows tt)
    as [[out|e] u]; cbn in IH; [|discriminate].
  injection IH as ->. done.
Qed.

(** On records that are dicts [Dataset.from_list] hands to Arrow every
    record rebuilt on the keys of the first. *)
Lemma from_list_conformed E mapping :
  forallb is_dict mapping = true →
  from_list E mapping = arrow_table E (conformed mapping).
Proof.
  destruct mapping as [|first rest]; [done|]. intros Hall.
  pose proof Hall as Hall'. cbn [forallb] in Hall'.
  apply andb_prop in Hall' as [Hfirst _].
  destruct first as [| | | | | |d]; try discriminate.
  unfold from_list, conformed. cbn [iter_value keys_of].
  destruct d as [|[k v] d]; [done|]. cbn [fmap list_fmap fst].
  by rewrite (mapM_row_of _ _ Hall).
Qed.








(** *** A failing checkpoint write *)



(** ** Nothing reads the disk *)

Lemma fs_blind_ret {A} (a : A) : fs_blind (ret a).
Proof. by intros w1 w2 Hts Hops. Qed.

Lemma fs_blind_raise {A} (e : exn) : fs_blind (raise (A:=A) e).
Proof. by intros w1 w2 Hts Hops. Qed.

Lemma fs_blind_lift {A} (c : T A) : fs_blind (lift c).
Proof.
  intros w1 w2 Hts Hops. unfold lift. rewrite Hts.
  by destruct (c (w_ts w2)).
Qed.

Lemma fs_blind_bind {A B} (c : M A) (k : A → M B) :
  fs_blind c → (∀ a, fs_blind (k a)) → fs_blind (bind c k).
Proof.
  intros Hc Hk w1 w2 Hts Hops. unfold bind.
  destruct (Hc w1 w2 Hts Hops) as (Hr & Hts' & Hops').
  destruct (c w1) as [[a1|e1] w1'], (c w2) as [[a2|e2] w2'];
    cbn in Hr, Hts', Hops'; try discriminate.
  - injection Hr as ->. by apply Hk.
  - by injection Hr as ->.
Qed.

Lemma fs_blind_try_except {A} (c : M A) (h : exn → M A) :
  fs_blind c → (∀ e, fs_blind (h e)) → fs_blind (try_except c h).
Proof.
  intros Hc Hh w1 w2 Hts Hops. unfold try_except.
  destruct (Hc w1 w2 Hts Hops) as (Hr & Hts' & Hops').
  destruct (c w1) as [[a1|e1] w1'], (c w2) as [[a2|e2] w2'];
    cbn in Hr, Hts', Hops'; try discriminate.
  - by injection Hr as ->.
  - injection Hr as ->. by apply Hh.
Qed.

Lemma fs_blind_do_fs op : fs_blind (do_fs op).
Proof. intros w1 w2 Hts Hops. cbn. by rewrite Hops. Qed.

Lemma fs_blind_exec_ops fail ops : ∀ i, fs_blind (exec_ops fail i ops).
Proof.
  induction ops as [|op ops IH]; intros i; [apply fs_blind_ret|].
  cbn [exec_ops]. destruct fail as [[j msg]|].
  - destruct (i =? j); [apply fs_blind_raise|].
    apply fs_blind_bind; [apply fs_blind_do_fs | intros _; apply IH].
  - apply fs_blind_bind; [apply fs_blind_do_fs | intros _; apply IH].
Qed.

Lemma fs_blind_save_checkpoint E data num :
  fs_blind (V3.save_checkpoint E data num).
Proof.
  apply fs_blind_bind; [apply fs_blind_exec_ops | intros _; apply fs_blind_lift].
Qed.

Lemma fs_blind_hub_call r : fs_blind (V3.hub_call r).
Proof. destruct r; [apply fs_blind_raise | apply fs_blind_ret]. Qed.

Lemma fs_blind_translation_loop E items : ∀ idx acc,
  fs_blind (V3.translation_loop E items idx acc).
Proof.
  induction items as [|item items IH]; intros idx acc; [apply fs_blind_ret|].
  cbn [V3.translation_loop].
  apply fs_blind_bind; [apply fs_blind_lift|]. intros t.
  apply fs_blind_bind; [|intros _; apply IH].
  destruct ((idx + 1) mod V3.CHECKPOINT_INTERVAL =? 0); [|apply fs_blind_ret].
  apply fs_blind_bind;
    [apply fs_blind_lift | intros _; apply fs_blind_save_checkpoint].
Qed.

Lemma fs_blind_translate_and_push_dataset E :
  fs_blind (V3.translate_and_push_dataset E).
Proof.
  apply fs_blind_try_except.
  - repeat first
      [ apply fs_blind_lift
      | apply fs_blind_hub_call
      | apply fs_blind_translation_loop
      | apply fs_blind_bind; [|intros ?] ].
  - intros e. apply fs_blind_bind; [apply fs_blind_lift|].
    intros _. apply fs_blind_raise.
Qed.

Lemma fs_blind_main E : fs_blind (V3.main E).
Proof.
  apply fs_blind_try_except.
  - apply fs_blind_bind; [|intros _; apply fs_blind_translate_and_push_dataset].
    apply fs_blind_try_except.
    + apply fs_blind_bind; [apply fs_blind_hub_call|].
      intros _. apply fs_blind_lift.
    + intros e. apply fs_blind_bind; [apply fs_blind_lift|].
      intros _. apply fs_blind_raise.
  - intros e. apply fs_blind_bind; [apply fs_blind_lift|].
    intros _. apply fs_blind_raise.
Qed.

(** C1, as amended.  translate_to_bn_v3.py has no load operation: a run
    starts its loop at index 0 with an empty list whatever is on disk.
    Its result, its program state (backend calls, log, collection handed
    to the hub) and the file-system operations it issues are those of a run
    that finds any other disk content; so a run restarted after an
    interruption produces the collection of an uninterrupted run, by
    translating every record again. *)
Theorem C1_run_ignores_checkpoints (E : env) (w : world) (f : filesys) :
  let w_other := {| w_ts := w_ts w; w_fs := f; w_ops := w_ops w |} in
  fst (V3.main E w_other) = fst (V3.main E w)
  ∧ w_ts (snd (V3.main E w_other)) = w_ts (snd (V3.main E w))
  ∧ w_ops (snd (V3.main E w_other)) = w_ops (snd (V3.main E w))
  ∧ pushed (trace (w_ts (snd (V3.main E w_other))))
    = pushed (trace (w_ts (snd (V3.main E w)))).
Proof.
  cbn zeta.
  destruct (fs_blind_main E {| w_ts := w_ts w; w_fs := f; w_ops := w_ops w |}
              w eq_refl eq_refl) as (Hr & Hts & Hops).
  split; [exact Hr|]. split; [exact Hts|]. split; [exact Hops|].
  by rewrite Hts.
Qed.

(** C1 as stated fails: the first run over 101 records leaves
    checkpoint 100 on disk, yet the restarted run sends record 0 to the
    backend first and makes the 909 calls of a full run, where a resumed
    run would start with record 100 and make 9. *)
Lemma C1_counterexample :
  is_Some (files disk_after_first_run !! V3.checkpoint_path 100)
  ∧ head (called_strings (trace (w_ts (snd (V3.main env101 w_restart)))))
    = Some "question 0"
  ∧ length (called_texts (trace (w_ts (snd (V3.main env101 w_restart)))))
    = 909
  ∧ length (called_texts (trace (w_ts (snd (V3.main env101 w0))))) = 909.
Proof.
  split; [|split; [|split]].
  - apply (bool_decide_unpack _). vm_compute. exact I.
  - vm_compute. reflexivity.
  - vm_compute. reflexivity.
  - vm_compute. reflexivity.
Qed.

(** ** More on the retrying translators *)

Lemma log_entries_app tr1 tr2 :
  log_entries (tr1 ++ tr2) = log_entries tr1 ++ log_entries tr2.
Proof. apply omap_app. Qed.

Lemma failed_attempts_no_log E text k : ∀ n,
  log_entries (failed_attempts E n text k) = [].
Proof.
  induction k as [|k IH]; intros n; [done|].
  rewrite failed_attempts_S, log_entries_app, IH. unfold late_sleep.
  by destruct (at_text E n text).
Qed.

(** All attempts fail and [text[:50]] itself raises: the handler of the last
    attempt never reaches its log calls. *)
Lemma translate_attempts_exhausted_raise E text e0 len : ∀ a s,
  a + len = V3.MAX_RETRIES → 0 < len →
  slice_to 50 text = Raise e0 →
  fails_first E (ncalls s) text len = true →
  V3.translate_attempts E text (seq a len) s
  = (Raise e0,
     {| ncalls := ncalls s + len;
        trace := trace s ++ failed_attempts E (ncalls s) text (len - 1)
                 ++ ECall text (svc E (ncalls s + len - 1) text)
                 :: late_sleep E (ncalls s + len - 1) text |}).
Proof.
  induction len as [|len IH]; intros a s Ha Hlen Hh Hf; [lia|].
  apply fails_first_S in Hf as [Hf1 Hf2].
  destruct (svc E (ncalls s) text) as [?|e] eqn:Hsvc; [discriminate|].
  cbn [seq].
  destruct len as [|len].
  - replace (ncalls s + 1 - 1) with (ncalls s) by lia.
    rewrite (translate_attempts_last _ _ _ _ _ e Hsvc) by lia.
    unfold bind, of_result. rewrite Hh, Hsvc. cbn.
    do 2 f_equal. lia.
  - rewrite (translate_attempts_retry _ _ _ _ _ e Hsvc) by lia.
    rewrite (IH (S a)); cbn [ncalls trace]; [|lia|lia|exact Hh|exact Hf2].
    replace (S len - 1) with len by lia.
    replace (S (S len) - 1) with (S len) by lia.
    rewrite failed_attempts_S, Hsvc. rewrite <- !app_assoc. cbn [app].
    replace (S (ncalls s) + S len - 1) with (ncalls s + S (S len) - 1) by lia.
    do 2 f_equal. lia.
Qed.

Lemma unsliceable v :
  truthy v = true → is_str v = false → is_list v = false →
  ∃ msg, slice_to 50 v = Raise (TypeError msg).
Proof. destruct v; try done; intros _ _ _; by eexists. Qed.

(** X1.  The fallback of [translate_text] (translate_to_bn_v3.py) has a
    hole: for a truthy input that is neither a string nor a list (True, a
    non-zero number, a non-empty dict), when every attempt fails the
    [text[:50]] of the handler raises [TypeError]; the call raises instead
    of returning its input, after [MAX_RETRIES] backend calls, and no log
    entry is written. *)
Theorem V3_translate_text_unsliceable_raises (E : env) (text : value)
    (s : tstate) :
  truthy text = true → is_str text = false → is_list text = false →
  fails_first E (ncalls s) text V3.MAX_RETRIES = true →
  ∃ msg s',
    V3.translate_text E text s = (Raise (TypeError msg), s')
    ∧ slice_to 50 text = Raise (TypeError msg)
    ∧ ncalls s' = ncalls s + V3.MAX_RETRIES
    ∧ log_entries (trace s') = log_entries (trace s).
Proof.
  intros Ht Hs Hl Hf. destruct (unsliceable text Ht Hs Hl) as [msg Hmsg].
  exists msg. eexists. unfold V3.translate_text. rewrite Ht. cbn [negb].
  rewrite (translate_attempts_exhausted_raise E text (TypeError msg)
             V3.MAX_RETRIES 0 s eq_refl ltac:(unfold V3.MAX_RETRIES; lia)
             Hmsg Hf).
  split; [reflexivity|]. split; [exact Hmsg|]. split; [reflexivity|].
  cbn [trace]. rewrite !log_entries_app, failed_attempts_no_log.
  unfold late_sleep. destruct (at_text E _ text); cbn; by rewrite app_nil_r.
Qed.

Lemma V3_translate_text_unsliceable_raises_witness :
  fst (V3.translate_text (mk_env down no_disk_failure []) (VInt 5) s0)
  = Raise (TypeError "'int' object is not subscriptable").
Proof.
  destruct (V3_translate_text_unsliceable_raises
              (mk_env down no_disk_failure []) (VInt 5) s0
              eq_refl eq_refl eq_refl eq_refl)
    as (msg & s' & H & Hmsg & _).
  rewrite H. cbn in Hmsg. injection Hmsg as <-. reflexivity.
Defined.

Lemma slept_app tr1 tr2 : (slept (tr1 ++ tr2) == slept tr1 + slept tr2)%Q.
Proof.
  induction tr1 as [|e tr1 IH]; cbn.
  - by rewrite Qplus_0_l.
  - destruct e; try exact IH. cbn in IH. rewrite IH. by rewrite Qplus_assoc.
Qed.

(** X2.  Whatever the input and whatever the backend answers, and whether
    the call returns or raises, [translate_text] (translate_to_bn_v3.py)
    makes at most [MAX_RETRIES] backend calls -- at least one for a truthy
    input, none for a falsy one -- sleeps at most 5.5 seconds in all (two
    retry delays, and one rate-limit delay for every attempt in which
    [translate] returned), and leaves only calls, sleeps and log entries in
    the trace. *)
Theorem V3_translate_text_cost (E : env) (text : value) (s : tstate) :
  ∃ evs,
    trace (snd (V3.translate_text E text s)) = trace s ++ evs
    ∧ ncalls (snd (V3.translate_text E text s))
      = ncalls s + length (called_texts evs)
    ∧ length (called_texts evs) ≤ V3.MAX_RETRIES
    ∧ (truthy text = true → 1 ≤ length (called_texts evs))
    ∧ (truthy text = false → evs = [])
    ∧ (slept evs <= 11 # 2)%Q
    ∧ forallb is_translation_event evs = true.
Proof.
  unfold V3.translate_text.
  destruct (truthy text) eqn:Ht; cbn [negb].
  2: { exists []. cbn. rewrite app_nil_r, Nat.add_0_r.
       repeat split; try done. unfold V3.MAX_RETRIES. lia. }
  unfold V3.MAX_RETRIES. cbn [seq V3.translate_attempts].
  unfold bind, call_translate, sleep, log, emit, of_result, ret.
  unfold V3.MAX_RETRIES. cbn [ncalls trace Nat.eqb Nat.sub].
  destruct (svc E (ncalls s) text);
    [|destruct (at_text E (ncalls s) text);
      cbn [Nat.eqb Nat.sub ncalls trace];
      (destruct (svc E (S (ncalls s)) text);
       [|destruct (at_text E (S (ncalls s)) text);
         cbn [Nat.eqb Nat.sub ncalls trace];
         (destruct (svc E (S (S (ncalls s))) text);
          [|destruct (at_text E (S (S (ncalls s))) text);
            cbn [Nat.eqb Nat.sub ncalls trace];
            destruct (slice_to 50 text)])])];
    cbn [snd ncalls trace]; rewrite <- ?app_assoc; cbn [app];
    (eexists; split; [reflexivity|]);
    (split; [cbn; lia|]); (split; [cbn; lia|]);
    (split; [intros _; cbn; lia|]); (split; [discriminate|]);
    (split; [cbn; unfold Qle; cbn; lia | reflexivity]).
Qed.

(** The bound is reached: three attempts that each fail on reading
    [.text]. *)
Lemma translate_text_sleep_bound_reached :
  (slept (trace (snd (V3.translate_text
                        (mk_env down no_disk_failure [])
                        (VList [VStr "a"]) s0))) == 11 # 2)%Q.
Proof. vm_compute. reflexivity. Qed.

Lemma non_log_app tr1 tr2 : non_log (tr1 ++ tr2) = non_log tr1 ++ non_log tr2.
Proof. apply List.filter_app. Qed.

Lemma translate_attempts_v2_v3 E text atts : ∀ s2 s3,
  ncalls s2 = ncalls s3 →
  non_log (trace s2) = non_log (trace s3) →
  fst (V2.translate_attempts E text atts s2)
  = fst (V3.translate_attempts E text atts s3)
  ∧ ncalls (snd (V2.translate_attempts E text atts s2))
    = ncalls (snd (V3.translate_attempts E text atts s3))
  ∧ non_log (trace (snd (V2.translate_attempts E text atts s2)))
    = non_log (trace (snd (V3.translate_attempts E text atts s3))).
Proof.
  induction atts as [|a atts IH]; intros s2 s3 Hn Htr; [done|].
  cbn [V2.translate_attempts V3.translate_attempts].
  unfold bind, call_translate, sleep, log, emit, of_result, ret.
  cbn beta zeta. rewrite Hn.
  destruct (svc E (ncalls s3) text) as [t|e]; cbn [fst snd ncalls trace].
  - rewrite !non_log_app, Htr. done.
  - change V2.MAX_RETRIES with V3.MAX_RETRIES.
    destruct (at_text E (ncalls s3) text); cbn [fst snd ncalls trace];
      (destruct (a =? V3.MAX_RETRIES - 1);
       [destruct (slice_to 50 text); cbn [fst snd ncalls trace];
        rewrite !non_log_app, Htr; cbn [non_log List.filter];
        by rewrite ?app_nil_r
       |apply IH; cbn [ncalls trace]; [done|];
        rewrite !non_log_app, Htr; done]).
Qed.

(** X3.  [translate_text] of translate_to_bn_v2.py and of
    translate_to_bn_v3.py agree on every input: same result (value or
    exception), same backend calls, same sleeps; they differ in log entries
    only. *)
Theorem translate_text_v2_agrees_with_v3 (E : env) (text : value)
    (s : tstate) :
  fst (V2.translate_text E text s) = fst (V3.translate_text E text s)
  ∧ ncalls (snd (V2.translate_text E text s))
    = ncalls (snd (V3.translate_text E text s))
  ∧ non_log (trace (snd (V2.translate_text E text s)))
    = non_log (trace (snd (V3.translate_text E text s))).
Proof.
  unfold V2.translate_text, V3.translate_text.
  destruct (truthy text); cbn [negb]; [|done].
  by apply translate_attempts_v2_v3.
Qed.

(** ** What a computation leaves in the trace *)

Lemma emits_ret {A} P (a : A) : emits_only P (ret a).
Proof. intros s. exists []. cbn. by rewrite app_nil_r. Qed.

Lemma emits_raise {A} P (e : exn) : emits_only P (raise (A:=A) e).
Proof. intros s. exists []. cbn. by rewrite app_nil_r. Qed.

Lemma emits_of_result {A} P (r : result A) : emits_only P (of_result r).
Proof. intros s. exists []. cbn. by rewrite app_nil_r. Qed.

Lemma emits_emit P e : P e = true → emits_only P (emit e).
Proof. intros He s. exists [e]. cbn. by rewrite He. Qed.

Lemma emits_call P E text :
  (∀ o, P (ECall text o) = true) → emits_only P (call_service E text).
Proof. intros He s. eexists [_]. cbn. split; [reflexivity|]. by rewrite He. Qed.

Lemma emits_bind {A B} P (c : T A) (k : A → T B) :
  emits_only P c → (∀ a, emits_only P (k a)) → emits_only P (bind c k).
Proof.
  intros Hc Hk s. unfold bind. destruct (Hc s) as (evs1 & H1 & P1).
  destruct (c s) as [[a|e] s1]; cbn [snd] in H1.
  - destruct (Hk a s1) as (evs2 & H2 & P2). exists (evs1 ++ evs2).
    rewrite H2, H1, <- app_assoc, forallb_app, P1, P2. done.
  - by exists evs1.
Qed.

Lemma emits_try_except {A} P (c : T A) (h : exn → T A) :
  emits_only P c → (∀ e, emits_only P (h e)) → emits_only P (try_except c h).
Proof.
  intros Hc Hh s. unfold try_except. destruct (Hc s) as (evs1 & H1 & P1).
  destruct (c s) as [[a|e] s1]; cbn [snd] in H1.
  - by exists evs1.
  - destruct (Hh e s1) as (evs2 & H2 & P2). exists (evs1 ++ evs2).
    rewrite H2, H1, <- app_assoc, forallb_app, P1, P2. done.
Qed.

Lemma emits_mapM {A B} P (f : A → T B) l :
  (∀ a, emits_only P (f a)) → emits_only P (mapM f l).
Proof.
  intros Hf. induction l as [|x l IH]; [apply emits_ret|].
  cbn [mapM]. apply emits_bind; [apply Hf|]. intros y.
  apply emits_bind; [apply IH|]. intros ys. apply emits_ret.
Qed.

Lemma emits_call_translate P E text :
  (∀ o, P (ECall text o) = true) → emits_only P (call_translate E text).
Proof. intros He s. eexists [_]. cbn. split; [reflexivity|]. by rewrite He. Qed.

Ltac emits :=
  repeat first
    [ apply emits_ret | apply emits_raise | apply emits_of_result
    | apply emits_emit; reflexivity
    | apply emits_call; intros ?; reflexivity
    | apply emits_call_translate; intros ?; reflexivity
    | apply emits_bind; [|intros ?]
    | apply emits_try_except; [|intros ?] ].

Lemma V3_translate_attempts_emits E text atts :
  emits_only is_translation_event (V3.translate_attempts E text atts).
Proof.
  induction atts as [|a atts IH]; [apply emits_ret|].
  cbn [V3.translate_attempts]. apply emits_bind; [emits|].
  intros [[t|e] late].
  - unfold sleep. emits.
  - apply emits_bind; [destruct late; unfold sleep; emits|]. intros _.
    destruct (a =? V3.MAX_RETRIES - 1); unfold sleep, log; emits. exact IH.
Qed.

Lemma V3_translate_text_emits E text :
  emits_only is_translation_event (V3.translate_text E text).
Proof.
  unfold V3.translate_text. destruct (negb (truthy text)); [emits|].
  apply V3_translate_attempts_emits.
Qed.

Lemma V3_translate_decomp_item_emits E item :
  emits_only is_translation_event (V3.translate_decomp_item E item).
Proof.
  unfold V3.translate_decomp_item.
  repeat first [ apply V3_translate_text_emits | apply emits_ret
               | apply emits_of_result | apply emits_bind; [|intros ?] ].
Qed.

Lemma V3_translate_decomp_loop_emits E items : ∀ acc,
  emits_only is_translation_event (V3.translate_decomp_loop E items acc).
Proof.
  induction items as [|item items IH]; intros acc; [apply emits_ret|].
  cbn [V3.translate_decomp_loop].
  apply emits_bind; [apply V3_translate_decomp_item_emits | intros ?; apply IH].
Qed.

Lemma V3_translate_question_decomposition_emits E v :
  emits_only is_translation_event (V3.translate_question_decomposition E v).
Proof.
  unfold V3.translate_question_decomposition.
  destruct (negb (truthy v)); [emits|].
  apply emits_bind; [emits|]. intros items.
  apply emits_bind; [apply V3_translate_decomp_loop_emits | intros ?; emits].
Qed.

Lemma V3_translate_record_emits E item :
  emits_only is_translation_event (V3.translate_record E item).
Proof.
  unfold V3.translate_record.
  repeat first [ apply V3_translate_text_emits
               | apply V3_translate_question_decomposition_emits
               | apply emits_ret | apply emits_of_result
               | apply emits_bind; [|intros ?] ].
Qed.

Lemma V3_download_dataset_emits E :
  emits_only is_translation_event (V3.download_dataset E).
Proof.
  unfold V3.download_dataset. apply emits_try_except.
  - destruct (hub_download E); unfold log; emits.
  - intros e. unfold log. emits.
Qed.

(** The same for computations on the whole world. *)
Lemma run_emits_lift {A} P (c : T A) : emits_only P c → run_emits_only P (lift c).
Proof.
  intros Hc w. unfold lift. destruct (Hc (w_ts w)) as (evs & H & HP).
  destruct (c (w_ts w)) as [r s']. by exists evs.
Qed.

Lemma run_emits_ret {A} P (a : A) : run_emits_only P (ret a).
Proof. intros w. exists []. cbn. by rewrite app_nil_r. Qed.

Lemma run_emits_raise {A} P (e : exn) : run_emits_only P (raise (A:=A) e).
Proof. intros w. exists []. cbn. by rewrite app_nil_r. Qed.

Lemma run_emits_bind {A B} P (c : M A) (k : A → M B) :
  run_emits_only P c → (∀ a, run_emits_only P (k a)) →
  run_emits_only P (bind c k).
Proof.
  intros Hc Hk w. unfold bind. destruct (Hc w) as (evs1 & H1 & P1).
  destruct (c w) as [[a|e] w1]; cbn [snd] in H1.
  - destruct (Hk a w1) as (evs2 & H2 & P2). exists (evs1 ++ evs2).
    rewrite H2, H1, <- app_assoc, forallb_app, P1, P2. done.
  - by exists evs1.
Qed.

Lemma run_emits_do_fs P op : run_emits_only P (do_fs op).
Proof. intros w. exists []. cbn. by rewrite app_nil_r. Qed.

Lemma run_emits_exec_ops P fail ops : ∀ i, run_emits_only P (exec_ops fail i ops).
Proof.
  induction ops as [|op ops IH]; intros i; [apply run_emits_ret|].
  cbn [exec_ops]. destruct fail as [[j msg]|].
  - destruct (i =? j); [apply run_emits_raise|].
    apply run_emits_bind; [apply run_emits_do_fs | intros _; apply IH].
  - apply run_emits_bind; [apply run_emits_do_fs | intros _; apply IH].
Qed.

Lemma V3_save_checkpoint_emits E data num :
  run_emits_only is_translation_event (V3.save_checkpoint E data num).
Proof.
  apply run_emits_bind; [apply run_emits_exec_ops|]. intros _.
  apply run_emits_lift. unfold log. emits.
Qed.

Lemma V3_translation_loop_emits E items : ∀ idx acc,
  run_emits_only is_translation_event (V3.translation_loop E items idx acc).
Proof.
  induction items as [|item items IH]; intros idx acc; [apply run_emits_ret|].
  cbn [V3.translation_loop].
  apply run_emits_bind;
    [apply run_emits_lift, V3_translate_record_emits|]. intros t.
  apply run_emits_bind; [|intros _; apply IH].
  destruct ((idx + 1) mod V3.CHECKPOINT_INTERVAL =? 0);
    [|apply run_emits_ret].
  apply run_emits_bind; [|intros _; apply V3_save_checkpoint_emits].
  apply run_emits_lift. unfold log. emits.
Qed.

Lemma translation_events_quiet evs :
  forallb is_translation_event evs = true →
  pushed evs = [] ∧ uploads evs = [] ∧ printed evs = [].
Proof.
  induction evs as [|e evs IH]; [done|]. cbn [forallb].
  intros [He Hevs]%andb_prop. destruct (IH Hevs) as (H1 & H2 & H3).
  destruct e; try discriminate; done.
Qed.

(** ** When a run of translate_to_bn_v3.py talks to the hub *)

Lemma pushed_app tr1 tr2 : pushed (tr1 ++ tr2) = pushed tr1 ++ pushed tr2.
Proof. apply omap_app. Qed.

Lemma uploads_app tr1 tr2 : uploads (tr1 ++ tr2) = uploads tr1 ++ uploads tr2.
Proof. apply omap_app. Qed.

Lemma download_fails E m s :
  hub_download E = Fail m →
  V3.download_dataset E s
  = (Raise (RemoteError m),
     {| ncalls := ncalls s;
        trace := trace s ++ [ELog ERROR ("Error downloading dataset: " +:+ m)] |}).
Proof.
  intros Hd. unfold V3.download_dataset, try_except. by rewrite Hd.
Qed.

Lemma download_preprocess_fails E file_path e s :
  hub_download E = Ok file_path → dataset_rows E = Raise e →
  V3.download_dataset E s
  = (Raise e,
     {| ncalls := ncalls s;
        trace := trace s
          ++ [ELog INFO ("Dataset downloaded to: " +:+ file_path);
              ELog ERROR ("Error downloading dataset: " +:+ exn_str e)] |}).
Proof.
  intros Hd Hp. unfold V3.download_dataset, try_except. rewrite Hd.
  unfold dataset_rows in Hp. unfold bind, log, emit, of_result, raise.
  destruct (V3.preprocess E) as [p|e0]; [rewrite Hp|injection Hp as ->];
    cbn; by rewrite <- app_assoc.
Qed.

Lemma run_download_fails E m w :
  hub_download E = Fail m →
  V3.translate_and_push_dataset E w
  = (Raise (RemoteError m),
     add_events [ELog INFO "Starting dataset translation process...";
                 ELog ERROR ("Error downloading dataset: " +:+ m);
                 ELog ERROR ("An error occurred: " +:+ m)] w).
Proof.
  intros Hd. unfold V3.translate_and_push_dataset, try_except at 1.
  unfold bind at 1. unfold lift at 1, log at 1, emit at 1.
  cbn [w_ts w_fs w_ops ncalls trace].
  erewrite bind_raise; [|apply lift_run, download_fails, Hd].
  unfold bind, lift, log, emit, raise, add_events.
  cbn [w_ts w_fs w_ops ncalls trace exn_str]. by rewrite <- !app_assoc.
Qed.

Lemma run_preprocess_fails E file_path e w :
  hub_download E = Ok file_path → dataset_rows E = Raise e →
  V3.translate_and_push_dataset E w
  = (Raise e,
     add_events [ELog INFO "Starting dataset translation process...";
                 ELog INFO ("Dataset downloaded to: " +:+ file_path);
                 ELog ERROR ("Error downloading dataset: " +:+ exn_str e);
                 ELog ERROR ("An error occurred: " +:+ exn_str e)] w).
Proof.
  intros Hd Hp. unfold V3.translate_and_push_dataset, try_except at 1.
  unfold bind at 1. unfold lift at 1, log at 1, emit at 1.
  cbn [w_ts w_fs w_ops ncalls trace].
  erewrite bind_raise;
    [|apply lift_run, (download_preprocess_fails _ _ _ _ Hd Hp)].
  unfold bind, lift, log, emit, raise, add_events.
  cbn [w_ts w_fs w_ops ncalls trace]. by rewrite <- !app_assoc.
Qed.

Lemma run_loop_raises E file_path ds w e w2 :
  hub_download E = Ok file_path → dataset_rows E = Ret ds →
  V3.translation_loop E ds 0 [] (add_events (run_preamble file_path) w)
  = (Raise e, w2) →
  V3.translate_and_push_dataset E w
  = (Raise e, add_events [ELog ERROR ("An error occurred: " +:+ exn_str e)] w2).
Proof.
  intros Hd Hp Hloop. rewrite (run_reaches_loop E file_path ds w Hd Hp).
  unfold try_except. rewrite (bind_raise _ _ _ _ _ Hloop). reflexivity.
Qed.

Lemma run_loop_returns E file_path ds w out w2 :
  hub_download E = Ok file_path → dataset_rows E = Ret ds →
  V3.translation_loop E ds 0 [] (add_events (run_preamble file_path) w)
  = (Ret out, w2) →
  V3.translate_and_push_dataset E w
  = match from_list E out with
    | Raise e =>
        (Raise e,
         add_events [ELog INFO "Creating Hugging Face dataset...";
                     ELog ERROR ("An error occurred: " +:+ exn_str e)] w2)
    | Ret bn =>
        match push_to_hub E bn with
        | Some m =>
            (Raise (RemoteError m),
             add_events [ELog INFO "Creating Hugging Face dataset...";
                         ELog INFO "Pushing to Hugging Face Hub...";
                         EPush "bengali-morehopqa" bn;
                         ELog ERROR ("An error occurred: " +:+ m)] w2)
        | None =>
            match upload_file E "README.md" with
            | Some m =>
                (Raise (RemoteError m),
                 add_events [ELog INFO "Creating Hugging Face dataset...";
                             ELog INFO "Pushing to Hugging Face Hub...";
                             EPush "bengali-morehopqa" bn;
                             EUpload "README.md" V3.create_dataset_description;
                             ELog ERROR ("An error occurred: " +:+ m)] w2)
            | None =>
                (Ret tt,
                 add_events [ELog INFO "Creating Hugging Face dataset...";
                             ELog INFO "Pushing to Hugging Face Hub...";
                             EPush "bengali-morehopqa" bn;
                             EUpload "README.md" V3.create_dataset_description;
                             ELog INFO
                               "Dataset successfully pushed to Hugging Face!"]
                   w2)
            end
        end
    end.
Proof.
  intros Hd Hp Hloop. rewrite (run_reaches_loop E file_path ds w Hd Hp).
  unfold try_except. rewrite (bind_run _ _ _ _ _ Hloop).
  unfold bind, lift, log, emit, V3.hub_call, raise, ret, add_events, of_result.
  cbn [w_ts w_fs w_ops ncalls trace].
  destruct (from_list E out) as [bn|e];
    [destruct (push_to_hub E bn) as [m|];
     [|destruct (upload_file E "README.md") as [m|]]|];
    cbn [w_ts w_fs w_ops ncalls trace exn_str]; by rewrite <- !app_assoc.
Qed.

Lemma main_login_fails E m w :
  hub_login E = Some m →
  V3.main E w
  = (Raise (RemoteError m),
     add_events [ELog ERROR ("Authentication error: " +:+ m);
                 ELog ERROR ("Process failed: " +:+ m)] w).
Proof.
  intros Hl. unfold V3.main, V3.setup_authentication, try_except, bind.
  rewrite Hl. unfold V3.hub_call, raise, lift, log, emit, add_events.
  cbn [w_ts w_fs w_ops ncalls trace exn_str]. by rewrite <- !app_assoc.
Qed.

Lemma main_after_login E w :
  hub_login E = None →
  V3.main E w
  = match V3.translate_and_push_dataset E
            (add_events
               [ELog INFO "Successfully authenticated with Hugging Face"] w)
    with
    | (Ret u, w2) => (Ret u, w2)
    | (Raise e, w2) =>
        (Raise e,
         add_events [ELog ERROR ("Process failed: " +:+ exn_str e)] w2)
    end.
Proof.
  intros Hl. unfold V3.main, try_except at 1. unfold bind at 1.
  unfold V3.setup_authentication, try_except at 1. rewrite Hl.
  cbn [V3.hub_call]. rewrite bind_ret_l.
  unfold lift at 1, log at 1, emit at 1. cbn [w_ts w_fs w_ops ncalls trace].
  change {| w_ts := {| ncalls := ncalls (w_ts w);
                      trace := trace (w_ts w)
                        ++ [ELog INFO
                              "Successfully authenticated with Hugging Face"] |};
            w_fs := w_fs w; w_ops := w_ops w |}
    with (add_events
            [ELog INFO "Successfully authenticated with Hugging Face"] w).
  destruct (V3.translate_and_push_dataset E _) as [[u|e] w2]; reflexivity.
Qed.

Lemma run_hub_discipline E w :
  ∃ evs,
    trace (w_ts (snd (V3.translate_and_push_dataset E w)))
    = trace (w_ts w) ++ evs
    ∧ length (pushed evs) ≤ 1
    ∧ (uploads evs = []
       ∨ (uploads evs = [("README.md", V3.create_dataset_description)]
          ∧ pushed evs ≠ []))
    ∧ (∀ e, fst (V3.translate_and_push_dataset E w) = Raise e →
            is_remote_error e = false → pushed evs = [] ∧ uploads evs = [])
    ∧ (∀ u, fst (V3.translate_and_push_dataset E w) = Ret u →
            ∃ out, pushed evs = [out]
                   ∧ uploads evs
                     = [("README.md", V3.create_dataset_description)]).
Proof.
  destruct (hub_download E) as [file_path|m] eqn:Hd.
  2: { rewrite (run_download_fails E m w Hd). cbn [fst snd add_events w_ts trace].
       eexists. split; [reflexivity|]. cbn.
       split; [lia|]. split; [by left|]. split; [|done].
       intros e [= <-]. done. }
  destruct (dataset_rows E) as [ds|e0] eqn:Hp.
  2: { rewrite (run_preprocess_fails E file_path e0 w Hd Hp).
       cbn [fst snd add_events w_ts trace].
       eexists. split; [reflexivity|]. cbn.
       split; [lia|]. split; [by left|]. split; done. }
  destruct (V3_translation_loop_emits E ds 0 []
              (add_events (run_preamble file_path) w)) as (evsL & HL & PL).
  destruct (translation_events_quiet evsL PL) as (HpL & HuL & _).
  destruct (V3.translation_loop E ds 0 []
              (add_events (run_preamble file_path) w)) as [[out|e] w2] eqn:Hloop;
    cbn [snd] in HL; cbn [add_events w_ts trace] in HL.
  - rewrite (run_loop_returns E file_path ds w out w2 Hd Hp Hloop).
    destruct (from_list E out) as [bn|e];
      [destruct (push_to_hub E bn) as [m|];
       [|destruct (upload_file E "README.md") as [m|]]|];
      cbn [fst snd add_events w_ts trace];
      rewrite HL, <- !app_assoc;
      (eexists; split; [reflexivity|]);
      rewrite !pushed_app, !uploads_app, HpL, HuL; cbn.
    + split; [lia|]. split; [by left|]. split; [|done].
      intros e [= <-]. done.
    + split; [lia|]. split; [by right|]. split; [|done].
      intros e [= <-]. done.
    + split; [lia|]. split; [by right|]. split; [done|].
      intros u _. by exists bn.
    + split; [lia|]. split; [by left|]. split; done.
  - rewrite (run_loop_raises E file_path ds w e w2 Hd Hp Hloop).
    cbn [fst snd add_events w_ts trace]. rewrite HL, <- !app_assoc.
    eexists. split; [reflexivity|].
    rewrite !pushed_app, !uploads_app, HpL, HuL. cbn.
    split; [lia|]. split; [by left|]. split; done.
Qed.

(** X4.  In every run of [main] (translate_to_bn_v3.py) the collection is
    pushed at most once, and the dataset card is uploaded only after a
    push.  When [main] returns, exactly one collection was pushed and the
    card was uploaded once; when it raises anything but a hub error (a
    [KeyError], [TypeError], [AttributeError] or [OSError] from the
    records or the disk), nothing was pushed and nothing uploaded. *)
Theorem V3_main_hub_discipline (E : env) (w : world) :
  ∃ evs,
    trace (w_ts (snd (V3.main E w))) = trace (w_ts w) ++ evs
    ∧ length (pushed evs) ≤ 1
    ∧ (uploads evs = []
       ∨ (uploads evs = [("README.md", V3.create_dataset_description)]
          ∧ pushed evs ≠ []))
    ∧ (∀ e, fst (V3.main E w) = Raise e → is_remote_error e = false →
            pushed evs = [] ∧ uploads evs = [])
    ∧ (∀ u, fst (V3.main E w) = Ret u →
            ∃ out, pushed evs = [out]
                   ∧ uploads evs
                     = [("README.md", V3.create_dataset_description)]).
Proof.
  destruct (hub_login E) as [m|] eqn:Hl.
  - rewrite (main_login_fails E m w Hl). cbn [fst snd add_events w_ts trace].
    eexists. split; [reflexivity|]. cbn.
    split; [lia|]. split; [by left|]. split; [|done].
    intros e [= <-]. done.
  - rewrite (main_after_login E w Hl).
    destruct (run_hub_discipline E
                (add_events
                   [ELog INFO "Successfully authenticated with Hugging Face"] w))
      as (evs & Htr & Hlen & Hup & Hraise & Hret).
    destruct (V3.translate_and_push_dataset E _) as [[u|e] w2];
      cbn [fst snd add_events w_ts trace] in *.
    + exists ([ELog INFO "Successfully authenticated with Hugging Face"] ++ evs).
      rewrite Htr, <- app_assoc. split; [done|].
      rewrite pushed_app, uploads_app. cbn [pushed uploads omap app].
      split; [done|]. split; [done|]. split; [done|].
      intros u' _. by apply (Hret u).
    + exists ([ELog INFO "Successfully authenticated with Hugging Face"]
              ++ evs ++ [ELog ERROR ("Process failed: " +:+ exn_str e)]).
      rewrite Htr, <- !app_assoc. split; [done|].
      rewrite !pushed_app, !uploads_app. cbn [pushed uploads omap app].
      rewrite !app_nil_r.
      split; [done|]. split; [done|]. split; [|done].
      intros e' [= <-] Hr. by apply (Hraise e).
Qed.

(** ** Errors that end a run of translate_to_bn_v3.py *)








(** X5.  When the login fails, [main] (translate_to_bn_v3.py) stops before
    anything else happens: the failure is logged twice at ERROR level (by
    [setup_authentication] and by [main]), the exception leaves [main], and
    neither the backend nor the disk has been touched. *)
Theorem V3_login_failure (E : env) (m : string) (w : world) :
  hub_login E = Some m →
  V3.main E w
  = (Raise (RemoteError m),
     add_events [ELog ERROR ("Authentication error: " +:+ m);
                 ELog ERROR ("Process failed: " +:+ m)] w)
  ∧ exit_status (fst (V3.main E w)) = 1%Z
  ∧ ncalls (w_ts (snd (V3.main E w))) = ncalls (w_ts w)
  ∧ w_fs (snd (V3.main E w)) = w_fs w
  ∧ w_ops (snd (V3.main E w)) = w_ops w.
Proof. intros Hl. rewrite (main_login_fails E m w Hl). done. Qed.

Lemma V3_login_failure_witness :
  fst (V3.main env_login_fails w0) = Raise (RemoteError "401 Unauthorized").
Proof.
  destruct (V3_login_failure env_login_fails "401 Unauthorized" w0 eq_refl)
    as [H _].
  rewrite H. reflexivity.
Defined.

Lemma main_download_fails E m w :
  hub_login E = None → hub_download E = Fail m →
  V3.main E w
  = (Raise (RemoteError m),
     add_events [ELog INFO "Successfully authenticated with Hugging Face";
                 ELog INFO "Starting dataset translation process...";
                 ELog ERROR ("Error downloading dataset: " +:+ m);
                 ELog ERROR ("An error occurred: " +:+ m);
                 ELog ERROR ("Process failed: " +:+ m)] w).
Proof.
  intros Hl Hd. rewrite (main_after_login E w Hl).
  rewrite (run_download_fails E m _ Hd).
  unfold add_events. cbn [w_ts w_fs w_ops ncalls trace exn_str].
  by rewrite <- !app_assoc.
Qed.

(** X6.  When the download of the dataset fails, the same exception is
    logged three times at ERROR level -- by [download_dataset], by
    [translate_and_push_dataset] and by [main] (translate_to_bn_v3.py) --
    and leaves [main]; no record is translated, nothing is written and
    nothing is pushed. *)
Theorem V3_download_failure (E : env) (m : string) (w : world) :
  hub_login E = None → hub_download E = Fail m →
  V3.main E w
  = (Raise (RemoteError m),
     add_events [ELog INFO "Successfully authenticated with Hugging Face";
                 ELog INFO "Starting dataset translation process...";
                 ELog ERROR ("Error downloading dataset: " +:+ m);
                 ELog ERROR ("An error occurred: " +:+ m);
                 ELog ERROR ("Process failed: " +:+ m)] w)
  ∧ exit_status (fst (V3.main E w)) = 1%Z
  ∧ ncalls (w_ts (snd (V3.main E w))) = ncalls (w_ts w)
  ∧ w_fs (snd (V3.main E w)) = w_fs w
  ∧ w_ops (snd (V3.main E w)) = w_ops w.
Proof. intros Hl Hd. rewrite (main_download_fails E m w Hl Hd). done. Qed.

Lemma V3_download_failure_witness :
  fst (V3.main env_download_fails w0) = Raise (RemoteError "404 Not Found")
  ∧ length (log_entries (trace (w_ts (snd (V3.main env_download_fails w0)))))
    = 5.
Proof.
  destruct (V3_download_failure env_download_fails "404 Not Found" w0
              eq_refl eq_refl) as [H _].
  rewrite H. split; reflexivity.
Defined.

(** ** The preprocessing of the downloaded records *)

Lemma unit_state {A} (c : SE unit A) : c tt = (fst (c tt), tt).
Proof. by destruct (c tt) as [r []]. Qed.

Lemma process_entry_spec E entry :
  is_dict entry = true →
  V3.process_entry E entry tt = (Ret (processed_entry E entry), tt).
Proof. destruct entry; try done. Qed.

Lemma mapM_process_entry E entries :
  forallb entry_ok entries = true →
  mapM (V3.process_entry E) entries tt
  = (Ret (processed_entry E <$> entries), tt).
Proof.
  induction entries as [|x entries IH]; [done|]. cbn [forallb].
  intros [Hx Hall]%andb_prop. cbn [mapM].
  rewrite (bind_run _ _ _ _ _ (process_entry_spec E x Hx)).
  rewrite (bind_run _ _ _ _ _ (IH Hall)). done.
Qed.

Lemma process_field_spec E k v :
  (if String.eqb k "question_decomposition" then
     match v with VList entries => forallb entry_ok entries | _ => true end
   else true) = true →
  V3.process_field E k v tt = (Ret (processed_field E (k, v)).2, tt).
Proof.
  unfold V3.process_field, processed_field. cbn [fst snd].
  destruct v as [| | | | |l|]; try done.
  cbn [is_list]. destruct (String.eqb k "question_decomposition"); [|done].
  intros Hall. cbn [iter_value]. rewrite bind_of_ret.
  by rewrite (bind_run _ _ _ _ _ (mapM_process_entry E l Hall)).
Qed.

Lemma process_fields_spec E kvs : ∀ acc,
  NoDup (kvs.*1) → (∀ k, k ∈ kvs.*1 → k ∉ acc.*1) →
  decomp_entries_ok kvs = true →
  V3.process_fields E kvs acc tt
  = (Ret (acc ++ (processed_field E <$> kvs)), tt).
Proof.
  induction kvs as [|[k v] kvs IH]; intros acc Hnd Hfresh Hok.
  - cbn. by rewrite app_nil_r.
  - cbn in Hnd. apply NoDup_cons in Hnd as [Hk Hnd].
    unfold decomp_entries_ok in Hok. cbn [forallb fst snd] in Hok.
    apply andb_prop in Hok as [Hkv Hok].
    cbn [V3.process_fields].
    rewrite (bind_run _ _ _ _ _ (process_field_spec E k v Hkv)).
    rewrite dict_set_fresh by (apply Hfresh; cbn; left).
    rewrite IH; [|done| |done].
    + cbn [fmap list_fmap]. by rewrite <- app_assoc.
    + intros k' Hin. rewrite fmap_app. cbn. intros Hin'.
      apply elem_of_app in Hin' as [Hin'|Hin'].
      * apply (Hfresh k'); [cbn; by right | done].
      * apply list_elem_of_singleton in Hin'. congruence.
Qed.

Lemma process_item_spec E item :
  raw_item_ok item = true →
  V3.process_item E item tt = (Ret (processed_item E item), tt).
Proof.
  destruct item as [| | | | | |d]; try done. cbn [raw_item_ok].
  intros [Hnd Hok]%andb_prop. apply bool_decide_eq_true in Hnd.
  unfold V3.process_item. cbn [dict_items]. rewrite bind_of_ret.
  rewrite (bind_run _ _ _ _ _ (process_fields_spec E d [] Hnd
                                 ltac:(intros k _; apply not_elem_of_nil) Hok)).
  done.
Qed.

Lemma mapM_process_item E items :
  forallb raw_item_ok items = true →
  mapM (V3.process_item E) items tt = (Ret (processed_item E <$> items), tt).
Proof.
  induction items as [|x items IH]; [done|]. cbn [forallb].
  intros [Hx Hall]%andb_prop. cbn [mapM].
  rewrite (bind_run _ _ _ _ _ (process_item_spec E x Hx)).
  rewrite (bind_run _ _ _ _ _ (IH Hall)). done.
Qed.

Lemma processed_field_key E kv : (processed_field E kv).1 = kv.1.
Proof. done. Qed.

Lemma processed_item_keys E item : keys_of (processed_item E item) = keys_of item.
Proof.
  destruct item as [| | | | | |d]; try done. cbn.
  rewrite <- list_fmap_compose. apply list_fmap_ext. by intros _ [k v] _.
Qed.

Lemma preprocess_run E :
  forallb raw_item_ok (json_load E) = true →
  V3.preprocess E = Ret (processed_item E <$> json_load E).
Proof.
  intros Hall. unfold V3.preprocess, run_pure.
  by rewrite (mapM_process_item E _ Hall).
Qed.

(** X7.  The preprocessing loop of [download_dataset]
    (translate_to_bn_v3.py; the same code is in translate_to_bn.py and
    downlaod_dataset.py) returns one record per input record, with the same
    keys in the same order: a value that is not a list is kept, a list
    under any key but [question_decomposition] is replaced by its [str],
    and in the sub-items of [question_decomposition] nested lists and dicts
    are replaced by their [str]. *)
Theorem preprocess_spec (E : env) :
  forallb raw_item_ok (json_load E) = true →
  V3.preprocess E = Ret (processed_item E <$> json_load E)
  ∧ Forall2 (fun item out =>
               keys_of out = keys_of item
               ∧ ∀ k v, dict_get (match item with VDict d => d | _ => [] end) k
                        = Some v →
                   getitem out k
                   = Ret (if is_list v then
                            if String.eqb k "question_decomposition"
                            then VList (processed_entry E
                                          <$> match v with
                                              | VList l => l
                                              | _ => []
                                              end)
                            else VStr (py_repr E v)
                          else v))
            (json_load E) (processed_item E <$> json_load E).
Proof.
  intros Hall. split.
  - by apply preprocess_run.
  - apply Forall2_fmap_r, Forall_Forall2_diag, Forall_forall.
    intros item _. split; [apply processed_item_keys|].
    destruct item as [| | | | | |d]; try done. cbn [processed_item getitem].
    intros k v Hget. induction d as [|[k' v'] d IH]; [done|].
    cbn [dict_get fmap list_fmap processed_field fst snd] in *.
    destruct (String.eqb k' k) eqn:Hk.
    + injection Hget as ->. apply String.eqb_eq in Hk as ->.
      destruct v; try done.
    + by apply IH.
Qed.

Lemma preprocess_spec_witness :
  V3.preprocess (mk_env bn no_disk_failure
                   [VDict [("question", VStr "Who?");
                           ("context", VList [VStr "T"; VStr "P"]);
                           ("no_of_hops", VInt 2)]])
  = Ret [VDict [("question", VStr "Who?");
                ("context", VStr (demo_encode (VList [VStr "T"; VStr "P"])));
                ("no_of_hops", VInt 2)]].
Proof.
  destruct (preprocess_spec
              (mk_env bn no_disk_failure
                 [VDict [("question", VStr "Who?");
                         ("context", VList [VStr "T"; VStr "P"]);
                         ("no_of_hops", VInt 2)]]) eq_refl) as [H _].
  rewrite H. vm_compute. reflexivity.
Defined.

Lemma stringify_nested_idem E v :
  V3.stringify_nested E (V3.stringify_nested E v) = V3.stringify_nested E v.
Proof. by destruct v. Qed.

Lemma processed_entry_idem E entry :
  processed_entry E (processed_entry E entry) = processed_entry E entry.
Proof.
  destruct entry as [| | | | | |kvs]; try done. cbn. f_equal.
  rewrite <- list_fmap_compose. apply list_fmap_ext. intros _ [k v] _.
  cbn. by rewrite stringify_nested_idem.
Qed.

Lemma processed_field_idem E kv :
  processed_field E (processed_field E kv) = processed_field E kv.
Proof.
  destruct kv as [k v]. unfold processed_field. cbn [fst snd].
  destruct v as [| | | | |l|]; try done.
  destruct (String.eqb k "question_decomposition") eqn:Hk; [|done].
  cbn [fst snd]. do 2 f_equal. rewrite <- list_fmap_compose.
  apply list_fmap_ext. intros _ x _. apply processed_entry_idem.
Qed.

Lemma processed_item_idem E item :
  processed_item E (processed_item E item) = processed_item E item.
Proof.
  destruct item as [| | | | | |d]; try done. cbn. f_equal.
  rewrite <- list_fmap_compose. apply list_fmap_ext. intros _ kv _.
  apply processed_field_idem.
Qed.

Lemma processed_entry_is_dict E entry :
  is_dict (processed_entry E entry) = is_dict entry.
Proof. by destruct entry. Qed.

Lemma processed_item_ok E item :
  raw_item_ok item = true → raw_item_ok (processed_item E item) = true.
Proof.
  destruct item as [| | | | | |d]; try done. cbn [raw_item_ok processed_item].
  intros [Hnd Hok]%andb_prop. apply andb_true_intro. split.
  - apply bool_decide_eq_true. apply bool_decide_eq_true in Hnd.
    change ((processed_field E <$> d).*1) with (keys_of (processed_item E (VDict d))).
    by rewrite processed_item_keys.
  - unfold decomp_entries_ok in *. rewrite forallb_forall in Hok.
    apply forallb_forall. intros kv' Hin. apply in_map_iff in Hin as ([k v] & <- & Hin).
    specialize (Hok _ Hin). cbn [fst snd processed_field] in *.
    destruct (String.eqb k "question_decomposition"); [|done].
    destruct v as [| | | | |l|]; try done.
    rewrite forallb_forall in Hok. apply forallb_forall.
    intros x' Hx. apply in_map_iff in Hx as (x & <- & Hx).
    unfold entry_ok. rewrite processed_entry_is_dict. by apply Hok.
Qed.

(** X8.  The preprocessing is idempotent: run on its own output it returns
    that output unchanged, so a dataset that went through
    [download_dataset] once can go through it again. *)
Theorem preprocess_idempotent (E : env) :
  forallb raw_item_ok (json_load E) = true →
  ∃ out, V3.preprocess E = Ret out
         ∧ length out = length (json_load E)
         ∧ V3.preprocess (with_data E out) = Ret out.
Proof.
  intros Hall. pose proof (preprocess_run E Hall) as H.
  exists (processed_item E <$> json_load E). split; [exact H|].
  split; [by rewrite length_fmap|].
  assert (Hall' : forallb raw_item_ok
                    (json_load (with_data E (processed_item E <$> json_load E)))
                  = true).
  { cbn [json_load with_data]. rewrite forallb_forall in Hall.
    apply forallb_forall. intros x' Hx.
    apply in_map_iff in Hx as (x & <- & Hx).
    apply processed_item_ok. by apply Hall. }
  rewrite (preprocess_run _ Hall').
  cbn [json_load with_data]. f_equal.
  rewrite <- list_fmap_compose. apply list_fmap_ext. intros _ x _.
  apply (processed_item_idem E).
Qed.

Lemma preprocess_idempotent_witness :
  ∃ out,
    V3.preprocess (mk_env bn no_disk_failure
                     [VDict [("context", VList [VStr "T"; VStr "P"]);
                             ("question_decomposition",
                              VList [VDict [("sub_id", VInt 1);
                                            ("support", VList [VStr "T"])]])]])
    = Ret out
    ∧ length out = 1.
Proof.
  destruct (preprocess_idempotent
              (mk_env bn no_disk_failure
                 [VDict [("context", VList [VStr "T"; VStr "P"]);
                         ("question_decomposition",
                          VList [VDict [("sub_id", VInt 1);
                                        ("support", VList [VStr "T"])]])]])
              eq_refl) as (out & H & Hlen & _).
  exists out. split; [exact H | exact Hlen].
Defined.

(** X9.  A record that is not a dict makes the preprocessing raise
    [AttributeError]; [download_dataset] then logs it at ERROR level and
    raises it again, whatever the other records are. *)
Theorem preprocess_non_dict_raises (E : env) (file_path : string)
    (pre post : list value) (bad : value) (s : tstate) :
  hub_download E = Ok file_path →
  json_load E = pre ++ bad :: post →
  forallb raw_item_ok pre = true →
  is_dict bad = false →
  V3.download_dataset E s
  = (Raise (AttributeError ("'" +:+ type_name bad
                            +:+ "' object has no attribute 'items'")),
     {| ncalls := ncalls s;
        trace := trace s
          ++ [ELog INFO ("Dataset downloaded to: " +:+ file_path);
              ELog ERROR ("Error downloading dataset: " +:+ "'"
                          +:+ type_name bad
                          +:+ "' object has no attribute 'items'")] |}).
Proof.
  intros Hd Hdata Hpre Hbad.
  rewrite (download_preprocess_fails E file_path
             (AttributeError ("'" +:+ type_name bad
                              +:+ "' object has no attribute 'items'"))
             s Hd); [reflexivity|].
  assert (Hraise : ∀ (e : exn), V3.preprocess E = Raise e →
                                dataset_rows E = Raise e)
    by (intros e He; unfold dataset_rows; by rewrite He).
  apply Hraise.
  unfold V3.preprocess, run_pure. rewrite Hdata.
  assert (Hm : ∀ l, forallb raw_item_ok l = true →
            fst (mapM (V3.process_item E) (l ++ bad :: post) tt)
            = Raise (AttributeError ("'" +:+ type_name bad
                                     +:+ "' object has no attribute 'items'"))).
  { induction l as [|x l IH]; cbn [forallb app mapM].
    - intros _. destruct bad; try done.
    - intros [Hx Hl]%andb_prop.
      rewrite (bind_run _ _ _ _ _ (process_item_spec E x Hx)).
      unfold bind at 1. specialize (IH Hl).
      destruct (mapM (V3.process_item E) (l ++ bad :: post) tt) as [[r|e] u];
        cbn [fst] in IH; [discriminate|]. exact IH. }
  by apply Hm.
Qed.

Lemma preprocess_non_dict_raises_witness :
  fst (V3.download_dataset
         (mk_env bn no_disk_failure [demo_record 0; VStr "oops"]) s0)
  = Raise (AttributeError "'str' object has no attribute 'items'").
Proof.
  rewrite (preprocess_non_dict_raises
             (mk_env bn no_disk_failure [demo_record 0; VStr "oops"])
             "/cache/with_human_verification.json"
             [demo_record 0] [] (VStr "oops") s0
             eq_refl eq_refl eq_refl eq_refl).
  reflexivity.
Defined.

(** ** More on saving checkpoints *)

Lemma apply_writes_dirs p cs : ∀ f,
  dirs (foldl (fun acc op => apply_op op acc) f (WriteChunk p <$> cs)) = dirs f.
Proof.
  induction cs as [|c cs IH]; intros f; [done|].
  cbn [fmap list_fmap foldl]. by rewrite IH.
Qed.

Lemma direct_write_dirs dir p chunks f :
  dirs (foldl (fun acc op => apply_op op acc) f (direct_write dir p chunks))
  = {[dir]} ∪ dirs f.
Proof.
  unfold direct_write. cbn [foldl]. rewrite foldl_app. cbn [foldl apply_op].
  by rewrite apply_writes_dirs.
Qed.

(** X10.  A [save_checkpoint] (translate_to_bn_v3.py) that meets no disk
    error returns, leaves the whole JSON of the records at the checkpoint
    path whatever that file held before (a second save under the same
    number overwrites the first), creates the directory if need be, and
    changes no other file. *)
Theorem V3_save_checkpoint_effect (E : env) (data : list value) (num : nat)
    (w : world) :
  disk E num = None →
  fst (V3.save_checkpoint E data num w) = Ret tt
  ∧ files (w_fs (snd (V3.save_checkpoint E data num w)))
      !! V3.checkpoint_path num
    = Some (joined (json_chunks E (VList data)))
  ∧ (∀ p, p ≠ V3.checkpoint_path num →
       files (w_fs (snd (V3.save_checkpoint E data num w))) !! p
       = files (w_fs w) !! p)
  ∧ dirs (w_fs (snd (V3.save_checkpoint E data num w)))
    = {["checkpoints"]} ∪ dirs (w_fs w)
  ∧ log_entries (trace (w_ts (snd (V3.save_checkpoint E data num w))))
    = log_entries (trace (w_ts w))
      ++ [(INFO, "Checkpoint saved: " +:+ V3.checkpoint_path num)].
Proof.
  intros Hd. rewrite (save_checkpoint_ok E data num w Hd).
  cbn [fst snd w_fs w_ts trace].
  change (V3.save_checkpoint_ops E data num)
    with (direct_write "checkpoints" (V3.checkpoint_path num)
            (json_chunks E (VList data))).
  split; [done|]. split; [apply direct_write_done|].
  split; [intros p Hp; by apply direct_write_other|].
  split; [apply direct_write_dirs|].
  by rewrite log_entries_app.
Qed.

Lemma V3_save_checkpoint_effect_witness :
  files (w_fs (snd (V3.save_checkpoint demo_env [VStr "new"] 100
                      (snd (V3.save_checkpoint demo_env [VStr "old"] 100 w0)))))
    !! V3.checkpoint_path 100
  = Some (joined (json_chunks demo_env (VList [VStr "new"]))).
Proof.
  destruct (V3_save_checkpoint_effect demo_env [VStr "new"] 100
              (snd (V3.save_checkpoint demo_env [VStr "old"] 100 w0)) eq_refl)
    as (_ & H & _).
  exact H.
Defined.

Lemma exec_ops_fail_state j msg ops : ∀ i w,
  i ≤ j → j < i + length ops →
  exec_ops (Some (j, msg)) i ops w
  = (Raise (OSError msg),
     {| w_ts := w_ts w;
        w_fs := foldl (fun acc op => apply_op op acc) (w_fs w) (take (j - i) ops);
        w_ops := w_ops w ++ take (j - i) ops |}).
Proof.
  induction ops as [|op ops IH]; intros i w Hi Hj; [cbn in Hj; lia|].
  cbn [exec_ops]. destruct (Nat.eqb_spec i j) as [->|Hne].
  - rewrite Nat.sub_diag. cbn. rewrite app_nil_r. by destruct w.
  - unfold bind at 1. cbn [do_fs].
    rewrite IH; [|lia|cbn in Hj; lia]. cbn [w_ts w_fs w_ops].
    replace (j - i) with (S (j - S i)) by lia. cbn [take foldl].
    by rewrite <- app_assoc.
Qed.

(** X11.  A [save_checkpoint] (translate_to_bn_v3.py) whose operation
    number [j] fails raises the [OSError] without writing a log entry; the
    operations before it have taken effect, so from [j = 2] on (a failure
    while writing or closing) a file holding only the first [j - 2] chunks
    of the JSON is left at the checkpoint path. *)
Theorem V3_save_checkpoint_failure (E : env) (data : list value)
    (num j : nat) (msg : string) (w : world) :
  disk E num = Some (j, msg) →
  j < length (V3.save_checkpoint_ops E data num) →
  fst (V3.save_checkpoint E data num w) = Raise (OSError msg)
  ∧ w_ts (snd (V3.save_checkpoint E data num w)) = w_ts w
  ∧ w_fs (snd (V3.save_checkpoint E data num w))
    = crash_after j (V3.save_checkpoint_ops E data num) (w_fs w)
  ∧ w_ops (snd (V3.save_checkpoint E data num w))
    = w_ops w ++ take j (V3.save_checkpoint_ops E data num)
  ∧ (2 ≤ j →
     files (w_fs (snd (V3.save_checkpoint E data num w)))
       !! V3.checkpoint_path num
     = Some (joined (take (j - 2) (json_chunks E (VList data))))).
Proof.
  intros Hd Hj. unfold V3.save_checkpoint. rewrite Hd.
  erewrite bind_raise; [|apply exec_ops_fail_state; lia].
  rewrite Nat.sub_0_r. cbn [fst snd w_ts w_fs w_ops].
  split; [done|]. split; [done|]. split; [done|]. split; [done|].
  intros Hj2.
  change (V3.save_checkpoint_ops E data num)
    with (direct_write "checkpoints" (V3.checkpoint_path num)
            (json_chunks E (VList data))).
  by apply direct_write_crash.
Qed.

Lemma V3_save_checkpoint_failure_witness :
  fst (V3.save_checkpoint env101_full [VStr "a"] 100 w0)
  = Raise (OSError "[Errno 28] No space left on device")
  ∧ files (w_fs (snd (V3.save_checkpoint env101_full [VStr "a"] 100 w0)))
      !! V3.checkpoint_path 100
    = Some "".
Proof.
  destruct (V3_save_checkpoint_failure env101_full [VStr "a"] 100 2
              "[Errno 28] No space left on device" w0 eq_refl)
    as (H1 & _ & _ & _ & H5).
  - vm_compute. lia.
  - split; [exact H1|]. rewrite (H5 ltac:(lia)). reflexivity.
Defined.

(** X12.  Whatever other keys the input record has, the record that the
    loop of translate_to_bn_v3.py builds has exactly the eleven keys of the
    literal, in its order; fields of the input that the literal does not
    name are dropped. *)
Theorem V3_record_has_fixed_keys (E : env) (item : value) (s : tstate) :
  wf_record item = true →
  ∃ d' s', V3.translate_record E item s = (Ret (VDict d'), s')
           ∧ d'.*1 = required_fields.
Proof.
  intros Hwf.
  destruct (V3_translate_record_spec E item s Hwf)
    as (out & s' & H & (q & a & c & pq & pa & qd & ql & -> & _)).
  by eexists _, s'.
Qed.

Lemma V3_record_has_fixed_keys_witness :
  ∃ d', fst (V3.translate_record demo_env
               (match demo_record 0 with
                | VDict d => VDict (d ++ [("note", VStr "kept?")])
                | v => v
                end) s0) = Ret (VDict d')
        ∧ d'.*1 = required_fields
        ∧ dict_get d' "note" = None.
Proof.
  destruct (V3_record_has_fixed_keys demo_env
              (match demo_record 0 with
               | VDict d => VDict (d ++ [("note", VStr "kept?")])
               | v => v
               end) s0 eq_refl) as (d' & s' & H & Hk).
  exists d'. rewrite H. split; [reflexivity|]. split; [exact Hk|].
  clear H. revert Hk. generalize d'. clear.
  intros d Hk. destruct (dict_get d "note") as [v|] eqn:Hget; [|done].
  exfalso. assert (Hin : "note" ∈ d.*1).
  { clear Hk. induction d as [|[k v'] d IH]; [done|]. cbn in *.
    destruct (String.eqb k "note") eqn:Hk.
    - apply String.eqb_eq in Hk as ->. left.
    - right. by apply IH. }
  rewrite Hk in Hin. revert Hin. apply (bool_decide_unpack _).
  vm_compute. exact I.
Defined.

(** ** Edge cases of the decomposition loops *)

Lemma V3_translate_decomp_loop_app E l1 l2 : ∀ acc s,
  V3.translate_decomp_loop E (l1 ++ l2) acc s
  = (acc' <- V3.translate_decomp_loop E l1 acc ;;
     V3.translate_decomp_loop E l2 acc') s.
Proof.
  induction l1 as [|item l1 IH]; intros acc s; [done|].
  cbn [app V3.translate_decomp_loop].
  rewrite bind_assoc. apply bind_ext. intros t s1. apply IH.
Qed.

(** X13.  One sub-item without [sub_id] makes
    [translate_question_decomposition] (translate_to_bn_v3.py) raise
    [KeyError]: nothing of the list is returned, although the backend calls
    for the sub-items before it have been made, and no call is made for the
    faulty sub-item or those after it. *)
Theorem V3_decomposition_bad_item (E : env) (pre post : list value)
    (d : pydict) (s : tstate) :
  forallb v3_decomp_item_ok pre = true →
  dict_get d "sub_id" = None →
  V3.translate_question_decomposition E (VList (pre ++ VDict d :: post)) s
  = (Raise (KeyError "sub_id"), snd (V3.translate_decomp_loop E pre [] s)).
Proof.
  intros Hpre Hd. unfold V3.translate_question_decomposition.
  assert (Ht : truthy (VList (pre ++ VDict d :: post)) = true)
    by (by destruct pre).
  rewrite Ht. cbn [negb iter_value]. rewrite bind_of_ret.
  destruct (V3_translate_decomp_loop_spec E pre [] s Hpre)
    as (out & s1 & Hloop & _).
  rewrite Hloop. cbn [snd].
  erewrite bind_raise; [reflexivity|].
  rewrite V3_translate_decomp_loop_app, (bind_run _ _ _ _ _ Hloop).
  cbn [V3.translate_decomp_loop]. unfold V3.translate_decomp_item.
  unfold getitem at 1. rewrite Hd. reflexivity.
Qed.

Lemma V3_decomposition_bad_item_witness :
  V3.translate_question_decomposition demo_env
    (VList [demo_sub_item; VDict [("question", VStr "X")]]) s0
  = (Raise (KeyError "sub_id"),
     snd (V3.translate_decomp_loop demo_env [demo_sub_item] [] s0))
  ∧ ncalls (snd (V3.translate_decomp_loop demo_env [demo_sub_item] [] s0)) = 3.
Proof.
  split; [|reflexivity].
  apply (V3_decomposition_bad_item demo_env [demo_sub_item] []
           [("question", VStr "X")] s0); reflexivity.
Defined.

(** X14.  On a falsy decomposition value the two versions differ:
    [translate_question_decomposition] of translate_to_bn_v3.py returns the
    empty list without touching the state, the one of translate_v4.py has
    no guard and raises [TypeError] when the value cannot be iterated
    (None, False, 0, 0.0) and returns the empty list otherwise.  Neither
    calls the backend. *)
Theorem decomposition_of_falsy (E : env) (v : value) (s : tstate) :
  truthy v = false →
  V3.translate_question_decomposition E v s = (Ret (VList []), s)
  ∧ V4.translate_question_decomposition E v s
    = (if iterable v then Ret (VList [])
       else Raise (TypeError ("'" +:+ type_name v
                              +:+ "' object is not iterable")),
       s).
Proof.
  intros Hv. split.
  - unfold V3.translate_question_decomposition. by rewrite Hv.
  - unfold V4.translate_question_decomposition.
    destruct v as [|b|z|f|x|l|d]; cbn [iterable iter_value]; try done.
    + destruct x; [done | discriminate].
    + destruct l; [done | discriminate].
    + destruct d; [done | discriminate].
Qed.

Lemma decomposition_of_falsy_witness :
  V3.translate_question_decomposition demo_env VNone s0 = (Ret (VList []), s0)
  ∧ fst (V4.translate_question_decomposition demo_env VNone s0)
    = Raise (TypeError "'NoneType' object is not iterable").
Proof.
  destruct (decomposition_of_falsy demo_env VNone s0 eq_refl) as [H3 H4].
  rewrite H3, H4. split; reflexivity.
Defined.

(** ** Counting the calls of translate_v4.py *)

Lemma V4_translate_field_calls E k v s :
  v4_field_ok (k, v) = true →
  ∃ v' s', V4.translate_field E k v s = (Ret v', s')
           ∧ ncalls s' = ncalls s + v4_field_calls (k, v).
Proof.
  unfold v4_field_ok, V4.translate_field, v4_field_calls. cbn [fst snd].
  destruct (String.eqb k "question_decomposition") eqn:Hqd.
  { intros Hok. destruct v as [| | | | |items|]; try discriminate.
    destruct (V4_translate_question_decomposition_spec E items s Hok)
      as (s' & H & Hn & _).
    by eexists _, s'. }
  destruct (String.eqb k "context") eqn:Hctx.
  { intros Hok. unfold v4_context_ok in Hok.
    apply andb_prop in Hok as [Ht Hps].
    apply field_ok_inv in Hps as [Hps Hl].
    destruct (field v "paragraphs") as [| | | | |ps|] eqn:Hf; try discriminate.
    destruct v as [| | | | | |ctx]; try discriminate.
    unfold has_key, getitem in Ht. unfold getitem in Hps.
    destruct (dict_get ctx "title") as [t|] eqn:Htitle; [|discriminate].
    destruct (dict_get ctx "paragraphs") as [p|] eqn:Hpar; [|discriminate].
    injection Hps as ->.
    destruct (V4_translate_context_spec E ctx t ps s Htitle Hpar)
      as (s' & H & Hn & _).
    eexists _, s'. split; [exact H|]. lia. }
  intros _. destruct (is_str v) eqn:Hs.
  - destruct (V4_translate_text_spec E v s) as (s' & H & Hn & _).
    eexists _, s'. split; [exact H|]. lia.
  - eexists _, s. split; [reflexivity|]. lia.
Qed.

Lemma v4_record_calls_cons kv kvs :
  v4_record_calls (kv :: kvs) = v4_field_calls kv + v4_record_calls kvs.
Proof. reflexivity. Qed.

Lemma V4_translate_fields_calls E kvs : ∀ acc s,
  forallb v4_field_ok kvs = true →
  ∃ out s', V4.translate_fields E kvs acc s = (Ret out, s')
            ∧ ncalls s' = ncalls s + v4_record_calls kvs.
Proof.
  induction kvs as [|[k v] kvs IH]; intros acc s Hok.
  - exists acc, s. cbn. split; [done|]. lia.
  - cbn [forallb] in Hok. apply andb_prop in Hok as [Hkv Hok].
    cbn [V4.translate_fields].
    destruct (V4_translate_field_calls E k v s Hkv) as (v' & s1 & H1 & Hn1).
    rewrite (bind_run _ _ _ _ _ H1).
    destruct (IH (dict_set acc k v') s1 Hok) as (out & s2 & H2 & Hn2).
    exists out, s2. split; [exact H2|].
    rewrite Hn2, Hn1, v4_record_calls_cons. lia.
Qed.

(** X15.  On a record it can map, [translate_item] (translate_v4.py) makes
    exactly one backend call per text leaf: one for every string-valued
    entry, one for the title and one for each paragraph of [context], three
    for each sub-item of [question_decomposition]; entries of any other
    type cost no call. *)
Theorem V4_translate_item_calls (E : env) (d : pydict) (s : tstate) :
  v4_wf d = true →
  ∃ out s', V4.translate_item E (VDict d) s = (Ret out, s')
            ∧ ncalls s' = ncalls s + v4_record_calls d
            ∧ length (called_texts (trace s'))
              = length (called_texts (trace s)) + v4_record_calls d.
Proof.
  intros Hok. unfold V4.translate_item. cbn [dict_items].
  rewrite bind_of_ret.
  destruct (V4_translate_fields_calls E d [] s Hok) as (out & s' & H & Hn).
  rewrite (bind_run _ _ _ _ _ H). unfold ret.
  eexists _, s'. split; [reflexivity|]. split; [exact Hn|].
  (* every call is recorded once in the trace *)
  assert (Hinv : ∀ kvs acc s0 out0 s1,
            V4.translate_fields E kvs acc s0 = (Ret out0, s1) →
            forallb v4_field_ok kvs = true →
            length (called_texts (trace s1))
            = length (called_texts (trace s0)) + v4_record_calls kvs).
  { clear. induction kvs as [|[k v] kvs IH]; intros acc s0 out0 s1 Hrun Hok.
    - injection Hrun as _ <-. cbn. lia.
    - cbn [forallb] in Hok. apply andb_prop in Hok as [Hkv Hok].
      cbn [V4.translate_fields] in Hrun.
      assert (Hf : ∃ v' s', V4.translate_field E k v s0 = (Ret v', s')
                     ∧ length (called_texts (trace s'))
                       = length (called_texts (trace s0))
                         + v4_field_calls (k, v)).
      { clear IH Hrun Hok. revert Hkv.
        unfold v4_field_ok, V4.translate_field, v4_field_calls. cbn [fst snd].
        destruct (String.eqb k "question_decomposition") eqn:Hqd.
        { intros Hok. destruct v as [| | | | |items|]; try discriminate.
          destruct (V4_translate_question_decomposition_spec E items s0 Hok)
            as (s' & H & _ & Hc).
          eexists _, s'. split; [exact H|].
          rewrite Hc, length_app. f_equal.
          clear. induction items as [|i items IH]; [done|].
          cbn [flat_map length app decomp_leaves]. rewrite IH. lia. }
        destruct (String.eqb k "context") eqn:Hctx.
        { intros Hok. unfold v4_context_ok in Hok.
          apply andb_prop in Hok as [Ht Hps].
          apply field_ok_inv in Hps as [Hps Hl].
          destruct (field v "paragraphs") as [| | | | |ps|] eqn:Hf;
            try discriminate.
          destruct v as [| | | | | |ctx]; try discriminate.
          unfold has_key, getitem in Ht. unfold getitem in Hps.
          destruct (dict_get ctx "title") as [t|] eqn:Htitle; [|discriminate].
          destruct (dict_get ctx "paragraphs") as [p|] eqn:Hpar;
            [|discriminate].
          injection Hps as ->.
          destruct (V4_translate_context_spec E ctx t ps s0 Htitle Hpar)
            as (s' & H & _ & Hc).
          eexists _, s'. split; [exact H|]. rewrite Hc, length_app. done. }
        intros _. destruct (is_str v) eqn:Hs.
        - destruct (V4_translate_text_spec E v s0) as (s' & H & _ & Hc).
          eexists _, s'. split; [exact H|]. rewrite Hc, length_app. done.
        - eexists _, s0. split; [reflexivity|]. lia. }
      destruct Hf as (v' & s' & Hf & Hlen).
      rewrite (bind_run _ _ _ _ _ Hf) in Hrun.
      rewrite (IH _ _ _ _ Hrun Hok), Hlen, v4_record_calls_cons. lia. }
  by apply (Hinv d [] s out s').
Qed.

Lemma V4_translate_item_calls_witness :
  ncalls (snd (V4.translate_item demo_env
                 (VDict [("question", VStr "Who?"); ("no_of_hops", VInt 2);
                         ("context", VDict demo_context);
                         ("question_decomposition", VList [demo_sub_item])])
                 s0)) = 7.
Proof.
  destruct (V4_translate_item_calls demo_env
              [("question", VStr "Who?"); ("no_of_hops", VInt 2);
               ("context", VDict demo_context);
               ("question_decomposition", VList [demo_sub_item])] s0 eq_refl)
    as (out & s' & H & Hn & _).
  rewrite H. cbn [snd]. rewrite Hn. reflexivity.
Defined.

(** ** A whole run of translate_v4.py *)

Lemma V4_translate_text_emits E text :
  emits_only is_translation_event (V4.translate_text E text).
Proof.
  unfold V4.translate_text. apply emits_bind; [emits|].
  intros [t|e]; unfold log; emits.
Qed.

Lemma V4_translate_decomp_item_emits E item :
  emits_only is_translation_event (V4.translate_decomp_item E item).
Proof.
  unfold V4.translate_decomp_item.
  repeat first [ apply V4_translate_text_emits | apply emits_ret
               | apply emits_of_result | apply emits_bind; [|intros ?] ].
Qed.

Lemma V4_translate_decomp_loop_emits E items : ∀ acc,
  emits_only is_translation_event (V4.translate_decomp_loop E items acc).
Proof.
  induction items as [|item items IH]; intros acc; [apply emits_ret|].
  cbn [V4.translate_decomp_loop].
  apply emits_bind; [apply V4_translate_decomp_item_emits | intros ?; apply IH].
Qed.

Lemma V4_translate_field_emits E k v :
  emits_only is_translation_event (V4.translate_field E k v).
Proof.
  unfold V4.translate_field.
  destruct (String.eqb k "question_decomposition").
  { unfold V4.translate_question_decomposition.
    apply emits_bind; [emits|]. intros items.
    apply emits_bind; [apply V4_translate_decomp_loop_emits|]. intros ?. emits. }
  destruct (String.eqb k "context").
  { unfold V4.translate_context, V4.translate_list.
    repeat first [ apply V4_translate_text_emits
                 | apply emits_mapM; intros ?
                 | apply emits_ret | apply emits_of_result
                 | apply emits_bind; [|intros ?] ]. }
  destruct (is_str v); [apply V4_translate_text_emits | emits].
Qed.

Lemma V4_translate_fields_emits E kvs : ∀ acc,
  emits_only is_translation_event (V4.translate_fields E kvs acc).
Proof.
  induction kvs as [|[k v] kvs IH]; intros acc; [apply emits_ret|].
  cbn [V4.translate_fields].
  apply emits_bind; [apply V4_translate_field_emits | intros ?; apply IH].
Qed.

Lemma V4_translate_item_emits E item :
  emits_only is_translation_event (V4.translate_item E item).
Proof.
  unfold V4.translate_item. apply emits_bind; [emits|]. intros kvs.
  apply emits_bind; [apply V4_translate_fields_emits|]. intros ?. emits.
Qed.

Lemma V4_translate_item_ncalls E d s :
  v4_wf d = true →
  ∃ out s', V4.translate_item E (VDict d) s = (Ret out, s')
            ∧ ncalls s' = ncalls s + v4_record_calls d.
Proof.
  intros Hok. unfold V4.translate_item. cbn [dict_items].
  rewrite bind_of_ret.
  destruct (V4_translate_fields_calls E d [] s Hok) as (out & s' & H & Hn).
  rewrite (bind_run _ _ _ _ _ H). unfold ret.
  eexists _, s'. split; [reflexivity | exact Hn].
Qed.

Lemma V4_mapM_translate_item E items : ∀ s,
  forallb v4_item_ok items = true →
  ∃ out s', mapM (V4.translate_item E) items s = (Ret out, s')
    ∧ Forall2 (fun item o => keys_of o = keys_of item) items out
    ∧ forallb is_dict out = true
    ∧ ncalls s' = ncalls s + sum_list (v4_item_calls <$> items).
Proof.
  induction items as [|item items IH]; intros s Hall.
  - exists [], s. cbn. split; [done|]. split; [constructor|]. split; [done|lia].
  - cbn [forallb] in Hall. apply andb_prop in Hall as [Hitem Hall].
    destruct item as [| | | | | |d]; try discriminate.
    cbn [v4_item_ok] in Hitem. apply andb_prop in Hitem as [Hnd Hok].
    apply bool_decide_eq_true in Hnd.
    destruct (V4_translate_item_spec E d s Hnd Hok) as (d' & s1 & H1 & Hk & _).
    destruct (V4_translate_item_ncalls E d s Hok) as (o & s1' & H1' & Hn1).
    rewrite H1 in H1'. injection H1' as <- <-.
    cbn [mapM]. rewrite (bind_run _ _ _ _ _ H1).
    destruct (IH s1 Hall) as (out & s2 & H2 & Hks & Hds & Hn2).
    rewrite (bind_run _ _ _ _ _ H2). unfold ret.
    exists (VDict d' :: out), s2. split; [done|]. split; [|split].
    + constructor; [exact Hk | exact Hks].
    + exact Hds.
    + rewrite Hn2, Hn1. cbn. lia.
Qed.

(** X16.  A run of [main] of translate_v4.py over records it can map
    translates all of them inside [download_dataset], keeping the number of
    records and the keys of each, with one backend call per text leaf, and
    then builds the dataset with [Dataset.from_list], which hands to Arrow
    every translated record rebuilt on the keys of the first.  When that
    raises, the error is logged as a download error and leaves [main], and
    nothing is pushed although every record has been translated;
    otherwise the dataset is pushed once, and [main] returns when the push
    succeeds and raises the hub's error when it fails. *)
Theorem V4_main_spec (E : env) (file_path : string) (s : tstate) :
  hub_download E = Ok file_path →
  forallb v4_item_ok (json_load E) = true →
  ∃ out evs,
    trace (snd (V4.main E s)) = trace s ++ evs
    ∧ Forall2 (fun item o => keys_of o = keys_of item) (json_load E) out
    ∧ ncalls (snd (V4.main E s))
      = ncalls s + sum_list (v4_item_calls <$> json_load E)
    ∧ from_list E out = arrow_table E (conformed out)
    ∧ match from_list E out with
      | Ret dataset =>
          pushed evs = [dataset]
          ∧ EPush "your-username/bengali-morehopqa" dataset ∈ evs
          ∧ fst (V4.main E s)
            = match push_to_hub E dataset with
              | None => Ret tt
              | Some m => Raise (RemoteError m)
              end
      | Raise e =>
          pushed evs = []
          ∧ ELog ERROR ("Error downloading dataset: " +:+ exn_str e) ∈ evs
          ∧ fst (V4.main E s) = Raise e
      end.
Proof.
  intros Hd Hall.
  pose (s1 := {| ncalls := ncalls s;
                 trace := trace s ++ [ELog INFO ("Dataset downloaded to: "
                                                 +:+ file_path)] |}).
  destruct (V4_mapM_translate_item E (json_load E) s1 Hall)
    as (out & s2 & Hmap & Hkeys & Hdicts & Hn).
  destruct (emits_mapM is_translation_event (V4.translate_item E) (json_load E)
              (V4_translate_item_emits E) s1) as (evsT & HtrT & PT).
  rewrite Hmap in HtrT. cbn [snd] in HtrT. cbn [s1 trace] in HtrT.
  destruct (translation_events_quiet evsT PT) as (HpT & _ & _).
  exists out.
  assert (Hbody :
    (log INFO ("Dataset downloaded to: " +:+ file_path) ;;
     translated_data <- mapM (V4.translate_item E) (json_load E) ;;
     of_result (from_list E translated_data)) s
    = (from_list E out, s2)).
  { unfold bind at 1. unfold log at 1, emit at 1. fold s1.
    by rewrite (bind_run _ _ _ _ _ Hmap). }
  assert (Hmain :
    V4.main E s
    = match from_list E out with
      | Ret dataset => V4.push E dataset "your-username/bengali-morehopqa" s2
      | Raise e =>
          (Raise e,
           {| ncalls := ncalls s2;
              trace := trace s2
                ++ [ELog ERROR ("Error downloading dataset: "
                                +:+ exn_str e)] |})
      end).
  { unfold V4.main, V4.download_dataset, try_except. rewrite Hd.
    unfold bind at 1. rewrite Hbody.
    by destruct (from_list E out). }
  rewrite Hmain. clear Hmain Hbody.
  rewrite <- (from_list_conformed E out Hdicts).
  destruct (from_list E out) as [dataset|e] eqn:Hfl.
  - unfold V4.push, try_except, log, bind, emit, raise, ret.
    cbn [ncalls trace].
    destruct (push_to_hub E dataset) as [m|]; cbn [fst snd ncalls trace];
      rewrite HtrT, <- !app_assoc;
      (eexists; split; [reflexivity|]); (split; [exact Hkeys|]);
      (split; [exact Hn|]); (split; [reflexivity|]);
      rewrite !pushed_app, HpT; cbn;
      (split; [reflexivity|]);
      (split; [rewrite ?elem_of_cons, ?elem_of_app, ?elem_of_cons; tauto|]);
      reflexivity.
  - cbn [fst snd ncalls trace].
    rewrite HtrT, <- !app_assoc.
    eexists. split; [reflexivity|]. split; [exact Hkeys|].
    split; [exact Hn|]. split; [reflexivity|].
    rewrite !pushed_app, HpT. cbn.
    split; [reflexivity|].
    split; [rewrite ?elem_of_cons, ?elem_of_app, ?elem_of_cons; tauto|].
    reflexivity.
Qed.

Lemma V4_main_spec_witness :
  fst (V4.main (mk_env bn no_disk_failure
                  [VDict [("question", VStr "Who?"); ("no_of_hops", VInt 2)]])
         s0) = Ret tt
  ∧ ncalls (snd (V4.main (mk_env bn no_disk_failure
                            [VDict [("question", VStr "Who?");
                                    ("no_of_hops", VInt 2)]]) s0)) = 1.
Proof.
  destruct (V4_main_spec
              (mk_env bn no_disk_failure
                 [VDict [("question", VStr "Who?"); ("no_of_hops", VInt 2)]])
              "/cache/with_human_verification.json" s0 eq_refl eq_refl)
    as (out & evs & _ & _ & Hn & Hfl & Hr).
  split; [|exact Hn].
  destruct (from_list _ out) as [dataset|e] eqn:Hd.
  - destruct Hr as (_ & _ & ->). reflexivity.
  - cbn [mk_env arrow_table] in Hfl. discriminate.
Defined.

(** ** The loop of translate_to_bn.py *)

Lemma printed_app tr1 tr2 : printed (tr1 ++ tr2) = printed tr1 ++ printed tr2.
Proof. apply omap_app. Qed.

Lemma dict_get_in_keys (d : pydict) k v :
  dict_get d k = Some v → k ∈ d.*1.
Proof.
  induction d as [|[k' v'] d IH]; [done|]. cbn [dict_get fmap list_fmap fst].
  destruct (String.eqb k' k) eqn:Hk.
  - apply String.eqb_eq in Hk as ->. intros _. apply elem_of_cons. by left.
  - intros H. apply elem_of_cons. right. by apply IH.
Qed.

Lemma V1_translate_to_bengali_emits E text :
  emits_only is_translation_event (V1.translate_to_bengali E text).
Proof.
  unfold V1.translate_to_bengali. apply emits_bind; [emits|].
  intros [t|e]; emits.
Qed.

Lemma V1_translate_decomp_loop_emits E items : ∀ acc,
  emits_only is_translation_event (V1.translate_decomp_loop E items acc).
Proof.
  induction items as [|item items IH]; intros acc; [apply emits_ret|].
  cbn [V1.translate_decomp_loop].
  apply emits_bind; [|intros ?; apply IH].
  unfold V1.translate_decomp_item.
  repeat first [ apply V1_translate_to_bengali_emits | apply emits_ret
               | apply emits_of_result | apply emits_bind; [|intros ?] ].
Qed.

Lemma V1_translate_record_emits E item :
  emits_only is_translation_event (V1.translate_record E item).
Proof.
  unfold V1.translate_record, V1.translate_decomposition.
  repeat first [ apply V1_translate_to_bengali_emits
               | apply V1_translate_decomp_loop_emits | apply emits_ret
               | apply emits_of_result | apply emits_bind; [|intros ?] ].
Qed.

Lemma V1_translate_dataset_loop_spec E items : ∀ acc s,
  forallb v1_wf items = true →
  ∃ out s' evs,
    V1.translate_dataset_loop E items acc s = (Ret (acc ++ out), s')
    ∧ trace s' = trace s ++ evs
    ∧ printed evs = out
    ∧ Forall (fun o => keys_of o = v1_keys) out
    ∧ length out = length items.
Proof.
  induction items as [|item items IH]; intros acc s Hall.
  - exists [], s, []. cbn. rewrite !app_nil_r. repeat split; constructor.
  - cbn [forallb] in Hall. apply andb_prop in Hall as [Hitem Hall].
    destruct (V1_translate_record_spec E item s Hitem) as (d' & s1 & H1 & Hk).
    destruct (V1_translate_record_emits E item s) as (evs1 & Htr1 & P1).
    rewrite H1 in Htr1. cbn [snd] in Htr1.
    destruct (translation_events_quiet evs1 P1) as (_ & _ & Hp1).
    cbn [V1.translate_dataset_loop]. rewrite (bind_run _ _ _ _ _ H1).
    unfold bind at 1, emit at 1.
    destruct (IH (acc ++ [VDict d'])
                {| ncalls := ncalls s1;
                   trace := trace s1 ++ [EPrint (VDict d')] |} Hall)
      as (out & s2 & evs2 & H2 & Htr2 & Hp2 & Hks & Hlen).
    rewrite H2. cbn [trace] in Htr2.
    exists (VDict d' :: out), s2, (evs1 ++ EPrint (VDict d') :: evs2).
    split; [by rewrite <- app_assoc|].
    split; [rewrite Htr2, Htr1, <- !app_assoc; done|].
    split; [rewrite printed_app, Hp1; cbn; by rewrite <- Hp2|].
    split; [constructor; [exact Hk | exact Hks] | cbn; by rewrite Hlen].
Qed.

Lemma rebuilt_self (d : pydict) :
  NoDup (d.*1) →
  (fun k => (k, default VNone (dict_get d k))) <$> d.*1 = d.
Proof.
  induction d as [|[k v] d IH]; [done|].
  cbn [fmap list_fmap fst]. intros [Hk Hnd]%NoDup_cons.
  cbn [dict_get]. rewrite String.eqb_refl. cbn [default]. f_equal.
  rewrite <- (IH Hnd) at 2. apply list_fmap_ext.
  intros i k' Hk'. f_equal. cbn [dict_get].
  destruct (String.eqb k k') eqn:Heq; [|done].
  apply String.eqb_eq in Heq as ->.
  by apply list_elem_of_lookup_2 in Hk'.
Qed.

(** Records that all have the same keys go to Arrow as they are. *)
Lemma from_list_uniform E ks out :
  ks ≠ [] → NoDup ks →
  Forall (fun o => keys_of o = ks) out →
  from_list E out = arrow_table E out.
Proof.
  intros Hne Hnd Hall.
  assert (Hd : forallb is_dict out = true).
  { apply forallb_forall. intros o Ho%list_elem_of_In.
    rewrite Forall_forall in Hall. specialize (Hall o Ho).
    destruct o; try done; cbn in Hall; congruence. }
  rewrite (from_list_conformed E out Hd). f_equal.
  destruct out as [|first rest]; [done|].
  unfold conformed. pose proof (Forall_inv Hall) as Hfirst.
  rewrite Hfirst. destruct ks as [|k ks]; [done|].
  rewrite <- (list_fmap_id (first :: rest)) at 2.
  apply list_fmap_ext. intros i o Ho%list_elem_of_lookup_2.
  rewrite Forall_forall in Hall. specialize (Hall o Ho).
  destruct o as [| | | | | |d]; try (cbn in Hall; discriminate).
  cbn [keys_of] in Hall. unfold rebuilt. cbn [dict_of id].
  rewrite <- Hall. rewrite rebuilt_self; [done|]. by rewrite Hall.
Qed.

(** X17.  On records that have the fields it reads, [translate_dataset]
    (translate_to_bn.py) translates one record per input record, each with
    the same ten keys (so a [question_on_last_hop] entry of the input is
    dropped), and prints exactly these records, once each and in order.
    What it returns is the dataset [Dataset.from_list] builds from them,
    which here is what Arrow makes of the records as they are; when Arrow
    raises, so does [translate_dataset], after all the printing. *)
Theorem V1_translate_dataset_spec (E : env) (dataset : list value)
    (s : tstate) :
  forallb v1_wf dataset = true →
  ∃ out evs,
    fst (V1.translate_dataset E dataset s) = arrow_table E out
    ∧ trace (snd (V1.translate_dataset E dataset s)) = trace s ++ evs
    ∧ printed evs = out
    ∧ length out = length dataset
    ∧ Forall (fun o => keys_of o = v1_keys ∧ getitem o "question_on_last_hop"
                         = Raise (KeyError "question_on_last_hop")) out.
Proof.
  intros Hall. unfold V1.translate_dataset.
  destruct (V1_translate_dataset_loop_spec E dataset [] s Hall)
    as (out & s' & evs & H & Htr & Hp & Hks & Hlen).
  rewrite (bind_run _ _ _ _ _ H). unfold of_result. cbn [fst snd app].
  exists out, evs.
  split.
  { apply (from_list_uniform E v1_keys); [done| |exact Hks].
    apply (bool_decide_unpack _). vm_compute. exact I. }
  repeat split; try done.
  eapply Forall_impl; [exact Hks|]. intros o Hk. split; [exact Hk|].
  destruct o as [| | | | | |d]; try (cbn in Hk; discriminate).
  cbn [keys_of] in Hk. unfold getitem.
  destruct (dict_get d "question_on_last_hop") as [v|] eqn:Hget; [|done].
  apply dict_get_in_keys in Hget. rewrite Hk in Hget.
  exfalso. revert Hget. unfold v1_keys. rewrite !elem_of_cons, elem_of_nil.
  intros H'. repeat (destruct H' as [H'|H']; [discriminate|]). done.
Qed.

Lemma V1_translate_dataset_spec_witness :
  ∃ out, fst (V1.translate_dataset demo_env [demo_record 0; demo_record 1] s0)
         = Ret out
         ∧ printed (trace (snd (V1.translate_dataset demo_env
                                  [demo_record 0; demo_record 1] s0))) = out
         ∧ length out = 2.
Proof.
  assert (Hwf : forallb v1_wf [demo_record 0; demo_record 1] = true)
    by (vm_compute; reflexivity).
  destruct (V1_translate_dataset_spec demo_env
              [demo_record 0; demo_record 1] s0 Hwf)
    as (out & evs & Hr & Htr & Hp & Hlen & _).
  exists out. rewrite Htr. change (trace s0) with (@nil event).
  rewrite app_nil_l. split; [exact Hr|]. split; [exact Hp | exact Hlen].
Defined.

(** ** What translate_v4.py never pushes *)

Lemma V4_download_dataset_emits E :
  emits_only is_translation_event (V4.download_dataset E).
Proof.
  unfold V4.download_dataset. apply emits_try_except.
  - destruct (hub_download E); [|emits].
    apply emits_bind; [unfold log; emits|]. intros _.
    apply emits_bind; [|intros ?; emits].
    apply emits_mapM, V4_translate_item_emits.
  - intros e. unfold log. emits.
Qed.

(** X18.  Whatever the hub, the file and the backend do, [main] of
    translate_v4.py pushes at most once.  When [download_dataset] raises
    (the download fails, or some record cannot be mapped), [main] raises
    the same error and nothing is pushed, so no partly translated
    collection ever reaches the hub; when it returns, exactly its result is
    pushed, and [main] returns only if that push succeeds. *)
Theorem V4_main_hub_discipline (E : env) (s : tstate) :
  ∃ evs,
    trace (snd (V4.main E s)) = trace s ++ evs
    ∧ length (pushed evs) ≤ 1
    ∧ (∀ e, fst (V4.download_dataset E s) = Raise e →
         fst (V4.main E s) = Raise e ∧ pushed evs = [])
    ∧ (∀ out, fst (V4.download_dataset E s) = Ret out →
         pushed evs = [out]
         ∧ fst (V4.main E s)
           = match push_to_hub E out with
             | None => Ret tt
             | Some m => Raise (RemoteError m)
             end).
Proof.
  destruct (V4_download_dataset_emits E s) as (evs1 & Htr1 & P1).
  destruct (translation_events_quiet evs1 P1) as (Hp1 & _ & _).
  unfold V4.main, bind.
  destruct (V4.download_dataset E s) as [[out|e] s1]; cbn [fst snd] in *.
  - unfold V4.push, try_except, log, bind, emit, raise, ret.
    cbn [ncalls trace].
    destruct (push_to_hub E out) as [m|] eqn:Hpush;
      cbn [fst snd ncalls trace];
      rewrite Htr1, <- !app_assoc;
      (eexists; split; [reflexivity|]);
      rewrite !pushed_app, Hp1; cbn;
      (split; [lia|]); (split; [discriminate|]);
      intros out' [= <-]; by rewrite Hpush.
  - exists evs1. split; [exact Htr1|]. rewrite Hp1. cbn.
    split; [lia|]. split; [|discriminate]. by intros e' [= <-].
Qed.

(** ** Checkpoint names of translate_to_bn_v2.py *)

Lemma string_of_uint_digits u : all_digits (NilEmpty.string_of_uint u) = true.
Proof. induction u; cbn; done. Qed.

Lemma str_cons_app a (x y : string) : String a x +:+ y = String a (x +:+ y).
Proof. reflexivity. Qed.

Lemma str_nil_app (y : string) : "" +:+ y = y.
Proof. reflexivity. Qed.

Lemma digits_split (d1 : string) : ∀ d2 r1 r2,
  all_digits d1 = true → all_digits d2 = true →
  d1 +:+ "_" +:+ r1 = d2 +:+ "_" +:+ r2 → d1 = d2 ∧ r1 = r2.
Proof.
  induction d1 as [|a d1 IH]; intros [|b d2] r1 r2 H1 H2 H;
    rewrite ?str_cons_app, ?str_nil_app in H.
  - by injection H as ->.
  - injection H as <- _. discriminate.
  - injection H as -> _. discriminate.
  - injection H as -> H. cbn [all_digits] in H1, H2.
    apply andb_prop in H1 as [_ H1]. apply andb_prop in H2 as [_ H2].
    destruct (IH d2 r1 r2 H1 H2 H) as [-> ->]. done.
Qed.

(** X19.  [save_checkpoint] of translate_to_bn_v2.py names its file after
    the checkpoint number and the clock: two checkpoints get the same path
    exactly when they have the same number and were stamped with the same
    second, so checkpoints of different numbers never overwrite each other
    and a later run overwrites an earlier checkpoint only within the same
    second. *)
Theorem V2_checkpoint_path_inj (E E' : env) (n m : nat) :
  V2.checkpoint_path E n = V2.checkpoint_path E' m
  ↔ n = m ∧ timestamp E n = timestamp E' m.
Proof.
  unfold V2.checkpoint_path, path_join. split.
  - intros H. do 3 apply String.app_inj in H.
    apply digits_split in H as [Hn Ht];
      [|apply string_of_uint_digits..].
    split; [by apply str_of_nat_inj | by apply str_app_inv_r in Ht].
  - by intros [-> ->].
Qed.
